(** * serial/port.c: the RFCOMM serial port registry

    A shallow embedding of [serial/port.c] of BlueZ and the properties of
    its session registry: the two node lists [connected_nodes] and
    [bound_nodes], the cleanup routine [rfcomm_node_free], its triggers and
    the creation paths [port_add_listener] and [port_register].

    C pointers to [struct rfcomm_node] are addresses into an explicit heap,
    so that aliasing, freeing and dangling pointers are visible.  A
    computation is a function from the program state to [option]: [None]
    stands for undefined behaviour of the C program (dereferencing a freed
    or NULL pointer, reading a freed list cell, freeing a record twice).  The collaborators of the
    file (the bus helper, the GLib main loop, the RFCOMM allocator) appear
    as the tables they keep about nodes and as a log of the calls made to
    them.

    The file has the model first (data, monad, strings, lists,
    collaborators, the functions of port.c, well-formed states, example
    states), then the properties, then the examples that instantiate
    them. *)

From Stdlib Require Import ZArith String Ascii List Lia.
From stdpp Require Import base option list gmap strings.

Local Open Scope string_scope.
Local Open Scope list_scope.
Local Open Scope Z_scope.

(** ** Data *)

(** Address of a [struct rfcomm_node] obtained from [g_new0]. *)
Abbreviation ptr := nat (only parsing).
(** A [DBusConnection *], as an opaque handle. *)
Abbreviation DBusConnection := nat (only parsing).
(** A [GIOChannel *]: the channel made by [g_io_channel_unix_new] for a
    file descriptor. *)
Definition GIOChannel := Z.
(** [bdaddr_t]: the six bytes of a Bluetooth address, as a 48-bit number. *)
Definition bdaddr_t := Z.

(** [struct rfcomm_node].  Pointer members are [option]s: [None] is NULL. *)
Record rfcomm_node := Node {
  id : Z;
  src : bdaddr_t;
  dst : bdaddr_t;
  svcname : option string;
  device : option string;
  conn : option DBusConnection;
  owner : option string;
  io : option GIOChannel;
  io_id : nat
}.

(** What [g_new0 (struct rfcomm_node, 1)] returns: all bytes zero. *)
Definition node0 : rfcomm_node :=
  Node 0 0 0 None None None None None 0%nat.

(** Calls into the collaborators that leave a visible mark: signals on the
    bus, releases of RFCOMM device ids, reference counting and closing. *)
Inductive event :=
| EvSignal (c : DBusConnection) (path iface member arg : string)
| EvRelease (dev_id : Z)
| EvConnRef (c : DBusConnection)
| EvConnUnref (c : DBusConnection)
| EvIoClose (ch : GIOChannel)
| EvIoUnref (ch : GIOChannel).

(** A name listener of the bus helper: connection, watched bus name and
    the user data given to [connection_owner_exited]. *)
Definition listener : Type := DBusConnection * string * ptr.

(** The program state: the heap of node records, the two static lists of
    the file, and the tables of the collaborators that hold pointers to
    nodes (name listeners, GLib sources, published object paths). *)
Record state := State {
  heap : gmap nat rfcomm_node;        (* the live records, by address *)
  next_node : nat;                    (* the address g_new0 returns next *)
  connected_nodes : list ptr;         (* static GSList *connected_nodes *)
  bound_nodes : list ptr;             (* static GSList *bound_nodes *)
  listeners : list listener;          (* the name listeners installed *)
  sources : gmap nat ptr;             (* GLib sources: id to user data *)
  next_source : nat;                  (* the id g_io_add_watch returns next *)
  objects : gmap (nat * string) ptr;  (* published paths: user data *)
  log : list event                    (* the events so far, oldest first *)
}.

Definition init : state :=
  State ∅ 0%nat [] [] [] ∅ 1%nat ∅ [].

Definition set_heap (f : gmap nat rfcomm_node → gmap nat rfcomm_node)
    (s : state) : state :=
  State (f (heap s)) (next_node s) (connected_nodes s) (bound_nodes s)
        (listeners s) (sources s) (next_source s) (objects s) (log s).
Definition set_connected_nodes (f : list ptr → list ptr) (s : state)
    : state :=
  State (heap s) (next_node s) (f (connected_nodes s)) (bound_nodes s)
        (listeners s) (sources s) (next_source s) (objects s) (log s).
Definition set_bound_nodes (f : list ptr → list ptr) (s : state) : state :=
  State (heap s) (next_node s) (connected_nodes s) (f (bound_nodes s))
        (listeners s) (sources s) (next_source s) (objects s) (log s).
Definition set_listeners (f : list listener → list listener) (s : state)
    : state :=
  State (heap s) (next_node s) (connected_nodes s) (bound_nodes s)
        (f (listeners s)) (sources s) (next_source s) (objects s) (log s).
Definition set_sources (f : gmap nat ptr → gmap nat ptr) (s : state)
    : state :=
  State (heap s) (next_node s) (connected_nodes s) (bound_nodes s)
        (listeners s) (f (sources s)) (next_source s) (objects s) (log s).
Definition set_objects
    (f : gmap (nat * string) ptr → gmap (nat * string) ptr) (s : state)
    : state :=
  State (heap s) (next_node s) (connected_nodes s) (bound_nodes s)
        (listeners s) (sources s) (next_source s) (f (objects s)) (log s).

(** ** The computation monad *)

Definition M (A : Type) : Type := state → option (A * state).

#[global] Instance M_ret : MRet M := λ A a s, Some (a, s).
#[global] Instance M_bind : MBind M := λ A B f m s,
  match m s with
  | Some (a, s') => f a s'
  | None => None
  end.

(** Undefined behaviour. *)
Definition fault {A} : M A := λ _, None.
Definition get : M state := λ s, Some (s, s).
Definition modify (f : state → state) : M unit := λ s, Some (tt, f s).
Definition emit (e : event) : M unit := λ s,
  Some (tt, State (heap s) (next_node s) (connected_nodes s) (bound_nodes s)
                  (listeners s) (sources s) (next_source s) (objects s)
                  (log s ++ [e])).
(** Reading through a pointer that may be NULL. *)
Definition nonnull {A} (o : option A) : M A :=
  match o with Some a => mret a | None => fault end.
(** [*p] for a node pointer: defined on live records only. *)
Definition deref (p : ptr) : M rfcomm_node := λ s,
  match heap s !! p with Some n => Some (n, s) | None => None end.
(** [p->field = v]. *)
Definition store (p : ptr) (f : rfcomm_node → rfcomm_node) : M unit := λ s,
  match heap s !! p with
  | Some n => Some (tt, set_heap <[p := f n]> s)
  | None => None
  end.


(** ** Strings: the [printf] and [scanf] directives the file uses *)

(** Conversion to [short]: the value is reduced modulo 2^16 into the range
    of [int16_t]. *)
Definition int16 (z : Z) : Z := (z + 32768) mod 65536 - 32768.

Definition digit_char (d : Z) : ascii := ascii_of_nat (48 + Z.to_nat d).

(** Decimal digits of a natural number; [fuel] bounds the number of digits. *)
Fixpoint decimal (fuel : nat) (n : Z) (acc : string) : string :=
  match fuel with
  | O => acc
  | S fuel' =>
      let acc' := String (digit_char (n mod 10)) acc in
      if n / 10 =? 0 then acc' else decimal fuel' (n / 10) acc'
  end.

(** What [printf] writes for the directive [%hd]. *)
Definition fmt_hd (z : Z) : string :=
  let v := int16 z in
  if v <? 0 then String "-" (decimal 5 (- v) "") else decimal 5 v "".

Fixpoint take_string (n : nat) (s : string) : string :=
  match n, s with
  | S n', String a r => String a (take_string n' r)
  | _, _ => ""
  end.

(** [snprintf (buf, size, ...)] for the formatted text [s]: at most
    [size - 1] characters are kept (the last byte is the terminator). *)
Definition snprintf (size : nat) (s : string) : string :=
  take_string (size - 1) s.

(** [isspace] in the C locale. *)
Definition isspace (a : ascii) : bool :=
  let n := nat_of_ascii a in
  (n =? 32)%nat || ((9 <=? n)%nat && (n <=? 13)%nat).

Definition digit_val (a : ascii) : option Z :=
  let n := Z.of_nat (nat_of_ascii a) in
  if (48 <=? n) && (n <=? 57) then Some (n - 48) else None.

Fixpoint skip_space (s : string) : string :=
  match s with
  | String a r => if isspace a then skip_space r else s
  | EmptyString => s
  end.

(** The value of the longest prefix of digits, after the digits [acc]. *)
Fixpoint scan_digits (acc : Z) (s : string) : Z :=
  match s with
  | String a r =>
      match digit_val a with
      | Some d => scan_digits (10 * acc + d) r
      | None => acc
      end
  | EmptyString => acc
  end.

(** [strtol] saturates at the bounds of [long]. *)
Definition clamp_long (z : Z) : Z :=
  Z.max (- 2 ^ 63) (Z.min (2 ^ 63 - 1) z).

(** What [scanf] reads for the directive [%hd]: blanks are skipped, then
    an optional sign and at least one digit are read; whatever follows the
    digits is left unread.  The number is converted as the C library does:
    by [strtol], then stored into a [short].  [None] when no digit is
    found (the conversion fails). *)
Definition scan_hd (s : string) : option Z :=
  let s1 := skip_space s in
  let '(neg, s2) :=
    match s1 with
    | String "-" r => (true, r)
    | String "+" r => (false, r)
    | _ => (false, s1)
    end in
  match s2 with
  | String a r =>
      match digit_val a with
      | Some d =>
          let v := scan_digits d r in
          Some (int16 (clamp_long (if neg then - v else v)))
      | None => None
      end
  | EmptyString => None
  end.

(** Matching the ordinary characters of a [scanf] format against the
    input: the rest of the input, or [None] on a mismatch. *)
Fixpoint scan_literal (lit s : string) : option string :=
  match lit, s with
  | EmptyString, _ => Some s
  | String a lit', String b s' =>
      if Ascii.eqb a b then scan_literal lit' s' else None
  | String _ _, EmptyString => None
  end.

(** [strcmp (a, b) == 0]. *)
Definition streq (a b : string) : bool := bool_decide (a = b).

Definition ENOENT : Z := 2.
Definition EPERM : Z := 1.

(** ** GLib singly linked lists *)

(** [g_slist_append]: the new cell goes to the end of the list. *)
Definition g_slist_append (l : list ptr) (p : ptr) : list ptr := l ++ [p].

(** [g_slist_remove]: the first cell whose data is [p] is unlinked; the
    list is unchanged when there is none. *)
Fixpoint g_slist_remove (l : list ptr) (p : ptr) : list ptr :=
  match l with
  | [] => []
  | q :: l' => if decide (q = p) then l' else q :: g_slist_remove l' p
  end.

(** ** The collaborators *)

(** [g_new0 (struct rfcomm_node, 1)]: a fresh zeroed record. *)
Definition g_new0 : M ptr := λ s,
  let p := next_node s in
  Some (p, State (<[p := node0]> (heap s)) (S p) (connected_nodes s)
                 (bound_nodes s) (listeners s) (sources s) (next_source s)
                 (objects s) (log s)).

(** [g_free (node)]: the record stops being live; freeing a record that is
    not live is undefined. *)
Definition g_free (p : ptr) : M unit := λ s,
  match heap s !! p with
  | Some _ => Some (tt, set_heap (delete p) s)
  | None => None
  end.

(** [g_io_add_watch]: a new event source for the channel, whose callback
    is [rfcomm_disconnect_cb] with the node as user data; the result is
    the id of the source. *)
Definition g_io_add_watch (p : ptr) : M nat := λ s,
  let i := next_source s in
  Some (i, State (heap s) (next_node s) (connected_nodes s) (bound_nodes s)
                 (listeners s) (<[i := p]> (sources s)) (S i) (objects s)
                 (log s)).

(** [g_source_remove]: the source is taken out of the main loop; nothing
    happens when the id names no source. *)
Definition g_source_remove (i : nat) : M unit :=
  modify (set_sources (delete i)).

Fixpoint remove_listener (e : listener) (l : list listener) : list listener :=
  match l with
  | [] => []
  | x :: l' => if decide (x = e) then l' else x :: remove_listener e l'
  end.

(** Modelled from the spec: [name_listener_add] of the bus helper, which
    is not among the sources.  It registers the liveness watch
    (identity, callback, context); [ok] tells whether the bus helper could
    install it.  The callback is always [connection_owner_exited]. *)
Definition name_listener_add (ok : bool) (c : DBusConnection) (name : string)
    (p : ptr) : M Z :=
  if ok then
    _ ← modify (set_listeners (λ l, l ++ [(c, name, p)])); mret 0
  else mret (-1).

(** Modelled from the spec: [name_listener_remove] of the bus helper,
    which unregisters the watch (connection, identity, callback,
    context). *)
Definition name_listener_remove (c : DBusConnection) (name : string)
    (p : ptr) : M unit :=
  modify (set_listeners (remove_listener (c, name, p))).

(** ** The functions of port.c *)

Section Port.

(** Macros of [manager.h], which is not among the sources.  The object
    path of the manager has neither blanks nor [%], so [sscanf] matches it
    character by character. *)
Variable SERIAL_MANAGER_PATH : string.
Variable SERIAL_MANAGER_INTERFACE : string.
Variable MAX_PATH_LENGTH : nat.

(** The signal of the file, for the device name [d]. *)
Definition ServiceDisconnected (c : DBusConnection) (d : string) : event :=
  EvSignal c SERIAL_MANAGER_PATH SERIAL_MANAGER_INTERFACE
           "ServiceDisconnected" d.

(** [dbus_connection_emit_signal] for the signal of this file. *)
Definition emit_ServiceDisconnected (c : DBusConnection) (dev : string)
    : M unit :=
  emit (ServiceDisconnected c dev).

Fixpoint find_node_by_name (nodes : list ptr) (dev : string) : M (option ptr) :=
  match nodes with
  | [] => mret None
  | p :: l =>
      node ← deref p;
      d ← nonnull (device node);
      if streq d dev then mret (Some p) else find_node_by_name l dev
  end.

(** The strings [device], [owner] and [svcname] are owned by the record:
    freeing them leaves no mark of its own in the state. *)
Definition rfcomm_node_free (p : ptr) : M unit :=
  node ← deref p;
  _ ← match conn node with
      | Some c => emit (EvConnUnref c)
      | None => mret tt
      end;
  _ ← match io node with
      | Some ch =>
          _ ← g_source_remove (io_id node);
          _ ← emit (EvIoClose ch);
          emit (EvIoUnref ch)
      | None => mret tt
      end;
  _ ← emit (EvRelease (id node));
  g_free p.

Definition connection_owner_exited (name : string) (p : ptr) : M unit :=
  node ← deref p;
  c ← nonnull (conn node);
  dev ← nonnull (device node);
  _ ← emit_ServiceDisconnected c dev;
  _ ← modify (set_connected_nodes (λ l, g_slist_remove l p));
  rfcomm_node_free p.

(** The channel and the condition the callback is given are not used
    beyond the debug message.  The result is [FALSE]: the main loop is to
    drop the source. *)
Definition rfcomm_disconnect_cb (p : ptr) : M bool :=
  node ← deref p;
  c ← nonnull (conn node);
  o ← nonnull (owner node);
  _ ← name_listener_remove c o p;
  dev ← nonnull (device node);
  _ ← emit_ServiceDisconnected c dev;
  _ ← modify (set_connected_nodes (λ l, g_slist_remove l p));
  _ ← rfcomm_node_free p;
  mret false.

Definition port_handler_unregister (c : DBusConnection) (p : ptr) : M unit :=
  _ ← deref p;
  _ ← modify (set_bound_nodes (λ l, g_slist_remove l p));
  rfcomm_node_free p.

(** Modelled from the spec: [dbus_connection_create_object_path] of the
    bus helper, which is not among the sources.  It publishes an object
    at [path] with the node as user data and [port_handler_unregister] as
    the function to call when the object is destroyed.  It fails when the
    bus layer cannot allocate the object ([ok] is false) or when the path
    is already taken. *)
Definition dbus_connection_create_object_path (ok : bool)
    (c : DBusConnection) (path : string) (p : ptr) : M bool := λ s,
  match objects s !! (c, path) with
  | Some _ => Some (false, s)
  | None =>
      if ok then Some (true, set_objects <[(c, path) := p]> s)
      else Some (false, s)
  end.

(** Modelled from the spec: [dbus_connection_destroy_object_path] of the
    bus helper, which is not among the sources.  Unpublishing an object
    calls, before it returns, the unregister function the object was
    created with, on its user data. *)
Definition dbus_connection_destroy_object_path (c : DBusConnection)
    (path : string) : M bool :=
  s ← get;
  match objects s !! (c, path) with
  | Some p =>
      _ ← modify (set_objects (delete (c, path)));
      _ ← port_handler_unregister c p;
      mret true
  | None => mret false
  end.

(** Modelled from the spec: [dbus_connection_register_interface] of the
    bus helper, which is not among the sources.  [ok] tells whether the
    bus layer could attach the method table to the path. *)
Definition dbus_connection_register_interface (ok : bool)
    (c : DBusConnection) (path : string) : M bool :=
  mret ok.

(** [install_ok]: whether the bus helper can install the name listener.
    [dev_id] is the [int16_t id], [fd] the descriptor of the RFCOMM
    socket. *)
Definition port_add_listener (install_ok : bool) (c : DBusConnection)
    (dev_id : Z) (dst_addr : bdaddr_t) (fd : Z) (dev : string)
    (own : string) : M Z :=
  p ← g_new0;
  _ ← store p (λ n, Node (id n) (src n) dst_addr (svcname n) (device n)
                         (conn n) (owner n) (io n) (io_id n));
  _ ← store p (λ n, Node dev_id (src n) (dst n) (svcname n) (device n)
                         (conn n) (owner n) (io n) (io_id n));
  _ ← store p (λ n, Node (id n) (src n) (dst n) (svcname n) (Some dev)
                         (conn n) (owner n) (io n) (io_id n));
  _ ← emit (EvConnRef c);
  _ ← store p (λ n, Node (id n) (src n) (dst n) (svcname n) (device n)
                         (Some c) (owner n) (io n) (io_id n));
  _ ← store p (λ n, Node (id n) (src n) (dst n) (svcname n) (device n)
                         (conn n) (Some own) (io n) (io_id n));
  _ ← store p (λ n, Node (id n) (src n) (dst n) (svcname n) (device n)
                         (conn n) (owner n) (Some fd) (io_id n));
  i ← g_io_add_watch p;
  _ ← store p (λ n, Node (id n) (src n) (dst n) (svcname n) (device n)
                         (conn n) (owner n) (io n) i);
  _ ← modify (set_connected_nodes (λ l, g_slist_append l p));
  name_listener_add install_ok c own p.

Definition port_remove_listener (own : string) (dev : string) : M Z :=
  s ← get;
  r ← find_node_by_name (connected_nodes s) dev;
  match r with
  | None => mret (- ENOENT)
  | Some p =>
      node ← deref p;
      o ← nonnull (owner node);
      if negb (streq o own) then mret (- EPERM)
      else
        c ← nonnull (conn node);
        _ ← name_listener_remove c own p;
        _ ← modify (set_connected_nodes (λ l, g_slist_remove l p));
        _ ← rfcomm_node_free p;
        mret 0
  end.

(** The loop [for (l = connected_nodes; l; l = l->next)].  With an empty
    list the body never runs.  Otherwise [l] is the first cell of
    [connected_nodes] and [node] its data: [g_slist_remove] unlinks the
    first cell that holds [node], which is the cell [l] itself, and frees
    it; [rfcomm_node_free] frees the record; and then the step of the
    loop, [l = l->next], reads the cell that has just been freed.  Reading
    freed memory is undefined, for a list cell as for a record, so the
    call is undefined whenever the list is not empty. *)
Definition port_release_all : M unit :=
  s ← get;
  match connected_nodes s with
  | [] => mret tt
  | node :: _ =>
      _ ← modify (set_connected_nodes (λ c, g_slist_remove c node));
      _ ← rfcomm_node_free node;
      fault
  end.

(** The object path of a port: [snprintf (path, MAX_PATH_LENGTH,
    "%s/rfcomm%hd", SERIAL_MANAGER_PATH, id)]. *)
Definition port_path (dev_id : Z) : string :=
  snprintf MAX_PATH_LENGTH
           (SERIAL_MANAGER_PATH +:+ "/rfcomm" +:+ fmt_hd dev_id).

(** [create_ok] and [register_ok]: whether the bus layer can allocate the
    object and attach the interface.  [want_path] is [ppath != NULL]; the
    second component of the result is what is copied to [ppath]. *)
Definition port_register (create_ok register_ok : bool) (c : DBusConnection)
    (dev_id : Z) (src_addr dst_addr : bdaddr_t) (dev : string)
    (want_path : bool) (svc : option string) : M (Z * option string) :=
  p ← g_new0;
  _ ← store p (λ n, Node (id n) (src n) dst_addr (svcname n) (device n)
                         (conn n) (owner n) (io n) (io_id n));
  _ ← store p (λ n, Node (id n) src_addr (dst n) (svcname n) (device n)
                         (conn n) (owner n) (io n) (io_id n));
  _ ← store p (λ n, Node dev_id (src n) (dst n) (svcname n) (device n)
                         (conn n) (owner n) (io n) (io_id n));
  _ ← store p (λ n, Node (id n) (src n) (dst n) (svcname n) (Some dev)
                         (conn n) (owner n) (io n) (io_id n));
  _ ← emit (EvConnRef c);
  _ ← store p (λ n, Node (id n) (src n) (dst n) (svcname n) (device n)
                         (Some c) (owner n) (io n) (io_id n));
  _ ← store p (λ n, Node (id n) (src n) (dst n)
                         (Some (default "Bluetooth RFCOMM port" svc))
                         (device n) (conn n) (owner n) (io n) (io_id n));
  let path := port_path dev_id in
  created ← dbus_connection_create_object_path create_ok c path p;
  if negb created then
    _ ← rfcomm_node_free p;
    mret (-1, None)
  else
    registered ← dbus_connection_register_interface register_ok c path;
    if negb registered then
      _ ← dbus_connection_destroy_object_path c path;
      mret (-1, None)
    else
      _ ← modify (set_bound_nodes (λ l, g_slist_append l p));
      mret (0, if want_path then Some path else None).

(** [sscanf (path, SERIAL_MANAGER_PATH "/rfcomm%hd", &id)]: the id when
    the result is 1, [None] otherwise. *)
Definition sscanf_rfcomm (path : string) : option Z :=
  match scan_literal (SERIAL_MANAGER_PATH +:+ "/rfcomm") path with
  | Some rest => scan_hd rest
  | None => None
  end.

(** [snprintf (dev, sizeof (dev), "/dev/rfcomm%hd", id)] with
    [char dev[16]]. *)
Definition rfcomm_dev_name (dev_id : Z) : string :=
  snprintf 16 ("/dev/rfcomm" +:+ fmt_hd dev_id).

Definition port_unregister (path : string) : M Z :=
  match sscanf_rfcomm path with
  | None => mret (- ENOENT)
  | Some dev_id =>
      let dev := rfcomm_dev_name dev_id in
      s ← get;
      r ← find_node_by_name (bound_nodes s) dev;
      match r with
      | None => mret (- ENOENT)
      | Some p =>
          node ← deref p;
          c ← nonnull (conn node);
          _ ← dbus_connection_destroy_object_path c path;
          mret 0
      end
  end.

(** *** The event loop firing a watch *)

(** Modelled from the spec: the main loop dispatching the transport
    watch [i], which is not among the sources.  It calls the callback of
    the source, [rfcomm_disconnect_cb], on its user data and drops the
    source when the callback returns [FALSE]. *)
Definition fire_io_watch (i : nat) : M unit :=
  s ← get;
  match sources s !! i with
  | Some p =>
      keep ← rfcomm_disconnect_cb p;
      if keep : bool then mret tt else g_source_remove i
  | None => mret tt
  end.

(** Modelled from the spec: the liveness watcher reporting that the
    watched identity left the bus, which is not among the sources.  The
    watch fires at most once: the registration is consumed and its
    callback, [connection_owner_exited], is called with the bus name and
    the user data. *)
Definition fire_name_listener (e : listener) : M unit :=
  s ← get;
  if decide (e ∈ listeners s) then
    _ ← modify (set_listeners (remove_listener e));
    connection_owner_exited e.1.2 e.2
  else mret tt.

End Port.

(** ** Observations on the log and well-formed states *)

(** The signals among the events. *)
Definition signals_of (l : list event) : list event :=
  List.filter (λ e, match e with EvSignal _ _ _ _ _ => true | _ => false end) l.

(** The RFCOMM device ids released by the events, in order. *)
Definition released_of (l : list event) : list Z :=
  flat_map (λ e, match e with EvRelease i => [i] | _ => [] end) l.

(** The device name of the record at [p], when [p] is live and the name
    is not NULL. *)
Definition device_at (s : state) (p : ptr) : option string :=
  heap s !! p ≫= device.

(** The device id of the record at [p]. *)
Definition id_at (s : state) (p : ptr) : option Z :=
  id <$> heap s !! p.

(** A node of [connected_nodes] as [port_add_listener] makes it: live,
    with its strings, connection and channel set, and its transport watch
    installed. *)
Definition connected_ok (s : state) (p : ptr) : Prop :=
  match heap s !! p with
  | Some n =>
      is_Some (device n) ∧ is_Some (conn n) ∧ is_Some (owner n) ∧
      is_Some (io n) ∧ sources s !! io_id n = Some p
  | None => False
  end.

(** A node of [bound_nodes] as [port_register] makes it: live, with its
    device name and connection set and no channel. *)
Definition bound_ok (s : state) (p : ptr) : Prop :=
  match heap s !! p with
  | Some n => is_Some (device n) ∧ is_Some (conn n) ∧ io n = None
  | None => False
  end.

(** A name listener belongs to a connected node and was registered with
    the connection and owner of that node. *)
Definition listener_ok (s : state) (e : listener) : Prop :=
  e.2 ∈ connected_nodes s ∧
  match heap s !! e.2 with
  | Some n => conn n = Some e.1.1 ∧ owner n = Some e.1.2
  | None => False
  end.

(** The states the functions of the file keep the registry in: every list
    cell points to a live record of its kind, no record is listed twice,
    every watch and every published object belongs to a listed record, no
    record is published twice, and [g_new0] and [g_io_add_watch] return
    addresses and ids that are not in use. *)
Definition wf (s : state) : Prop :=
  NoDup (connected_nodes s) ∧
  NoDup (bound_nodes s) ∧
  Forall (connected_ok s) (connected_nodes s) ∧
  Forall (bound_ok s) (bound_nodes s) ∧
  NoDup (listeners s) ∧
  Forall (listener_ok s) (listeners s) ∧
  map_Forall (λ i p, p ∈ connected_nodes s ∧ io_id <$> heap s !! p = Some i)
             (sources s) ∧
  map_Forall (λ i _, (i < next_source s)%nat) (sources s) ∧
  map_Forall (λ _ p, p ∈ bound_nodes s) (objects s) ∧
  map_Forall (λ k p, map_Forall (λ k' p', p = p' → k = k') (objects s))
             (objects s) ∧
  map_Forall (λ p _, (p < next_node s)%nat) (heap s).

#[global] Instance connected_ok_dec s p : Decision (connected_ok s p).
Proof. unfold connected_ok. destruct (heap s !! p); apply _. Defined.

#[global] Instance bound_ok_dec s p : Decision (bound_ok s p).
Proof. unfold bound_ok. destruct (heap s !! p); apply _. Defined.

#[global] Instance listener_ok_dec s e : Decision (listener_ok s e).
Proof. unfold listener_ok. destruct (heap s !! e.2); apply _. Defined.

#[global] Instance wf_dec s : Decision (wf s).
Proof. unfold wf. apply _. Defined.

(** No record of the list carries the name [d] (and every record has a
    name, so that the scan is defined). *)
Definition no_device (s : state) (d : string) (l : list ptr) : Prop :=
  Forall (λ q, ∃ d', device_at s q = Some d' ∧ d' ≠ d) l.

(** The first record of the list [l] named [d] is the one at [p]. *)
Definition first_with_device (s : state) (l : list ptr) (d : string)
    (p : ptr) : Prop :=
  ∃ l1 l2, l = l1 ++ p :: l2 ∧ no_device s d l1 ∧ device_at s p = Some d.

(** The marks [rfcomm_node_free] leaves for the record [n]. *)
Definition free_events (n : rfcomm_node) : list event :=
  match conn n with Some c => [EvConnUnref c] | None => [] end ++
  match io n with Some ch => [EvIoClose ch; EvIoUnref ch] | None => [] end ++
  [EvRelease (id n)].

(** The state [rfcomm_node_free] leaves for the record [n] at [p]. *)
Definition freed (p : ptr) (n : rfcomm_node) (s : state) : state :=
  State (delete p (heap s)) (next_node s) (connected_nodes s) (bound_nodes s)
        (listeners s)
        (match io n with
         | Some _ => delete (io_id n) (sources s)
         | None => sources s
         end)
        (next_source s) (objects s) (log s ++ free_events n).

(** The record [port_register] fills in. *)
Definition bound_node (c : DBusConnection) (dev_id : Z)
    (src_addr dst_addr : bdaddr_t) (dev : string) (svc : option string)
    : rfcomm_node :=
  Node dev_id src_addr dst_addr (Some (default "Bluetooth RFCOMM port" svc))
       (Some dev) (Some c) None None 0%nat.

(** The state [port_unregister] leaves when its lookup succeeds with a
    node whose connection is [c]: the object published at the path, if
    there is one, is destroyed, and with it the node it was published
    for. *)
Definition unpublished (c : DBusConnection) (path : string) (s : state)
    : state :=
  match objects s !! (c, path) with
  | Some q =>
      match heap s !! q with
      | Some nq =>
          freed q nq (set_bound_nodes (λ l, g_slist_remove l q)
                        (set_objects (delete (c, path)) s))
      | None => s
      end
  | None => s
  end.

(** One call into the file that returns: a request of the manager, or
    the event loop firing a watch. *)
Inductive step (manager iface : string) (path_length : nat)
    : state → state → Prop :=
| step_port_add_listener ok c dev_id dst_addr fd dev own r s s' :
    port_add_listener ok c dev_id dst_addr fd dev own s = Some (r, s') →
    step manager iface path_length s s'
| step_port_remove_listener own dev r s s' :
    port_remove_listener own dev s = Some (r, s') →
    step manager iface path_length s s'
| step_port_register create_ok register_ok c dev_id src_addr dst_addr dev
                     want svc r s s' :
    port_register manager path_length create_ok register_ok c dev_id src_addr
                  dst_addr dev want svc s = Some (r, s') →
    step manager iface path_length s s'
| step_port_unregister path r s s' :
    port_unregister manager path s = Some (r, s') →
    step manager iface path_length s s'
| step_io_watch i s s' :
    fire_io_watch manager iface i s = Some (tt, s') →
    step manager iface path_length s s'
| step_name_listener e s s' :
    fire_name_listener manager iface e s = Some (tt, s') →
    step manager iface path_length s s'
| step_port_release_all s s' :
    port_release_all s = Some (tt, s') →
    step manager iface path_length s s'.

(** The states the registry can be in, starting empty. *)
Inductive reachable (manager iface : string) (path_length : nat)
    : state → Prop :=
| reachable_init : reachable manager iface path_length init
| reachable_step s s' :
    reachable manager iface path_length s →
    step manager iface path_length s s' →
    reachable manager iface path_length s'.

(** ** The methods of the interface org.bluez.serial.Port *)

(** What a method handler returns to the bus layer. *)
Inductive DBusHandlerResult :=
| DBUS_HANDLER_RESULT_HANDLED
| DBUS_HANDLER_RESULT_NEED_MEMORY.

(** An argument of a reply: a string ([DBUS_TYPE_STRING]) or, for
    GetInfo, an array of dictionary entries from a string to a variant
    that holds a string. *)
Inductive dbus_arg :=
| DBusString (v : string)
| DBusDict (entries : list (string * string)).

(** A method return as it is sent: the connection and the arguments. *)
Definition DBusReply : Type := nat * list dbus_arg.

(** The signature of the arguments, as D-Bus writes it. *)
Definition signature_of (args : list dbus_arg) : string :=
  fold_right (λ a r, match a with
                     | DBusString _ => "s" +:+ r
                     | DBusDict _ => "a{sv}" +:+ r
                     end) "" args.

Section Methods.

(** [ba2str] of the Bluetooth library and [read_device_name] of
    storage.c, which are not among the sources: the text of an address,
    and the stored name of a remote device, if there is one. *)
Variable ba2str : bdaddr_t → string.
Variable read_device_name : bdaddr_t → bdaddr_t → option string.

(** Modelled from the spec: [send_message_and_unref] of the bus helper,
    which is not among the sources.  It sends the message, releases it
    and reports the call as handled.  The message sent is the second
    component of the result of a handler. *)
Definition send_message_and_unref (c : DBusConnection)
    (args : list dbus_arg) : M (DBusHandlerResult * option DBusReply) :=
  mret (DBUS_HANDLER_RESULT_HANDLED, Some (c, args)).

(** In the handlers [alloc_ok] tells whether
    [dbus_message_new_method_return] could allocate the reply, and [p] is
    the [data] pointer the method was registered with. *)
Definition port_get_address (alloc_ok : bool) (c : DBusConnection)
    (p : ptr) : M (DBusHandlerResult * option DBusReply) :=
  if negb alloc_ok then mret (DBUS_HANDLER_RESULT_NEED_MEMORY, None)
  else
    node ← deref p;
    send_message_and_unref c [DBusString (ba2str (dst node))].

Definition port_get_device (alloc_ok : bool) (c : DBusConnection)
    (p : ptr) : M (DBusHandlerResult * option DBusReply) :=
  if negb alloc_ok then mret (DBUS_HANDLER_RESULT_NEED_MEMORY, None)
  else
    node ← deref p;
    d ← nonnull (device node);
    send_message_and_unref c [DBusString d].

(** Here the address is formatted before the reply is allocated. *)
Definition port_get_adapter (alloc_ok : bool) (c : DBusConnection)
    (p : ptr) : M (DBusHandlerResult * option DBusReply) :=
  node ← deref p;
  let addr := ba2str (src node) in
  if negb alloc_ok then mret (DBUS_HANDLER_RESULT_NEED_MEMORY, None)
  else send_message_and_unref c [DBusString addr].

Definition port_get_name (alloc_ok : bool) (c : DBusConnection)
    (p : ptr) : M (DBusHandlerResult * option DBusReply) :=
  if negb alloc_ok then mret (DBUS_HANDLER_RESULT_NEED_MEMORY, None)
  else
    node ← deref p;
    let name := read_device_name (src node) (dst node) in
    send_message_and_unref c [DBusString (default "" name)].

Definition port_get_service_name (alloc_ok : bool) (c : DBusConnection)
    (p : ptr) : M (DBusHandlerResult * option DBusReply) :=
  if negb alloc_ok then mret (DBUS_HANDLER_RESULT_NEED_MEMORY, None)
  else
    node ← deref p;
    v ← nonnull (svcname node);
    send_message_and_unref c [DBusString v].

Definition port_get_info (alloc_ok : bool) (c : DBusConnection)
    (p : ptr) : M (DBusHandlerResult * option DBusReply) :=
  if negb alloc_ok then mret (DBUS_HANDLER_RESULT_NEED_MEMORY, None)
  else
    node ← deref p;
    d ← nonnull (device node);
    send_message_and_unref c
      [DBusDict [("device", d); ("address", ba2str (dst node))]].

(** [port_methods]: the name of each method, its handler and the
    signatures of its arguments and of its reply. *)
Definition port_methods
    : list (string *
            (bool → DBusConnection → ptr →
             M (DBusHandlerResult * option DBusReply)) *
            string * string) :=
  [ ("GetAddress", port_get_address, "", "s");
    ("GetDevice", port_get_device, "", "s");
    ("GetAdapter", port_get_adapter, "", "s");
    ("GetName", port_get_name, "", "s");
    ("GetServiceName", port_get_service_name, "", "s");
    ("GetInfo", port_get_info, "", "a{sv}") ].

End Methods.

(** ** More observations *)

(** The records are accounted for: every record [g_new0] ever returned is
    either live or has had its device id released, and every live record
    is in one of the two lists. *)
Definition accounted (s : state) : Prop :=
  (length (released_of (log s)) + size (heap s))%nat = next_node s ∧
  map_Forall (λ p _, p ∈ connected_nodes s ∨ p ∈ bound_nodes s) (heap s).

(** From [s] to [s'] events were added to the log, none of them a
    signal. *)
Definition quiet (s s' : state) : Prop :=
  ∃ evs, log s' = log s ++ evs ∧ signals_of evs = [].

(** One call of a function that the manager calls: the five functions of
    the file that are not [static]. *)
Inductive call (manager : string) (path_length : nat)
    : state → state → Prop :=
| call_port_add_listener ok c dev_id dst_addr fd dev own r s s' :
    port_add_listener ok c dev_id dst_addr fd dev own s = Some (r, s') →
    call manager path_length s s'
| call_port_remove_listener own dev r s s' :
    port_remove_listener own dev s = Some (r, s') →
    call manager path_length s s'
| call_port_release_all s s' :
    port_release_all s = Some (tt, s') →
    call manager path_length s s'
| call_port_register create_ok register_ok c dev_id src_addr dst_addr dev
                     want svc r s s' :
    port_register manager path_length create_ok register_ok c dev_id src_addr
                  dst_addr dev want svc s = Some (r, s') →
    call manager path_length s s'
| call_port_unregister path r s s' :
    port_unregister manager path s = Some (r, s') →
    call manager path_length s s'.

Definition is_digit (a : ascii) : bool :=
  match digit_val a with Some _ => true | None => false end.

Fixpoint all_digits (t : string) : bool :=
  match t with
  | String a r => is_digit a && all_digits r
  | EmptyString => true
  end.

(** The text starts with a digit: [scanf] would go on reading it as part
    of a number. *)
Definition leading_digit (t : string) : bool :=
  match t with String a _ => is_digit a | EmptyString => false end.

(** A decimal number as [printf] writes it: digits, after a minus sign
    or not. *)
Definition decimal_text (t : string) : bool :=
  match t with
  | String a r =>
      if Ascii.eqb a "-"
      then match r with
           | String b r' => is_digit b && all_digits r'
           | EmptyString => false
           end
      else is_digit a && all_digits r
  | EmptyString => false
  end.

(** ** Example states *)

(** The macros as [manager.h] of BlueZ has them. *)
Definition manager_path : string := "/org/bluez/serial".
Definition manager_interface : string := "org.bluez.serial.Manager".
Definition max_path_length : nat := 64.

(** The scenario of the specification: the port /dev/rfcomm0 is bound for
    the service OBEX, then a client connects to it. *)
Definition ex_bound_record : rfcomm_node :=
  Node 0 11 22 (Some "OBEX") (Some "/dev/rfcomm0") (Some 1%nat) None None 0%nat.
Definition ex_connected_record : rfcomm_node :=
  Node 0 0 22 None (Some "/dev/rfcomm0") (Some 1%nat) (Some "org.client.Z")
       (Some 9) 1%nat.
Definition ex_scenario : state :=
  State {[ 0%nat := ex_bound_record; 1%nat := ex_connected_record ]} 2%nat
        [1%nat] [0%nat] [(1%nat, "org.client.Z", 1%nat)] {[ 1%nat := 1%nat ]}
        2%nat {[ (1%nat, "/org/bluez/serial/rfcomm0") := 0%nat ]}
        [EvConnRef 1%nat; EvConnRef 1%nat].

(** Two clients connected under one device name. *)
Definition ex_twin_first : rfcomm_node :=
  Node 0 0 22 None (Some "/dev/rfcomm0") (Some 1%nat) (Some "org.client.Z")
       (Some 9) 1%nat.
Definition ex_twin_second : rfcomm_node :=
  Node 1 0 33 None (Some "/dev/rfcomm0") (Some 1%nat) (Some "org.client.Y")
       (Some 10) 2%nat.
Definition ex_twins : state :=
  State {[ 0%nat := ex_twin_first; 1%nat := ex_twin_second ]} 2%nat
        [0%nat; 1%nat] []
        [(1%nat, "org.client.Z", 0%nat); (1%nat, "org.client.Y", 1%nat)]
        {[ 1%nat := 0%nat; 2%nat := 1%nat ]} 3%nat ∅
        [EvConnRef 1%nat; EvConnRef 1%nat].

(** Two ports bound with device names that do not follow their ids: the
    port with id 3 as /dev/port3, the port with id 5 as /dev/rfcomm3. *)
Definition ex_port3 : rfcomm_node :=
  Node 3 11 22 (Some "Bluetooth RFCOMM port") (Some "/dev/port3") (Some 1%nat)
       None None 0%nat.
Definition ex_port5 : rfcomm_node :=
  Node 5 11 33 (Some "OBEX") (Some "/dev/rfcomm3") (Some 1%nat) None None 0%nat.
Definition ex_mismatch : state :=
  State {[ 0%nat := ex_port3; 1%nat := ex_port5 ]} 2%nat [] [0%nat; 1%nat] []
        ∅ 1%nat
        {[ (1%nat, "/org/bluez/serial/rfcomm3") := 0%nat;
           (1%nat, "/org/bluez/serial/rfcomm5") := 1%nat ]}
        [EvConnRef 1%nat; EvConnRef 1%nat].

(** Two ports bound under one device name, the one with id 5 first, and
    two clients connected under one device name. *)
Definition ex_dup5 : rfcomm_node :=
  Node 5 11 22 (Some "Bluetooth RFCOMM port") (Some "/dev/rfcomm3")
       (Some 1%nat) None None 0%nat.
Definition ex_dup3 : rfcomm_node :=
  Node 3 11 33 (Some "OBEX") (Some "/dev/rfcomm3") (Some 1%nat) None None 0%nat.
Definition ex_dupZ : rfcomm_node :=
  Node 0 0 22 None (Some "/dev/rfcomm0") (Some 1%nat) (Some "org.client.Z")
       (Some 9) 1%nat.
Definition ex_dupY : rfcomm_node :=
  Node 1 0 33 None (Some "/dev/rfcomm0") (Some 1%nat) (Some "org.client.Y")
       (Some 10) 2%nat.
Definition ex_duplicates : state :=
  State {[ 0%nat := ex_dup5; 1%nat := ex_dup3; 2%nat := ex_dupZ;
           3%nat := ex_dupY ]} 4%nat
        [2%nat; 3%nat] [0%nat; 1%nat]
        [(1%nat, "org.client.Z", 2%nat); (1%nat, "org.client.Y", 3%nat)]
        {[ 1%nat := 2%nat; 2%nat := 3%nat ]} 3%nat
        {[ (1%nat, "/org/bluez/serial/rfcomm5") := 0%nat;
           (1%nat, "/org/bluez/serial/rfcomm3") := 1%nat ]}
        [EvConnRef 1%nat; EvConnRef 1%nat; EvConnRef 1%nat; EvConnRef 1%nat].

(** The scenario after the owner has disconnected. *)
Definition ex_scenario_disconnected : state :=
  State {[ 0%nat := ex_bound_record ]} 2%nat [] [0%nat] [] ∅ 2%nat
        {[ (1%nat, "/org/bluez/serial/rfcomm0") := 0%nat ]}
        [EvConnRef 1%nat; EvConnRef 1%nat;
         EvConnUnref 1%nat; EvIoClose 9; EvIoUnref 9; EvRelease 0].

(** The scenario after [rfcomm_node_free] on the connected node. *)
Definition ex_scenario_freed : state :=
  State {[ 0%nat := ex_bound_record ]} 2%nat [1%nat] [0%nat]
        [(1%nat, "org.client.Z", 1%nat)] ∅ 2%nat
        {[ (1%nat, "/org/bluez/serial/rfcomm0") := 0%nat ]}
        [EvConnRef 1%nat; EvConnRef 1%nat;
         EvConnUnref 1%nat; EvIoClose 9; EvIoUnref 9; EvRelease 0].

(** The empty registry after a connect whose name listener could not be
    installed. *)
Definition ex_half_connected : state :=
  State {[ 0%nat := ex_twin_first ]} 1%nat [0%nat] [] [] {[ 1%nat := 0%nat ]}
        2%nat ∅ [EvConnRef 1%nat].

(** [ex_mismatch] after the object at the path of id 3 is destroyed. *)
Definition ex_mismatch_unregistered : state :=
  State {[ 1%nat := ex_port5 ]} 2%nat [] [1%nat] [] ∅ 1%nat
        {[ (1%nat, "/org/bluez/serial/rfcomm5") := 1%nat ]}
        [EvConnRef 1%nat; EvConnRef 1%nat; EvConnUnref 1%nat; EvRelease 3].

(** [ex_duplicates] after the object at the path of id 3 is destroyed. *)
Definition ex_duplicates_unregistered : state :=
  State {[ 0%nat := ex_dup5; 2%nat := ex_dupZ; 3%nat := ex_dupY ]} 4%nat
        [2%nat; 3%nat] [0%nat]
        [(1%nat, "org.client.Z", 2%nat); (1%nat, "org.client.Y", 3%nat)]
        {[ 1%nat := 2%nat; 2%nat := 3%nat ]} 3%nat
        {[ (1%nat, "/org/bluez/serial/rfcomm5") := 0%nat ]}
        [EvConnRef 1%nat; EvConnRef 1%nat; EvConnRef 1%nat; EvConnRef 1%nat;
         EvConnUnref 1%nat; EvRelease 3].

(** A port bound with an id of four digits, under the name of its id. *)
Definition ex_port1234 : rfcomm_node :=
  Node 1234 11 22 (Some "Bluetooth RFCOMM port") (Some "/dev/rfcomm1234")
       (Some 1%nat) None None 0%nat.
Definition ex_four_digits : state :=
  State {[ 0%nat := ex_port1234 ]} 1%nat [] [0%nat] [] ∅ 1%nat
        {[ (1%nat, "/org/bluez/serial/rfcomm1234") := 0%nat ]}
        [EvConnRef 1%nat].

(** For the examples: the text of an address, its six bytes in
    hexadecimal from the last to the first, and a store of names that
    knows one device. *)
Definition hex_digit (n : Z) : ascii :=
  ascii_of_nat (Z.to_nat (if n <? 10 then 48 + n else 55 + n)).
Definition hex_byte (b : Z) : string :=
  String (hex_digit (b / 16)) (String (hex_digit (b mod 16)) "").
Definition ex_ba2str (a : bdaddr_t) : string :=
  hex_byte (a / 2 ^ 40 mod 256) +:+ ":" +:+
  hex_byte (a / 2 ^ 32 mod 256) +:+ ":" +:+
  hex_byte (a / 2 ^ 24 mod 256) +:+ ":" +:+
  hex_byte (a / 2 ^ 16 mod 256) +:+ ":" +:+
  hex_byte (a / 2 ^ 8 mod 256) +:+ ":" +:+ hex_byte (a mod 256).
Definition ex_read_device_name (src_addr dst_addr : bdaddr_t)
    : option string :=
  if dst_addr =? 22 then Some "Headset" else None.

(** * Properties *)

(** ** Lists of node pointers *)

Lemma g_slist_remove_notin (l : list ptr) p :
  p ∉ l → g_slist_remove l p = l.
Proof.
  induction l as [|q l IH]; intros Hp; [done|].
  simpl. apply not_elem_of_cons in Hp as [Hne Hp].
  destruct (decide (q = p)); [congruence|]. by rewrite IH.
Qed.

Lemma g_slist_remove_middle (l1 l2 : list ptr) p :
  p ∉ l1 → g_slist_remove (l1 ++ p :: l2) p = l1 ++ l2.
Proof.
  induction l1 as [|q l1 IH]; intros Hp; simpl.
  - by destruct (decide (p = p)).
  - apply not_elem_of_cons in Hp as [Hne Hp].
    destruct (decide (q = p)); [congruence|]. by rewrite IH.
Qed.

Lemma elem_of_g_slist_remove (l : list ptr) p q :
  q ∈ g_slist_remove l p → q ∈ l.
Proof.
  induction l as [|x l IH]; simpl; [done|].
  destruct (decide (x = p)) as [->|Hx]; intros Hq.
  - by right.
  - apply elem_of_cons in Hq as [->|Hq]; [left|right; by apply IH].
Qed.

Lemma elem_of_g_slist_remove_ne (l : list ptr) p q :
  q ≠ p → q ∈ l → q ∈ g_slist_remove l p.
Proof.
  intros Hne. induction l as [|x l IH]; simpl; [done|].
  intros [Hx|Hq]%elem_of_cons.
  - subst x. destruct (decide (q = p)); [done|left].
  - destruct (decide (x = p)); [done|right; by apply IH].
Qed.

Lemma NoDup_g_slist_remove (l : list ptr) p :
  NoDup l → NoDup (g_slist_remove l p).
Proof.
  induction 1 as [|x l Hx Hl IH]; simpl; [constructor|].
  destruct (decide (x = p)); [done|].
  constructor; [|done]. intros Hin. by apply Hx, elem_of_g_slist_remove with p.
Qed.

Lemma g_slist_remove_gone (l : list ptr) p :
  NoDup l → p ∉ g_slist_remove l p.
Proof.
  induction 1 as [|x l Hx Hl IH]; simpl; [apply not_elem_of_nil|].
  destruct (decide (x = p)) as [->|Hne]; [done|].
  apply not_elem_of_cons. split; [congruence|done].
Qed.

Lemma remove_listener_gone (l : list listener) e :
  NoDup l → e ∉ remove_listener e l.
Proof.
  induction 1 as [|x l Hx Hl IH]; simpl; [apply not_elem_of_nil|].
  destruct (decide (x = e)) as [->|Hne]; [done|].
  apply not_elem_of_cons. split; [congruence|done].
Qed.

Lemma elem_of_remove_listener (l : list listener) e x :
  x ∈ remove_listener e l → x ∈ l.
Proof.
  induction l as [|y l IH]; simpl; [done|].
  destruct (decide (y = e)) as [->|Hy]; intros Hx.
  - by right.
  - apply elem_of_cons in Hx as [->|Hx]; [left|right; by apply IH].
Qed.

Lemma remove_listener_notin (l : list listener) e :
  e ∉ l → remove_listener e l = l.
Proof.
  induction l as [|y l IH]; intros He; [done|].
  simpl. apply not_elem_of_cons in He as [Hne He].
  destruct (decide (y = e)); [congruence|]. by rewrite IH.
Qed.

(** ** The scan of [find_node_by_name] *)

Lemma streq_true a b : streq a b = true ↔ a = b.
Proof. unfold streq. apply bool_decide_eq_true. Qed.

Lemma streq_false a b : streq a b = false ↔ a ≠ b.
Proof. unfold streq. apply bool_decide_eq_false. Qed.

Lemma find_node_by_name_first s d l1 p l2 :
  no_device s d l1 → device_at s p = Some d →
  find_node_by_name (l1 ++ p :: l2) d s = Some (Some p, s).
Proof.
  intros Hl1 Hp. induction Hl1 as [|q l1 (d' & Hq & Hne) _ IH]; simpl.
  - unfold device_at in Hp. unfold mbind, M_bind, deref.
    destruct (heap s !! p) as [n|]; [|done]. simpl in Hp. rewrite Hp. simpl.
    by rewrite (proj2 (streq_true d d)).
  - unfold device_at in Hq. unfold mbind, M_bind, deref.
    destruct (heap s !! q) as [n|]; [|done]. simpl in Hq. rewrite Hq. simpl.
    rewrite (proj2 (streq_false d' d)); [|done]. apply IH.
Qed.

Lemma find_node_by_name_none s d l :
  no_device s d l → find_node_by_name l d s = Some (None, s).
Proof.
  induction 1 as [|q l (d' & Hq & Hne) _ IH]; simpl; [done|].
  unfold device_at in Hq. unfold mbind, M_bind, deref.
  destruct (heap s !! q) as [n|]; [|done]. simpl in Hq. rewrite Hq. simpl.
  rewrite (proj2 (streq_false d' d)); [|done]. apply IH.
Qed.

(** On a list of named records the scan is defined, leaves the state as
    it is, and its result is the first record with the name. *)
Lemma find_node_by_name_total s d l :
  Forall (λ q, is_Some (device_at s q)) l →
  (no_device s d l ∧ find_node_by_name l d s = Some (None, s)) ∨
  (∃ l1 p l2, l = l1 ++ p :: l2 ∧ no_device s d l1 ∧
     device_at s p = Some d ∧ find_node_by_name l d s = Some (Some p, s)).
Proof.
  induction 1 as [|q l [d' Hq] Hl IH].
  - left. split; [constructor|done].
  - destruct (decide (d' = d)) as [->|Hne].
    + right. exists [], q, l. split; [done|]. split; [constructor|].
      split; [done|].
      by apply (find_node_by_name_first s d [] q l); [constructor|].
    + destruct IH as [[Hno Hf]|(l1 & p & l2 & -> & Hno & Hp & Hf)].
      * left. assert (no_device s d (q :: l)) as Hno'
          by (constructor; eauto).
        split; [done|]. by apply find_node_by_name_none.
      * right. exists (q :: l1), p, l2. split; [done|].
        assert (no_device s d (q :: l1)) as Hno' by (constructor; eauto).
        split; [done|]. split; [done|].
        by apply (find_node_by_name_first s d (q :: l1) p l2).
Qed.

Lemma find_node_by_name_inv s d l r s' :
  find_node_by_name l d s = Some (r, s') →
  s' = s ∧
  match r with
  | Some p => ∃ l1 l2, l = l1 ++ p :: l2 ∧ no_device s d l1 ∧
                       device_at s p = Some d
  | None => no_device s d l
  end.
Proof.
  revert r s'. induction l as [|q l IH]; intros r s'; simpl.
  - intros [= <- <-]. split; [done|constructor].
  - unfold mbind, M_bind, deref, device_at.
    destruct (heap s !! q) as [n|] eqn:Hq; [|done].
    destruct (device n) as [d'|] eqn:Hd; simpl; [|done].
    destruct (streq d' d) eqn:He.
    + intros [= <- <-]. split; [done|]. apply streq_true in He as ->.
      exists [], l. split; [done|]. split; [constructor|].
      unfold device_at. by rewrite Hq.
    + apply streq_false in He. intros Hf. apply IH in Hf as [-> Hr].
      split; [done|].
      assert (∃ d'0, device_at s q = Some d'0 ∧ d'0 ≠ d) as Hq'.
      { exists d'. unfold device_at. by rewrite Hq. }
      destruct r as [p|].
      * destruct Hr as (l1 & l2 & -> & Hno & Hp).
        exists (q :: l1), l2. split; [done|]. split; [|done].
        by constructor.
      * by constructor.
Qed.

(** ** Running the cleanup routine *)

Ltac run :=
  unfold mbind, M_bind, mret, M_ret, deref, nonnull, fault, modify, emit, get,
    g_free, g_source_remove, name_listener_remove; simpl.

(** Writing the members of the record [g_new0] has just returned. *)
Ltac stores :=
  unfold store; simpl;
  repeat (rewrite lookup_insert_eq; simpl);
  unfold set_heap; simpl; rewrite ?insert_insert_eq.

Lemma rfcomm_node_free_run s p n :
  heap s !! p = Some n → rfcomm_node_free p s = Some (tt, freed p n s).
Proof.
  intros Hp. unfold rfcomm_node_free, freed, free_events. run. rewrite Hp.
  destruct (conn n), (io n); simpl; rewrite Hp; simpl;
    rewrite <- ?app_assoc; reflexivity.
Qed.

Lemma rfcomm_node_free_dangling s p :
  heap s !! p = None → rfcomm_node_free p s = None.
Proof. intros Hp. unfold rfcomm_node_free. run. by rewrite Hp. Qed.

Lemma signals_of_free_events n : signals_of (free_events n) = [].
Proof. unfold free_events. by destruct (conn n), (io n). Qed.

Lemma released_of_free_events n : released_of (free_events n) = [id n].
Proof. unfold free_events. by destruct (conn n), (io n). Qed.

Section Properties.

Variable SERIAL_MANAGER_PATH : string.
Variable SERIAL_MANAGER_INTERFACE : string.
Variable MAX_PATH_LENGTH : nat.

Local Abbreviation signal :=
  (ServiceDisconnected SERIAL_MANAGER_PATH SERIAL_MANAGER_INTERFACE).

Lemma connection_owner_exited_run s name p n c d :
  heap s !! p = Some n → conn n = Some c → device n = Some d →
  connection_owner_exited SERIAL_MANAGER_PATH SERIAL_MANAGER_INTERFACE name p s
  = Some (tt, State (delete p (heap s)) (next_node s)
                    (g_slist_remove (connected_nodes s) p) (bound_nodes s)
                    (listeners s)
                    (match io n with
                     | Some _ => delete (io_id n) (sources s)
                     | None => sources s
                     end)
                    (next_source s) (objects s)
                    (log s ++ signal c d :: free_events n)).
Proof.
  intros Hp Hc Hd. unfold connection_owner_exited, emit_ServiceDisconnected.
  run. rewrite Hp, Hc. simpl. rewrite Hd. simpl.
  erewrite rfcomm_node_free_run by (simpl; exact Hp).
  unfold freed. simpl. by rewrite <- app_assoc.
Qed.

Lemma connection_owner_exited_dangling s name p :
  heap s !! p = None →
  connection_owner_exited SERIAL_MANAGER_PATH SERIAL_MANAGER_INTERFACE name p s
  = None.
Proof. intros Hp. unfold connection_owner_exited. run. by rewrite Hp. Qed.

Lemma rfcomm_disconnect_cb_run s p n c o d :
  heap s !! p = Some n → conn n = Some c → owner n = Some o →
  device n = Some d →
  rfcomm_disconnect_cb SERIAL_MANAGER_PATH SERIAL_MANAGER_INTERFACE p s
  = Some (false, State (delete p (heap s)) (next_node s)
                       (g_slist_remove (connected_nodes s) p) (bound_nodes s)
                       (remove_listener (c, o, p) (listeners s))
                       (match io n with
                        | Some _ => delete (io_id n) (sources s)
                        | None => sources s
                        end)
                       (next_source s) (objects s)
                       (log s ++ signal c d :: free_events n)).
Proof.
  intros Hp Hc Ho Hd. unfold rfcomm_disconnect_cb, emit_ServiceDisconnected.
  run. rewrite Hp, Hc. simpl. rewrite Ho. simpl. rewrite Hd. simpl.
  erewrite rfcomm_node_free_run by (simpl; exact Hp).
  unfold freed. simpl. by rewrite <- app_assoc.
Qed.

Lemma port_handler_unregister_run s c p n :
  heap s !! p = Some n →
  port_handler_unregister c p s
  = Some (tt, freed p n (set_bound_nodes (λ l, g_slist_remove l p) s)).
Proof.
  intros Hp. unfold port_handler_unregister. run. rewrite Hp.
  by erewrite rfcomm_node_free_run by (simpl; exact Hp).
Qed.

(** ** What a well-formed state gives *)

Lemma wf_connected_node s p :
  wf s → p ∈ connected_nodes s →
  ∃ n d c o ch, heap s !! p = Some n ∧ device n = Some d ∧ conn n = Some c ∧
                owner n = Some o ∧ io n = Some ch ∧
                sources s !! io_id n = Some p.
Proof.
  intros (_ & _ & Hc & _) Hp.
  apply (proj1 (Forall_forall _ _) Hc) in Hp. unfold connected_ok in Hp.
  destruct (heap s !! p) as [n|]; [|done].
  destruct Hp as ([d Hd] & [c Hcn] & [o Ho] & [ch Hio] & Hsrc).
  by exists n, d, c, o, ch.
Qed.

Lemma wf_bound_node s p :
  wf s → p ∈ bound_nodes s →
  ∃ n d c, heap s !! p = Some n ∧ device n = Some d ∧ conn n = Some c ∧
           io n = None.
Proof.
  intros (_ & _ & _ & Hb & _) Hp.
  apply (proj1 (Forall_forall _ _) Hb) in Hp. unfold bound_ok in Hp.
  destruct (heap s !! p) as [n|]; [|done].
  destruct Hp as ([d Hd] & [c Hcn] & Hio). by exists n, d, c.
Qed.

Lemma wf_connected_named s :
  wf s → Forall (λ q, is_Some (device_at s q)) (connected_nodes s).
Proof.
  intros Hwf. apply Forall_forall. intros q Hq.
  destruct (wf_connected_node s q Hwf Hq) as (n & d & ? & ? & ? & Hn & Hd & _).
  exists d. unfold device_at. by rewrite Hn.
Qed.

Lemma wf_bound_named s :
  wf s → Forall (λ q, is_Some (device_at s q)) (bound_nodes s).
Proof.
  intros Hwf. apply Forall_forall. intros q Hq.
  destruct (wf_bound_node s q Hwf Hq) as (n & d & ? & Hn & Hd & _).
  exists d. unfold device_at. by rewrite Hn.
Qed.

(** Once the record at [p] is torn down, no source and no listener of the
    state points to it. *)
Lemma wf_sources_of s p n i :
  wf s → heap s !! p = Some n → sources s !! i = Some p → i = io_id n.
Proof.
  intros (_ & _ & _ & _ & _ & _ & Hs & _) Hp Hi.
  apply (map_Forall_lookup_1 _ _ _ _ Hs) in Hi as [_ Hi].
  cbv beta in Hi. rewrite Hp in Hi. simpl in Hi. congruence.
Qed.

Lemma wf_listener_of s p n c o e :
  wf s → heap s !! p = Some n → conn n = Some c → owner n = Some o →
  e ∈ listeners s → e.2 = p → e = (c, o, p).
Proof.
  intros (_ & _ & _ & _ & _ & Hl & _) Hp Hc Ho He Hep.
  apply (proj1 (Forall_forall _ _) Hl) in He as [_ He].
  destruct e as [[c' o'] p']. simpl in *. subst p'. rewrite Hp in He.
  destruct He as [He1 He2]. congruence.
Qed.

Lemma wf_fresh_node s : wf s → heap s !! next_node s = None.
Proof.
  intros (_ & _ & _ & _ & _ & _ & _ & _ & _ & _ & Hh).
  destruct (heap s !! next_node s) eqn:E; [|done].
  apply (map_Forall_lookup_1 _ _ _ _ Hh) in E. lia.
Qed.

Lemma first_with_device_elem s l d p :
  first_with_device s l d p → p ∈ l.
Proof. intros (l1 & l2 & -> & _). apply elem_of_app. right. left. Qed.

Lemma no_device_not_first s l d p :
  no_device s d l → ¬ first_with_device s l d p.
Proof.
  intros Hno (l1 & l2 & -> & _ & Hp).
  apply Forall_app in Hno as [_ Hno]. inversion Hno as [|? ? (d' & Hd' & Hne)].
  congruence.
Qed.

Lemma first_with_device_unique s l d p q :
  first_with_device s l d p → first_with_device s l d q → p = q.
Proof.
  intros (l1 & l2 & -> & Hno & Hp) Hq.
  destruct Hq as (k1 & k2 & Hk & Hnok & Hq).
  assert (find_node_by_name (l1 ++ p :: l2) d s = Some (Some p, s)) as E1
    by by apply find_node_by_name_first.
  assert (find_node_by_name (k1 ++ q :: k2) d s = Some (Some q, s)) as E2
    by by apply find_node_by_name_first.
  rewrite Hk in E1. congruence.
Qed.

(** ** [port_remove_listener] *)

Lemma port_remove_listener_absent s own dev :
  no_device s dev (connected_nodes s) →
  port_remove_listener own dev s = Some (- ENOENT, s).
Proof.
  intros Hno. unfold port_remove_listener. run.
  by rewrite (find_node_by_name_none _ _ _ Hno).
Qed.

Lemma port_remove_listener_forbidden s own dev p n o :
  first_with_device s (connected_nodes s) dev p →
  heap s !! p = Some n → owner n = Some o → o ≠ own →
  port_remove_listener own dev s = Some (- EPERM, s).
Proof.
  intros (l1 & l2 & Hl & Hno & Hd) Hp Ho Hne. unfold port_remove_listener. run.
  rewrite Hl, (find_node_by_name_first _ _ _ _ _ Hno Hd), Hp. simpl.
  rewrite Ho. simpl. by rewrite (proj2 (streq_false o own)).
Qed.

Lemma port_remove_listener_run s own dev p n c :
  first_with_device s (connected_nodes s) dev p →
  heap s !! p = Some n → owner n = Some own → conn n = Some c →
  port_remove_listener own dev s
  = Some (0, State (delete p (heap s)) (next_node s)
                   (g_slist_remove (connected_nodes s) p) (bound_nodes s)
                   (remove_listener (c, own, p) (listeners s))
                   (match io n with
                    | Some _ => delete (io_id n) (sources s)
                    | None => sources s
                    end)
                   (next_source s) (objects s) (log s ++ free_events n)).
Proof.
  intros (l1 & l2 & Hl & Hno & Hd) Hp Ho Hc. unfold port_remove_listener. run.
  rewrite Hl at 1. rewrite (find_node_by_name_first _ _ _ _ _ Hno Hd), Hp.
  simpl. rewrite Ho. simpl. rewrite (proj2 (streq_true own own)) by done.
  simpl. rewrite Hc. simpl.
  by erewrite rfcomm_node_free_run by (simpl; exact Hp).
Qed.

(** C5: [port_remove_listener] answers not-found when no connected node
    has the device name; when the first connected node with the name has
    another owner it answers forbidden and the whole state (both lists,
    the record, the watches, the log) is as before; it tears the node down
    and answers success only when the requester is the owner. *)
Theorem port_remove_listener_result s own dev :
  wf s →
  (no_device s dev (connected_nodes s) →
     port_remove_listener own dev s = Some (- ENOENT, s)) ∧
  (∀ p n, first_with_device s (connected_nodes s) dev p →
          heap s !! p = Some n →
     (owner n ≠ Some own →
        port_remove_listener own dev s = Some (- EPERM, s)) ∧
     (owner n = Some own →
        ∃ s', port_remove_listener own dev s = Some (0, s') ∧
              connected_nodes s' = g_slist_remove (connected_nodes s) p ∧
              (p ∉ connected_nodes s') ∧ heap s' !! p = None ∧
              released_of (drop (length (log s)) (log s')) = [id n])) ∧
  (∀ s', port_remove_listener own dev s = Some (0, s') →
     ∃ p n, first_with_device s (connected_nodes s) dev p ∧
            heap s !! p = Some n ∧ owner n = Some own).
Proof.
  intros Hwf. split; [apply port_remove_listener_absent|].
  assert (∀ p n, first_with_device s (connected_nodes s) dev p →
            heap s !! p = Some n →
            ∃ c o, conn n = Some c ∧ owner n = Some o) as Hnode.
  { intros p n Hf Hp. apply first_with_device_elem in Hf.
    destruct (wf_connected_node s p Hwf Hf)
      as (n' & d & c & o & ch & Hn & _ & Hc & Ho & _).
    exists c, o. split; congruence. }
  split.
  - intros p n Hf Hp. destruct (Hnode p n Hf Hp) as (c & o & Hc & Ho). split.
    + intros Hne. apply (port_remove_listener_forbidden s own dev p n o);
        try done. congruence.
    + intros Hown. eexists. split.
      { by apply (port_remove_listener_run s own dev p n c). }
      simpl. split; [done|]. split.
      { apply g_slist_remove_gone, Hwf. }
      split; [apply lookup_delete_eq|].
      rewrite drop_app_length. apply released_of_free_events.
  - intros s' Hrun.
    destruct (find_node_by_name_total s dev (connected_nodes s)
                (wf_connected_named s Hwf))
      as [[Hno _]|(l1 & p & l2 & Hl & Hno & Hd & _)].
    + rewrite (port_remove_listener_absent s own dev Hno) in Hrun.
      discriminate.
    + assert (first_with_device s (connected_nodes s) dev p) as Hf
        by by exists l1, l2.
      unfold device_at in Hd.
      destruct (heap s !! p) as [n|] eqn:Hp; [|done].
      destruct (Hnode p n Hf Hp) as (c & o & Hc & Ho).
      exists p, n. split; [done|]. split; [done|].
      destruct (decide (o = own)) as [->|Hne]; [done|].
      rewrite (port_remove_listener_forbidden s own dev p n o Hf Hp Ho Hne)
        in Hrun. discriminate.
Qed.

(** C1, as the code has it: for the first connected node with the device
    name, when its owner is the requester, [port_remove_listener] succeeds
    and tears the node down: the name listener and the transport watch
    are removed, the channel is closed, the device id is released once,
    the record is freed and the node is no longer in [connected_nodes].
    The events of the call are the reference to the connection dropped,
    the channel closed and dropped, and the device released, in this
    order: the function itself emits no signal. *)
Theorem port_remove_listener_owner s own dev p n :
  wf s → first_with_device s (connected_nodes s) dev p →
  heap s !! p = Some n → owner n = Some own →
  ∃ s' evs,
    port_remove_listener own dev s = Some (0, s') ∧
    log s' = log s ++ evs ∧ signals_of evs = [] ∧
    released_of evs = [id n] ∧
    connected_nodes s' = g_slist_remove (connected_nodes s) p ∧
    (p ∉ connected_nodes s') ∧ bound_nodes s' = bound_nodes s ∧
    heap s' !! p = None ∧
    (∀ i, sources s' !! i ≠ Some p) ∧
    (∀ e, e ∈ listeners s' → e.2 ≠ p) ∧
    ∃ c ch, conn n = Some c ∧ io n = Some ch ∧
            evs = [EvConnUnref c; EvIoClose ch; EvIoUnref ch;
                   EvRelease (id n)].
Proof.
  intros Hwf Hf Hp Hown.
  destruct (wf_connected_node s p Hwf (first_with_device_elem _ _ _ _ Hf))
    as (n' & d & c & o & ch & Hn & _ & Hc & Ho & Hio & Hsrc).
  assert (n' = n) as -> by congruence.
  exists (State (delete p (heap s)) (next_node s)
                (g_slist_remove (connected_nodes s) p) (bound_nodes s)
                (remove_listener (c, own, p) (listeners s))
                (match io n with
                 | Some _ => delete (io_id n) (sources s)
                 | None => sources s
                 end)
                (next_source s) (objects s) (log s ++ free_events n)),
         (free_events n).
  split; [by apply port_remove_listener_run|]. simpl.
  split; [done|]. split; [apply signals_of_free_events|].
  split; [apply released_of_free_events|]. split; [done|].
  split; [apply g_slist_remove_gone, Hwf|]. split; [done|].
  split; [apply lookup_delete_eq|]. split; [|split].
  - intros i Hi. rewrite Hio in Hi. apply lookup_delete_Some in Hi as [Hne Hi].
    by apply (wf_sources_of s p n i Hwf Hp) in Hi.
  - intros e He Hep.
    assert (e = (c, own, p)) as ->.
    { apply (wf_listener_of s p n c own e Hwf Hp Hc Hown); [|done].
      by apply elem_of_remove_listener in He. }
    revert He. apply remove_listener_gone, Hwf.
  - exists c, ch. split; [done|]. split; [done|].
    unfold free_events. by rewrite Hc, Hio.
Qed.

(** ** [port_add_listener] *)

Lemma port_add_listener_run ok s c dev_id dst_addr fd dev own :
  port_add_listener ok c dev_id dst_addr fd dev own s
  = Some (if ok then 0 else -1,
          State (<[next_node s :=
                    Node dev_id 0 dst_addr None (Some dev) (Some c) (Some own)
                         (Some fd) (next_source s)]> (heap s))
                (S (next_node s))
                (connected_nodes s ++ [next_node s]) (bound_nodes s)
                (if ok then listeners s ++ [(c, own, next_node s)]
                 else listeners s)
                (<[next_source s := next_node s]> (sources s))
                (S (next_source s)) (objects s) (log s ++ [EvConnRef c])).
Proof.
  unfold port_add_listener, g_new0, g_io_add_watch, name_listener_add,
    g_slist_append.
  run. stores. by destruct ok.
Qed.

(** C3, as the code has it: when the name listener cannot be installed,
    [port_add_listener] returns the failure of [name_listener_add], and
    the node it made stays as it is: it is the last node of
    [connected_nodes], its record is live with its channel, and its
    transport watch is registered.  Nothing is torn down: the one event
    of the call is the reference taken on the connection. *)
Theorem port_add_listener_listener_failure s c dev_id dst_addr fd dev own :
  ∃ s',
    port_add_listener false c dev_id dst_addr fd dev own s = Some (-1, s') ∧
    connected_nodes s' = connected_nodes s ++ [next_node s] ∧
    heap s' !! next_node s =
      Some (Node dev_id 0 dst_addr None (Some dev) (Some c) (Some own)
                 (Some fd) (next_source s)) ∧
    sources s' !! next_source s = Some (next_node s) ∧
    listeners s' = listeners s ∧
    released_of (drop (length (log s)) (log s')) = [] ∧
    log s' = log s ++ [EvConnRef c].
Proof.
  eexists. split; [apply port_add_listener_run|]. simpl.
  split; [done|]. split; [apply lookup_insert_eq|].
  split; [apply lookup_insert_eq|]. split; [done|].
  split; [by rewrite drop_app_length|done].
Qed.

(** ** [port_register] *)

Lemma dbus_connection_destroy_object_path_run s c path q nq :
  objects s !! (c, path) = Some q → heap s !! q = Some nq →
  dbus_connection_destroy_object_path c path s
  = Some (true, freed q nq (set_bound_nodes (λ l, g_slist_remove l q)
                             (set_objects (delete (c, path)) s))).
Proof.
  intros Ho Hq. unfold dbus_connection_destroy_object_path. run. rewrite Ho.
  by erewrite port_handler_unregister_run by (simpl; exact Hq).
Qed.

Lemma dbus_connection_destroy_object_path_absent s c path :
  objects s !! (c, path) = None →
  dbus_connection_destroy_object_path c path s = Some (false, s).
Proof.
  intros Ho. unfold dbus_connection_destroy_object_path. run. by rewrite Ho.
Qed.

Lemma port_register_success_run s c dev_id src_addr dst_addr dev want svc :
  objects s !! (c, port_path SERIAL_MANAGER_PATH MAX_PATH_LENGTH dev_id) = None →
  port_register SERIAL_MANAGER_PATH MAX_PATH_LENGTH true true c dev_id
                src_addr dst_addr dev want svc s
  = Some ((0, if want
              then Some (port_path SERIAL_MANAGER_PATH MAX_PATH_LENGTH dev_id)
              else None),
          State (<[next_node s :=
                    bound_node c dev_id src_addr dst_addr dev svc]> (heap s))
                (S (next_node s)) (connected_nodes s)
                (bound_nodes s ++ [next_node s]) (listeners s) (sources s)
                (next_source s)
                (<[(c, port_path SERIAL_MANAGER_PATH MAX_PATH_LENGTH dev_id)
                   := next_node s]> (objects s))
                (log s ++ [EvConnRef c])).
Proof.
  intros Ho.
  unfold port_register, g_new0, dbus_connection_create_object_path,
    dbus_connection_register_interface, g_slist_append.
  run. stores. by rewrite Ho.
Qed.

Lemma port_register_failure_run create_ok register_ok s c dev_id src_addr
    dst_addr dev want svc :
  wf s →
  create_ok && register_ok = false ∨
    is_Some (objects s !! (c, port_path SERIAL_MANAGER_PATH MAX_PATH_LENGTH
                                        dev_id)) →
  port_register SERIAL_MANAGER_PATH MAX_PATH_LENGTH create_ok register_ok c
                dev_id src_addr dst_addr dev want svc s
  = Some ((-1, None),
          State (heap s) (S (next_node s)) (connected_nodes s) (bound_nodes s)
                (listeners s) (sources s) (next_source s) (objects s)
                (log s ++ [EvConnRef c; EvConnUnref c; EvRelease dev_id])).
Proof.
  intros Hwf Hfail.
  pose proof (wf_fresh_node s Hwf) as Hfresh.
  assert (next_node s ∉ bound_nodes s) as Hnb.
  { intros Hin. destruct (wf_bound_node s _ Hwf Hin) as (n & _ & _ & Hn & _).
    congruence. }
  unfold port_register, g_new0, dbus_connection_create_object_path,
    dbus_connection_register_interface.
  run. stores.
  destruct (objects s !! (c, port_path SERIAL_MANAGER_PATH MAX_PATH_LENGTH
                                       dev_id)) as [q|] eqn:Ho.
  - simpl. erewrite rfcomm_node_free_run by (simpl; apply lookup_insert_eq).
    unfold freed. simpl. rewrite delete_insert_id by done.
    by rewrite <- app_assoc.
  - destruct create_ok; simpl.
    + destruct register_ok; simpl.
      { destruct Hfail as [Hfail|[? Hfail]]; discriminate. }
      erewrite dbus_connection_destroy_object_path_run
        by (simpl; apply lookup_insert_eq).
      unfold freed. simpl.
      rewrite !delete_insert_id, g_slist_remove_notin by done.
      by rewrite <- app_assoc.
    + erewrite rfcomm_node_free_run by (simpl; apply lookup_insert_eq).
      unfold freed. simpl. rewrite delete_insert_id by done.
      by rewrite <- app_assoc.
Qed.

(** C4: when the bus publication fails, at the creation of the object
    path or at the registration of the interface, [port_register] returns
    a failure, both lists are as they were (so no node when there was
    none), the record it allocated is freed, no object stays published
    and the device id is released exactly once. *)
Theorem port_register_publication_failure create_ok register_ok s c dev_id
    src_addr dst_addr dev want svc :
  wf s →
  create_ok && register_ok = false ∨
    is_Some (objects s !! (c, port_path SERIAL_MANAGER_PATH MAX_PATH_LENGTH
                                        dev_id)) →
  ∃ s',
    port_register SERIAL_MANAGER_PATH MAX_PATH_LENGTH create_ok register_ok c
                  dev_id src_addr dst_addr dev want svc s
    = Some ((-1, None), s') ∧
    connected_nodes s' = connected_nodes s ∧
    bound_nodes s' = bound_nodes s ∧
    (connected_nodes s = [] → bound_nodes s = [] →
       connected_nodes s' = [] ∧ bound_nodes s' = []) ∧
    heap s' = heap s ∧ heap s' !! next_node s = None ∧
    objects s' = objects s ∧
    released_of (drop (length (log s)) (log s')) = [dev_id].
Proof.
  intros Hwf Hfail. eexists.
  split; [by apply port_register_failure_run|]. simpl.
  split; [done|]. split; [done|]. split; [done|]. split; [done|].
  split; [by apply wf_fresh_node|]. split; [done|].
  by rewrite drop_app_length.
Qed.

(** ** [port_release_all] *)

Lemma signals_of_app l1 l2 :
  signals_of (l1 ++ l2) = signals_of l1 ++ signals_of l2.
Proof. apply List.filter_app. Qed.

Lemma released_of_app l1 l2 :
  released_of (l1 ++ l2) = released_of l1 ++ released_of l2.
Proof. apply List.flat_map_app. Qed.

(** [port_release_all] returns only when there is nothing to release. *)
Lemma port_release_all_inv s u s' :
  port_release_all s = Some (u, s') → connected_nodes s = [] ∧ s' = s.
Proof.
  unfold port_release_all, mbind, M_bind, get, modify, fault.
  cbv beta iota. destruct (connected_nodes s) as [|node l].
  - by intros [= _ <-].
  - by destruct (rfcomm_node_free node _) as [[? ?]|].
Qed.

(** C2, on the code: with a session in [connected_nodes],
    [port_release_all] does not get beyond the first one; its first pass
    unlinks the first node and frees the record, releasing its device
    id, and the step to the next cell reads the list cell that
    [g_slist_remove] has just freed: the call is undefined.  The list is
    not emptied and the other sessions are not released. *)
Theorem port_release_all_reads_freed_cell s node l :
  wf s → connected_nodes s = node :: l →
  ∃ n,
    heap s !! node = Some n ∧
    (_ ← modify (set_connected_nodes (λ c, g_slist_remove c node));
     rfcomm_node_free node) s
      = Some (tt, freed node n (set_connected_nodes (λ _, l) s)) ∧
    port_release_all s = None.
Proof.
  intros Hwf Hl.
  destruct (wf_connected_node s node Hwf) as (n & _ & _ & _ & _ & Hn & _).
  { rewrite Hl. apply list_elem_of_here. }
  assert (g_slist_remove (connected_nodes s) node = l) as Hrm.
  { rewrite Hl. simpl. by destruct (decide (node = node)). }
  assert ((_ ← modify (set_connected_nodes (λ c, g_slist_remove c node));
           rfcomm_node_free node) s
          = Some (tt, freed node n (set_connected_nodes (λ _, l) s))) as Hbody.
  { run. erewrite rfcomm_node_free_run by (simpl; exact Hn).
    unfold freed, set_connected_nodes. simpl. by rewrite Hrm. }
  exists n. split; [done|]. split; [done|].
  unfold port_release_all. revert Hbody. run. rewrite Hl.
  by destruct (rfcomm_node_free node _) as [[? ?]|].
Qed.

(** ** The two watches of a connected node *)

Lemma rfcomm_disconnect_cb_dangling s p :
  heap s !! p = None →
  rfcomm_disconnect_cb SERIAL_MANAGER_PATH SERIAL_MANAGER_INTERFACE p s = None.
Proof. intros Hp. unfold rfcomm_disconnect_cb. run. by rewrite Hp. Qed.

Lemma fire_io_watch_run s p n c o d ch :
  heap s !! p = Some n → conn n = Some c → owner n = Some o →
  device n = Some d → io n = Some ch → sources s !! io_id n = Some p →
  fire_io_watch SERIAL_MANAGER_PATH SERIAL_MANAGER_INTERFACE (io_id n) s
  = Some (tt, State (delete p (heap s)) (next_node s)
                    (g_slist_remove (connected_nodes s) p) (bound_nodes s)
                    (remove_listener (c, o, p) (listeners s))
                    (delete (io_id n) (sources s))
                    (next_source s) (objects s)
                    (log s ++ signal c d :: free_events n)).
Proof.
  intros Hp Hc Ho Hd Hio Hsrc. unfold fire_io_watch. run. rewrite Hsrc.
  rewrite (rfcomm_disconnect_cb_run s p n c o d Hp Hc Ho Hd). rewrite Hio.
  run. unfold set_sources. simpl. by rewrite delete_delete_eq.
Qed.

Lemma fire_name_listener_run s p n c o d :
  heap s !! p = Some n → conn n = Some c → device n = Some d →
  (c, o, p) ∈ listeners s →
  fire_name_listener SERIAL_MANAGER_PATH SERIAL_MANAGER_INTERFACE (c, o, p) s
  = Some (tt, State (delete p (heap s)) (next_node s)
                    (g_slist_remove (connected_nodes s) p) (bound_nodes s)
                    (remove_listener (c, o, p) (listeners s))
                    (match io n with
                     | Some _ => delete (io_id n) (sources s)
                     | None => sources s
                     end)
                    (next_source s) (objects s)
                    (log s ++ signal c d :: free_events n)).
Proof.
  intros Hp Hc Hd Hin.
  unfold fire_name_listener, mbind, M_bind, get, modify. cbv beta iota.
  case_decide; [|done]. cbv beta iota.
  by erewrite connection_owner_exited_run by (simpl; eassumption).
Qed.

(** C7: for a connected node with both watches installed, the transport
    watch firing ([rfcomm_disconnect_cb]) and the liveness watch firing
    ([connection_owner_exited]) end in the same state, having left the
    same marks: one ServiceDisconnected signal with the device name of
    the node, one release of its device id, the node out of
    [connected_nodes], its record freed, and no source and no name
    listener of the node left. *)
Theorem watches_same_teardown s p n c o d :
  wf s → p ∈ connected_nodes s → heap s !! p = Some n →
  conn n = Some c → owner n = Some o → device n = Some d →
  (c, o, p) ∈ listeners s →
  ∃ s' evs,
    fire_io_watch SERIAL_MANAGER_PATH SERIAL_MANAGER_INTERFACE (io_id n) s
      = Some (tt, s') ∧
    fire_name_listener SERIAL_MANAGER_PATH SERIAL_MANAGER_INTERFACE (c, o, p) s
      = Some (tt, s') ∧
    log s' = log s ++ evs ∧
    signals_of evs = [signal c d] ∧
    released_of evs = [id n] ∧
    connected_nodes s' = g_slist_remove (connected_nodes s) p ∧
    (p ∉ connected_nodes s') ∧ heap s' !! p = None ∧
    (∀ i, sources s' !! i ≠ Some p) ∧
    (∀ e, e ∈ listeners s' → e.2 ≠ p).
Proof.
  intros Hwf Hin Hp Hc Ho Hd Hl.
  destruct (wf_connected_node s p Hwf Hin)
    as (n' & _ & _ & _ & ch & Hn & _ & _ & _ & Hio & Hsrc).
  assert (n' = n) as -> by congruence.
  eexists. exists (signal c d :: free_events n).
  split; [by apply (fire_io_watch_run s p n c o d ch)|].
  split.
  { rewrite (fire_name_listener_run s p n c o d) by done. by rewrite Hio. }
  simpl. split; [done|].
  split; [by rewrite signals_of_free_events|].
  split; [by rewrite released_of_free_events|].
  split; [done|]. split; [apply g_slist_remove_gone, Hwf|].
  split; [apply lookup_delete_eq|]. split.
  - intros i Hi. apply lookup_delete_Some in Hi as [Hne Hi].
    by apply (wf_sources_of s p n i Hwf Hp) in Hi.
  - intros e He Hep.
    assert (e = (c, o, p)) as ->.
    { apply (wf_listener_of s p n c o e Hwf Hp Hc Ho); [|done].
      by apply elem_of_remove_listener in He. }
    revert He. apply remove_listener_gone, Hwf.
Qed.

(** ** Lookup by device name *)

Lemma no_device_notin s d l p :
  no_device s d l → device_at s p = Some d → p ∉ l.
Proof.
  intros Hno Hp Hin.
  apply (proj1 (Forall_forall _ _) Hno) in Hin as (d' & Hd' & Hne). congruence.
Qed.

Lemma first_with_device_exists s l d p :
  Forall (λ q, is_Some (device_at s q)) l →
  p ∈ l → device_at s p = Some d → ∃ q, first_with_device s l d q.
Proof.
  intros Hl Hin Hp.
  destruct (find_node_by_name_total s d l Hl)
    as [[Hno _]|(l1 & q & l2 & -> & Hno & Hq & _)].
  - by destruct (no_device_notin s d l p Hno Hp).
  - exists q. by exists l1, l2.
Qed.

(** C8, as the code has it: a node appended to a list in which no node has
    its device name is what [find_node_by_name] returns for that name, also
    after later insertions; the name is not found in a list where no node
    has it (the other list), nor in the list once the node is removed and
    no other node of the list has the name. *)
Theorem find_node_by_name_unique s d p l1 l2 other :
  device_at s p = Some d →
  no_device s d l1 → no_device s d l2 → no_device s d other →
  find_node_by_name (g_slist_append l1 p) d s = Some (Some p, s) ∧
  find_node_by_name (l1 ++ p :: l2) d s = Some (Some p, s) ∧
  find_node_by_name other d s = Some (None, s) ∧
  find_node_by_name (g_slist_remove (l1 ++ p :: l2) p) d s = Some (None, s).
Proof.
  intros Hp H1 H2 Ho.
  split; [by apply find_node_by_name_first|].
  split; [by apply find_node_by_name_first|].
  split; [by apply find_node_by_name_none|].
  rewrite g_slist_remove_middle by by apply (no_device_notin s d).
  apply find_node_by_name_none. by apply Forall_app.
Qed.

(** ** [port_unregister] *)

Lemma port_unregister_unparsed s path :
  sscanf_rfcomm SERIAL_MANAGER_PATH path = None →
  port_unregister SERIAL_MANAGER_PATH path s = Some (- ENOENT, s).
Proof. intros Hs. unfold port_unregister. by rewrite Hs. Qed.

Lemma port_unregister_absent s path dev_id :
  sscanf_rfcomm SERIAL_MANAGER_PATH path = Some dev_id →
  no_device s (rfcomm_dev_name dev_id) (bound_nodes s) →
  port_unregister SERIAL_MANAGER_PATH path s = Some (- ENOENT, s).
Proof.
  intros Hs Hno. unfold port_unregister. rewrite Hs. run.
  by rewrite (find_node_by_name_none _ _ _ Hno).
Qed.

Lemma port_unregister_found s path dev_id p n c :
  wf s →
  sscanf_rfcomm SERIAL_MANAGER_PATH path = Some dev_id →
  first_with_device s (bound_nodes s) (rfcomm_dev_name dev_id) p →
  heap s !! p = Some n → conn n = Some c →
  port_unregister SERIAL_MANAGER_PATH path s = Some (0, unpublished c path s).
Proof.
  intros Hwf Hs (l1 & l2 & Hl & Hno & Hd) Hp Hc.
  unfold port_unregister, unpublished. rewrite Hs. run.
  rewrite Hl at 1. rewrite (find_node_by_name_first _ _ _ _ _ Hno Hd), Hp.
  simpl. rewrite Hc. simpl.
  destruct (objects s !! (c, path)) as [q|] eqn:Ho.
  - assert (q ∈ bound_nodes s) as Hq.
    { destruct Hwf as (_ & _ & _ & _ & _ & _ & _ & _ & Hobj & _).
      apply (map_Forall_lookup_1 _ _ _ _ Hobj Ho). }
    destruct (wf_bound_node s q Hwf Hq) as (nq & _ & _ & Hnq & _).
    rewrite Hnq.
    by rewrite (dbus_connection_destroy_object_path_run s c path q nq Ho Hnq).
  - by rewrite (dbus_connection_destroy_object_path_absent s c path Ho).
Qed.

Lemma connected_nodes_unpublished c path s :
  connected_nodes (unpublished c path s) = connected_nodes s.
Proof.
  unfold unpublished. destruct (objects s !! (c, path)) as [q|]; [|done].
  by destruct (heap s !! q).
Qed.

Lemma bound_nodes_unpublished c path s :
  wf s →
  bound_nodes (unpublished c path s)
  = match objects s !! (c, path) with
    | Some q => g_slist_remove (bound_nodes s) q
    | None => bound_nodes s
    end.
Proof.
  intros Hwf. unfold unpublished.
  destruct (objects s !! (c, path)) as [q|] eqn:Ho; [|done].
  assert (q ∈ bound_nodes s) as Hq.
  { destruct Hwf as (_ & _ & _ & _ & _ & _ & _ & _ & Hobj & _).
    apply (map_Forall_lookup_1 _ _ _ _ Hobj Ho). }
  destruct (wf_bound_node s q Hwf Hq) as (nq & _ & _ & Hnq & _).
  by rewrite Hnq.
Qed.

(** C9, as the code has it: [port_unregister] succeeds exactly when
    [sscanf] reads a device id after the manager path and "/rfcomm" at
    the start of the path, and some bound node has as device name the
    text [snprintf] makes of "/dev/rfcomm" and the id in its 16 bytes;
    otherwise it answers not-found and changes nothing.  The node found
    only supplies the connection: what is destroyed on success is the
    object published at the path given, and the node removed from
    [bound_nodes] is the one that object was published for, whatever its
    device name; nothing is removed when no object is published there. *)
Theorem port_unregister_result s path :
  wf s →
  ∃ r s',
    port_unregister SERIAL_MANAGER_PATH path s = Some (r, s') ∧
    (r = 0 ∨ r = - ENOENT) ∧
    (r = 0 ↔
       ∃ dev_id p, sscanf_rfcomm SERIAL_MANAGER_PATH path = Some dev_id ∧
                   p ∈ bound_nodes s ∧
                   device_at s p = Some (rfcomm_dev_name dev_id)) ∧
    (r = - ENOENT → s' = s) ∧
    (r = 0 →
       ∃ dev_id p n c,
         sscanf_rfcomm SERIAL_MANAGER_PATH path = Some dev_id ∧
         first_with_device s (bound_nodes s) (rfcomm_dev_name dev_id) p ∧
         heap s !! p = Some n ∧ conn n = Some c ∧
         connected_nodes s' = connected_nodes s ∧
         bound_nodes s' = match objects s !! (c, path) with
                          | Some q => g_slist_remove (bound_nodes s) q
                          | None => bound_nodes s
                          end).
Proof.
  intros Hwf.
  destruct (sscanf_rfcomm SERIAL_MANAGER_PATH path) as [dev_id|] eqn:Hs.
  - destruct (find_node_by_name_total s (rfcomm_dev_name dev_id)
                (bound_nodes s) (wf_bound_named s Hwf))
      as [[Hno _]|(l1 & p & l2 & Hl & Hno & Hd & _)].
    + exists (- ENOENT), s.
      split; [by apply (port_unregister_absent s path dev_id)|].
      split; [by right|]. split; [|split; [done|discriminate]].
      split; [discriminate|].
      intros (i & p & Hi & Hp & Hd). assert (i = dev_id) as -> by congruence.
      by destruct (no_device_notin s _ _ p Hno Hd).
    + assert (first_with_device s (bound_nodes s) (rfcomm_dev_name dev_id) p)
        as Hf by by exists l1, l2.
      destruct (wf_bound_node s p Hwf (first_with_device_elem _ _ _ _ Hf))
        as (n & _ & c & Hn & _ & Hc & _).
      exists 0, (unpublished c path s).
      split; [by apply (port_unregister_found s path dev_id p n c)|].
      split; [by left|]. split.
      { split; [|done]. intros _. exists dev_id, p.
        split; [done|]. split; [|done]. by eapply first_with_device_elem. }
      split; [discriminate|]. intros _. exists dev_id, p, n, c.
      split; [done|]. split; [done|]. split; [done|]. split; [done|].
      split; [apply connected_nodes_unpublished|].
      by apply bound_nodes_unpublished.
  - exists (- ENOENT), s. split; [by apply port_unregister_unparsed|].
    split; [by right|]. split; [|split; [done|discriminate]].
    split; [discriminate|]. by intros (i & p & Hi & _).
Qed.

(** C10, as the code has it: nodes are appended at the tail of their list
    and [find_node_by_name] returns the first node with the name.  When
    several connected nodes share a device name, [port_remove_listener]
    checks and tears down the earliest of them and leaves the later ones
    alone.  [port_unregister] uses the earliest bound node with the name
    to decide that it succeeds and to take the connection from; the node
    it removes is the one published at the path it was given. *)
Theorem duplicates_first_inserted s d p n l1 l2 :
  wf s → connected_nodes s = l1 ++ p :: l2 →
  no_device s d l1 → device_at s p = Some d → heap s !! p = Some n →
  find_node_by_name (connected_nodes s) d s = Some (Some p, s) ∧
  (∀ own, owner n ≠ Some own →
     port_remove_listener own d s = Some (- EPERM, s)) ∧
  (∀ own, owner n = Some own →
     ∃ s', port_remove_listener own d s = Some (0, s') ∧
           connected_nodes s' = l1 ++ l2 ∧ heap s' !! p = None ∧
           ∀ q, q ∈ l2 → heap s' !! q = heap s !! q) ∧
  (∀ ok c dev_id dst_addr fd dev own,
     ∃ r s', port_add_listener ok c dev_id dst_addr fd dev own s
             = Some (r, s') ∧
             connected_nodes s' = connected_nodes s ++ [next_node s]) ∧
  (∀ c dev_id src_addr dst_addr dev want svc r s',
     port_register SERIAL_MANAGER_PATH MAX_PATH_LENGTH true true c dev_id
                   src_addr dst_addr dev want svc s = Some (r, s') →
     r.1 = 0 → bound_nodes s' = bound_nodes s ++ [next_node s]) ∧
  (∀ path dev_id b1 q b2 nq cq,
     sscanf_rfcomm SERIAL_MANAGER_PATH path = Some dev_id →
     bound_nodes s = b1 ++ q :: b2 →
     no_device s (rfcomm_dev_name dev_id) b1 →
     device_at s q = Some (rfcomm_dev_name dev_id) →
     heap s !! q = Some nq → conn nq = Some cq →
     ∃ s', port_unregister SERIAL_MANAGER_PATH path s = Some (0, s') ∧
           bound_nodes s' = match objects s !! (cq, path) with
                            | Some x => g_slist_remove (bound_nodes s) x
                            | None => bound_nodes s
                            end).
Proof.
  intros Hwf Hl Hno Hd Hp.
  assert (first_with_device s (connected_nodes s) d p) as Hf
    by by exists l1, l2.
  destruct (wf_connected_node s p Hwf (first_with_device_elem _ _ _ _ Hf))
    as (n' & _ & c & o & _ & Hn & _ & Hc & Ho & _).
  assert (n' = n) as -> by congruence.
  split; [rewrite Hl at 1; by apply find_node_by_name_first|].
  split.
  { intros own Hne.
    apply (port_remove_listener_forbidden s own d p n o); try done.
    congruence. }
  split.
  { intros own Hown. eexists.
    split; [by apply (port_remove_listener_run s own d p n c)|]. simpl.
    split.
    { rewrite Hl. apply g_slist_remove_middle.
      by apply (no_device_notin s d). }
    split; [apply lookup_delete_eq|].
    intros q Hq. apply lookup_delete_ne. intros ->.
    destruct Hwf as (Hnd & _). rewrite Hl in Hnd.
    apply NoDup_app in Hnd as (_ & _ & Hnd).
    by apply NoDup_cons in Hnd as [Hnd _]. }
  split.
  { intros ok c0 dev_id dst_addr fd dev own. eexists _, _.
    split; [apply port_add_listener_run|done]. }
  split.
  { intros c0 dev_id src_addr dst_addr dev want svc r s' Hrun Hr.
    destruct (objects s !! (c0, port_path SERIAL_MANAGER_PATH MAX_PATH_LENGTH
                                          dev_id)) as [x|] eqn:Hobj.
    - rewrite (port_register_failure_run true true s c0 dev_id src_addr
                 dst_addr dev want svc Hwf) in Hrun by (right; by exists x).
      injection Hrun as <- <-. discriminate.
    - rewrite (port_register_success_run s c0 dev_id src_addr dst_addr dev
                 want svc Hobj) in Hrun.
      by injection Hrun as <- <-. }
  intros path dev_id b1 q b2 nq cq Hs Hb Hnob Hdq Hq Hcq.
  exists (unpublished cq path s). split.
  - apply (port_unregister_found s path dev_id q nq cq); try done.
    by exists b1, b2.
  - by apply bound_nodes_unpublished.
Qed.

(** ** The registry stays well formed *)

Lemma g_slist_remove_ne (l : list ptr) p q :
  NoDup l → q ∈ g_slist_remove l p → q ≠ p.
Proof. intros Hnd Hq ->. by apply (g_slist_remove_gone l p). Qed.

Lemma NoDup_remove_listener (l : list listener) e :
  NoDup l → NoDup (remove_listener e l).
Proof.
  induction 1 as [|x l Hx Hl IH]; simpl; [constructor|].
  destruct (decide (x = e)); [done|].
  constructor; [|done]. intros Hin. by apply Hx, elem_of_remove_listener with e.
Qed.

Lemma wf_live_lt s p n : wf s → heap s !! p = Some n → (p < next_node s)%nat.
Proof.
  intros (_ & _ & _ & _ & _ & _ & _ & _ & _ & _ & Hh) Hp.
  apply (map_Forall_lookup_1 _ _ _ _ Hh Hp).
Qed.

Lemma wf_connected_not_bound s p :
  wf s → p ∈ connected_nodes s → p ∉ bound_nodes s.
Proof.
  intros Hwf Hc Hb.
  destruct (wf_connected_node s p Hwf Hc)
    as (n & _ & _ & _ & ch & Hn & _ & _ & _ & Hio & _).
  destruct (wf_bound_node s p Hwf Hb) as (n' & _ & _ & Hn' & _ & _ & Hio').
  congruence.
Qed.

(** The state after the teardown of a connected node, by whichever
    trigger, is well formed. *)
Lemma wf_torn_down s p n c o evs :
  wf s → p ∈ connected_nodes s → heap s !! p = Some n →
  conn n = Some c → owner n = Some o →
  wf (State (delete p (heap s)) (next_node s)
            (g_slist_remove (connected_nodes s) p) (bound_nodes s)
            (remove_listener (c, o, p) (listeners s))
            (delete (io_id n) (sources s))
            (next_source s) (objects s) (log s ++ evs)).
Proof.
  intros Hwf Hin Hp Hc Ho.
  pose proof Hwf as (Hndc & Hndb & Hco & Hbo & Hndl & Hlo & Hso & Hsi & Hob
                       & Hinj & Hh).
  unfold wf. simpl. split_and!.
  - by apply NoDup_g_slist_remove.
  - done.
  - apply Forall_forall. intros q Hq.
    pose proof (g_slist_remove_ne _ _ _ Hndc Hq) as Hne.
    apply elem_of_g_slist_remove in Hq.
    destruct (wf_connected_node s q Hwf Hq)
      as (nq & dq & cq & oq & chq & Hnq & Hdq & Hcq & Hoq & Hioq & Hsq).
    unfold connected_ok. simpl. rewrite lookup_delete_ne, Hnq by done.
    split_and!; try by eexists.
    rewrite lookup_delete_ne; [done|]. intros Heq. rewrite <- Heq in Hsq.
    destruct (wf_connected_node s p Hwf Hin)
      as (n' & _ & _ & _ & _ & Hn' & _ & _ & _ & _ & Hsp).
    assert (n' = n) as -> by congruence. congruence.
  - apply Forall_forall. intros q Hq.
    assert (q ≠ p) as Hne.
    { intros ->. by apply (wf_connected_not_bound s p). }
    destruct (wf_bound_node s q Hwf Hq) as (nq & dq & cq & Hnq & Hdq & Hcq & Hioq).
    unfold bound_ok. simpl. rewrite lookup_delete_ne, Hnq by done.
    split_and!; by eauto.
  - by apply NoDup_remove_listener.
  - apply Forall_forall. intros e He.
    assert (e ≠ (c, o, p)) as Hne.
    { intros ->. by apply (remove_listener_gone (listeners s) (c, o, p)). }
    apply elem_of_remove_listener in He.
    assert (e.2 ≠ p) as Hnp.
    { intros Hep. by apply Hne, (wf_listener_of s p n c o e). }
    apply (proj1 (Forall_forall _ _) Hlo) in He as [He1 He2].
    unfold listener_ok. simpl. rewrite lookup_delete_ne by done.
    split; [by apply elem_of_g_slist_remove_ne|done].
  - intros i q Hi. apply lookup_delete_Some in Hi as [Hne Hi].
    pose proof (Hso i q Hi) as [Hq1 Hq2]. simpl in *.
    assert (q ≠ p) as Hnp.
    { intros ->. apply Hne. symmetry. by apply (wf_sources_of s p n i). }
    rewrite lookup_delete_ne by done.
    split; [by apply elem_of_g_slist_remove_ne|done].
  - by apply map_Forall_delete.
  - done.
  - done.
  - by apply map_Forall_delete.
Qed.

(** C6, as the code has it: the cleanup is not idempotent.  One teardown
    of a connected node, by [rfcomm_disconnect_cb] as its transport watch
    calls it or, when its liveness watch is installed, by that watch
    firing, emits the signal once,
    releases the device id once and frees the record, and it leaves a
    well-formed registry in which nothing leads to the record any more:
    the node is in neither list, and no source, no name listener and no
    published object holds it.  A second call of [rfcomm_node_free],
    [connection_owner_exited] or [rfcomm_disconnect_cb] on the same
    pointer reads the freed record: it is undefined, not a no-op. *)
Theorem teardown_not_idempotent s name p n :
  wf s → p ∈ connected_nodes s → heap s !! p = Some n →
  ∃ s' c o d,
    conn n = Some c ∧ owner n = Some o ∧ device n = Some d ∧
    rfcomm_disconnect_cb SERIAL_MANAGER_PATH SERIAL_MANAGER_INTERFACE p s
      = Some (false, s') ∧
    fire_io_watch SERIAL_MANAGER_PATH SERIAL_MANAGER_INTERFACE (io_id n) s
      = Some (tt, s') ∧
    ((c, o, p) ∈ listeners s →
     fire_name_listener SERIAL_MANAGER_PATH SERIAL_MANAGER_INTERFACE
                        (c, o, p) s = Some (tt, s')) ∧
    log s' = log s ++ signal c d :: free_events n ∧
    signals_of (signal c d :: free_events n) = [signal c d] ∧
    released_of (signal c d :: free_events n) = [id n] ∧
    wf s' ∧
    heap s' !! p = None ∧
    (p ∉ connected_nodes s') ∧ (p ∉ bound_nodes s') ∧
    (∀ i, sources s' !! i ≠ Some p) ∧
    (∀ e, e ∈ listeners s' → e.2 ≠ p) ∧
    (∀ k, objects s' !! k ≠ Some p) ∧
    rfcomm_node_free p s' = None ∧
    connection_owner_exited SERIAL_MANAGER_PATH SERIAL_MANAGER_INTERFACE
                            name p s' = None ∧
    rfcomm_disconnect_cb SERIAL_MANAGER_PATH SERIAL_MANAGER_INTERFACE p s'
      = None.
Proof.
  intros Hwf Hin Hp.
  destruct (wf_connected_node s p Hwf Hin)
    as (n' & d & c & o & ch & Hn & Hd & Hc & Ho & Hio & Hsrc).
  assert (n' = n) as -> by congruence.
  pose proof (wf_connected_not_bound s p Hwf Hin) as Hnb.
  eexists. exists c, o, d. split; [done|]. split; [done|]. split; [done|].
  split.
  { rewrite (rfcomm_disconnect_cb_run s p n c o d) by done. by rewrite Hio. }
  split; [by apply (fire_io_watch_run s p n c o d ch)|].
  split.
  { intros Hl. rewrite (fire_name_listener_run s p n c o d) by done.
    by rewrite Hio. }
  simpl. split; [done|]. split; [by rewrite signals_of_free_events|].
  split; [by rewrite released_of_free_events|].
  split; [by apply wf_torn_down|].
  split; [apply lookup_delete_eq|].
  split; [apply g_slist_remove_gone, Hwf|]. split; [done|]. split.
  { intros i Hi. apply lookup_delete_Some in Hi as [Hne Hi].
    by apply (wf_sources_of s p n i Hwf Hp) in Hi. }
  split.
  { intros e He Hep.
    assert (e = (c, o, p)) as ->.
    { apply (wf_listener_of s p n c o e Hwf Hp Hc Ho); [|done].
      by apply elem_of_remove_listener in He. }
    revert He. apply remove_listener_gone, Hwf. }
  split.
  { intros k Hk. apply Hnb.
    pose proof Hwf as (_ & _ & _ & _ & _ & _ & _ & _ & Hob & _).
    apply (Hob k p Hk). }
  split; [apply rfcomm_node_free_dangling; simpl; apply lookup_delete_eq|].
  split; [apply connection_owner_exited_dangling; simpl;
          apply lookup_delete_eq|].
  apply rfcomm_disconnect_cb_dangling; simpl; apply lookup_delete_eq.
Qed.

Lemma wf_port_add_listener ok s c dev_id dst_addr fd dev own :
  wf s →
  ∃ r s', port_add_listener ok c dev_id dst_addr fd dev own s = Some (r, s') ∧
          wf s'.
Proof.
  intros Hwf. eexists _, _. split; [apply port_add_listener_run|].
  pose proof Hwf as (Hndc & Hndb & Hco & Hbo & Hndl & Hlo & Hso & Hsi & Hob
                       & Hinj & Hh).
  pose proof (wf_fresh_node s Hwf) as Hfresh.
  assert (∀ q, q ∈ connected_nodes s → q ≠ next_node s) as Hcne.
  { intros q Hq ->.
    destruct (wf_connected_node s _ Hwf Hq) as (n & _ & _ & _ & _ & Hn & _).
    congruence. }
  assert (∀ e, e ∈ listeners s → e.2 ≠ next_node s) as Hlne.
  { intros e He. apply (proj1 (Forall_forall _ _) Hlo) in He as [He _].
    by apply Hcne. }
  unfold wf. simpl. split_and!.
  - apply NoDup_app. split; [done|]. split; [|apply NoDup_singleton].
    intros q Hq ->%list_elem_of_singleton. by apply (Hcne (next_node s)).
  - done.
  - apply Forall_app. split.
    + apply Forall_forall. intros q Hq.
      destruct (wf_connected_node s q Hwf Hq)
        as (nq & dq & cq & oq & chq & Hnq & Hdq & Hcq & Hoq & Hioq & Hsq).
      unfold connected_ok. simpl.
      rewrite lookup_insert_ne, Hnq by (symmetry; by apply Hcne).
      split_and!; try by eexists.
      rewrite lookup_insert_ne; [done|]. intros Heq. rewrite <- Heq in Hsq.
      apply (map_Forall_lookup_1 _ _ _ _ Hsi) in Hsq. lia.
    + apply Forall_singleton. unfold connected_ok. simpl.
      rewrite !lookup_insert_eq. simpl. split_and!; by eauto.
  - apply Forall_forall. intros q Hq.
    destruct (wf_bound_node s q Hwf Hq) as (nq & dq & cq & Hnq & Hdq & Hcq & Hioq).
    unfold bound_ok. simpl.
    rewrite lookup_insert_ne, Hnq by congruence. split_and!; by eauto.
  - destruct ok; [|done]. apply NoDup_app. split; [done|].
    split; [|apply NoDup_singleton].
    intros e He ->%list_elem_of_singleton. by apply (Hlne _ He).
  - assert (Forall (listener_ok
              (State (<[next_node s :=
                        Node dev_id 0 dst_addr None (Some dev) (Some c)
                             (Some own) (Some fd) (next_source s)]> (heap s))
                     (S (next_node s)) (connected_nodes s ++ [next_node s])
                     (bound_nodes s)
                     (if ok then listeners s ++ [(c, own, next_node s)]
                      else listeners s)
                     (<[next_source s := next_node s]> (sources s))
                     (S (next_source s)) (objects s) (log s ++ [EvConnRef c])))
              (listeners s)) as Hold.
    { apply Forall_forall. intros e He.
      pose proof (Hlne e He) as Hne.
      apply (proj1 (Forall_forall _ _) Hlo) in He as [He1 He2].
      unfold listener_ok. simpl. rewrite lookup_insert_ne by done.
      split; [|done]. apply elem_of_app. by left. }
    destruct ok; [|done]. apply Forall_app. split; [done|].
    apply Forall_singleton. unfold listener_ok. simpl.
    rewrite lookup_insert_eq. split; [|done].
    apply elem_of_app. right. apply list_elem_of_here.
  - apply map_Forall_insert_2.
    + simpl. rewrite lookup_insert_eq. split; [|done].
      apply elem_of_app. right. apply list_elem_of_here.
    + intros i q Hi. pose proof (Hso i q Hi) as [Hq1 Hq2]. simpl in *.
      rewrite lookup_insert_ne by (symmetry; by apply Hcne).
      split; [|done]. apply elem_of_app. by left.
  - apply map_Forall_insert_2; [simpl; lia|].
    intros i q Hi. pose proof (Hsi i q Hi). simpl in *. lia.
  - done.
  - done.
  - apply map_Forall_insert_2; [simpl; lia|].
    intros q nq Hq. pose proof (Hh q nq Hq). simpl in *. lia.
Qed.

Lemma wf_port_register create_ok register_ok s c dev_id src_addr dst_addr dev
    want svc :
  wf s →
  ∃ r s',
    port_register SERIAL_MANAGER_PATH MAX_PATH_LENGTH create_ok register_ok c
                  dev_id src_addr dst_addr dev want svc s = Some (r, s') ∧
    wf s'.
Proof.
  intros Hwf.
  pose proof Hwf as (Hndc & Hndb & Hco & Hbo & Hndl & Hlo & Hso & Hsi & Hob
                       & Hinj & Hh).
  pose proof (wf_fresh_node s Hwf) as Hfresh.
  assert (∀ q n, heap s !! q = Some n → q ≠ next_node s) as Hlive
    by (intros q n Hq ->; congruence).
  destruct (decide (create_ok && register_ok = true ∧
                    objects s !! (c, port_path SERIAL_MANAGER_PATH
                                               MAX_PATH_LENGTH dev_id) = None))
    as [[Hok Hfree]|Hfail].
  - apply andb_true_iff in Hok as [-> ->]. eexists _, _.
    split; [by apply port_register_success_run|].
    assert (∀ q, q ∈ bound_nodes s → q ≠ next_node s) as Hbne.
    { intros q Hq.
      destruct (wf_bound_node s q Hwf Hq) as (nq & _ & _ & Hnq & _).
      by apply (Hlive q nq). }
    unfold wf. simpl. split_and!.
    + done.
    + apply NoDup_app. split; [done|]. split; [|apply NoDup_singleton].
      intros q Hq ->%list_elem_of_singleton. by apply (Hbne (next_node s)).
    + apply Forall_forall. intros q Hq.
      destruct (wf_connected_node s q Hwf Hq)
        as (nq & dq & cq & oq & chq & Hnq & Hdq & Hcq & Hoq & Hioq & Hsq).
      unfold connected_ok. simpl.
      rewrite lookup_insert_ne, Hnq by (symmetry; by apply (Hlive q nq)).
      split_and!; by eauto.
    + apply Forall_app. split.
      * apply Forall_forall. intros q Hq.
        destruct (wf_bound_node s q Hwf Hq)
          as (nq & dq & cq & Hnq & Hdq & Hcq & Hioq).
        unfold bound_ok. simpl.
        rewrite lookup_insert_ne, Hnq by (symmetry; by apply Hbne).
        split_and!; by eauto.
      * apply Forall_singleton. unfold bound_ok. simpl.
        rewrite lookup_insert_eq. simpl. split_and!; by eauto.
    + done.
    + apply Forall_forall. intros e He.
      apply (proj1 (Forall_forall _ _) Hlo) in He as [He1 He2].
      unfold listener_ok. simpl.
      destruct (heap s !! e.2) as [ne|] eqn:Hne; [|done].
      rewrite lookup_insert_ne, Hne by (symmetry; by apply (Hlive _ ne)).
      done.
    + intros i q Hi. pose proof (Hso i q Hi) as [Hq1 Hq2]. simpl in *.
      destruct (heap s !! q) as [nq|] eqn:Hnq; [|done].
      rewrite lookup_insert_ne, Hnq by (symmetry; by apply (Hlive _ nq)).
      done.
    + done.
    + apply map_Forall_insert_2.
      * apply elem_of_app. right. apply list_elem_of_here.
      * intros k q Hk. apply elem_of_app. left. by apply (Hob k q).
    + intros k q Hk k' q' Hk' Hqq. subst q'.
      apply lookup_insert_Some in Hk as [[<- <-]|[Hne Hk]];
        apply lookup_insert_Some in Hk' as [[<- Heq]|[Hne' Hk']]; try done.
      * destruct (Hbne _ (Hob _ _ Hk') eq_refl).
      * subst q. destruct (Hbne _ (Hob _ _ Hk) eq_refl).
      * by apply (Hinj k q Hk k' q Hk').
    + apply map_Forall_insert_2; [simpl; lia|].
      intros q nq Hq. pose proof (Hh q nq Hq). simpl in *. lia.
  - eexists _, _. split.
    { apply port_register_failure_run; [done|].
      destruct (objects s !! _) eqn:Hobj; [right; by eexists|left].
      destruct (create_ok && register_ok) eqn:E; [|done].
      by destruct Hfail. }
    unfold wf. simpl. split_and!; try done.
    intros q nq Hq. pose proof (Hh q nq Hq). simpl in *. lia.
Qed.

Lemma wf_port_remove_listener s own dev :
  wf s → ∃ r s', port_remove_listener own dev s = Some (r, s') ∧ wf s'.
Proof.
  intros Hwf.
  destruct (find_node_by_name_total s dev (connected_nodes s)
              (wf_connected_named s Hwf))
    as [[Hno _]|(l1 & p & l2 & Hl & Hno & Hd & _)].
  - exists (- ENOENT), s. split; [by apply port_remove_listener_absent|done].
  - assert (first_with_device s (connected_nodes s) dev p) as Hf
      by by exists l1, l2.
    pose proof (first_with_device_elem _ _ _ _ Hf) as Hin.
    destruct (wf_connected_node s p Hwf Hin)
      as (n & _ & c & o & ch & Hn & _ & Hc & Ho & Hio & _).
    destruct (decide (o = own)) as [->|Hne].
    + eexists _, _.
      split; [by apply (port_remove_listener_run s own dev p n c)|].
      rewrite Hio. by apply wf_torn_down.
    + exists (- EPERM), s.
      split; [by apply (port_remove_listener_forbidden s own dev p n o)|done].
Qed.

Lemma wf_fire_io_watch s i :
  wf s →
  ∃ s', fire_io_watch SERIAL_MANAGER_PATH SERIAL_MANAGER_INTERFACE i s
        = Some (tt, s') ∧ wf s'.
Proof.
  intros Hwf. destruct (sources s !! i) as [p|] eqn:Hi.
  - pose proof Hwf as (_ & _ & _ & _ & _ & _ & Hso & _).
    pose proof (Hso i p Hi) as [Hin _]. simpl in Hin.
    destruct (wf_connected_node s p Hwf Hin)
      as (n & d & c & o & ch & Hn & Hd & Hc & Ho & Hio & Hsrc).
    assert (i = io_id n) as -> by by apply (wf_sources_of s p n i).
    eexists. split; [by apply (fire_io_watch_run s p n c o d ch)|].
    by apply wf_torn_down.
  - exists s. split; [|done]. unfold fire_io_watch. run. by rewrite Hi.
Qed.

Lemma wf_fire_name_listener s e :
  wf s →
  ∃ s', fire_name_listener SERIAL_MANAGER_PATH SERIAL_MANAGER_INTERFACE e s
        = Some (tt, s') ∧ wf s'.
Proof.
  intros Hwf. destruct (decide (e ∈ listeners s)) as [He|He].
  - pose proof Hwf as (_ & _ & _ & _ & _ & Hlo & _).
    pose proof (proj1 (Forall_forall _ _) Hlo e He) as [Hin Hn].
    destruct e as [[c o] p]. simpl in *.
    destruct (wf_connected_node s p Hwf Hin)
      as (n & d & c' & o' & ch & Hp & Hd & Hc & Ho & Hio & _).
    rewrite Hp in Hn. destruct Hn as [Hc' Ho'].
    eexists. split; [by apply (fire_name_listener_run s p n c o d)|].
    rewrite Hio. by apply wf_torn_down.
  - exists s. split; [|done]. unfold fire_name_listener, mbind, M_bind, get.
    by case_decide.
Qed.

Lemma wf_unpublished s c path : wf s → wf (unpublished c path s).
Proof.
  intros Hwf. unfold unpublished.
  destruct (objects s !! (c, path)) as [q|] eqn:Hk; [|done].
  pose proof Hwf as (Hndc & Hndb & Hco & Hbo & Hndl & Hlo & Hso & Hsi & Hob
                       & Hinj & Hh).
  pose proof (Hob _ _ Hk) as Hq. simpl in Hq.
  destruct (wf_bound_node s q Hwf Hq) as (nq & _ & _ & Hnq & _ & _ & Hioq).
  rewrite Hnq.
  assert (∀ x, x ∈ connected_nodes s → x ≠ q) as Hcne.
  { intros x Hx ->. by apply (wf_connected_not_bound s q). }
  unfold wf, freed. simpl. rewrite Hioq. split_and!.
  - done.
  - by apply NoDup_g_slist_remove.
  - apply Forall_forall. intros x Hx.
    destruct (wf_connected_node s x Hwf Hx)
      as (nx & dx & cx & ox & chx & Hnx & Hdx & Hcx & Hox & Hiox & Hsx).
    unfold connected_ok. simpl. rewrite lookup_delete_ne, Hnx by
      (symmetry; by apply Hcne).
    split_and!; by eauto.
  - apply Forall_forall. intros x Hx.
    pose proof (g_slist_remove_ne _ _ _ Hndb Hx) as Hne.
    apply elem_of_g_slist_remove in Hx.
    destruct (wf_bound_node s x Hwf Hx) as (nx & dx & cx & Hnx & Hdx & Hcx & Hiox).
    unfold bound_ok. simpl. rewrite lookup_delete_ne, Hnx by done.
    split_and!; by eauto.
  - done.
  - apply Forall_forall. intros e He.
    apply (proj1 (Forall_forall _ _) Hlo) in He as [He1 He2].
    unfold listener_ok. simpl.
    rewrite lookup_delete_ne by (symmetry; by apply Hcne). done.
  - intros i x Hi. pose proof (Hso i x Hi) as [Hx1 Hx2]. simpl in *.
    rewrite lookup_delete_ne by (symmetry; by apply Hcne). done.
  - done.
  - intros k x Hx. apply lookup_delete_Some in Hx as [Hne Hx]. simpl.
    apply elem_of_g_slist_remove_ne; [|by apply (Hob k x)].
    intros ->. apply Hne. by apply (Hinj _ _ Hk _ _ Hx).
  - intros k x Hx k' x' Hx' Hxx.
    apply lookup_delete_Some in Hx as [_ Hx].
    apply lookup_delete_Some in Hx' as [_ Hx'].
    by apply (Hinj k x Hx k' x' Hx').
  - by apply map_Forall_delete.
Qed.

Lemma wf_port_unregister s path :
  wf s → ∃ r s', port_unregister SERIAL_MANAGER_PATH path s = Some (r, s') ∧
                 wf s'.
Proof.
  intros Hwf.
  destruct (sscanf_rfcomm SERIAL_MANAGER_PATH path) as [dev_id|] eqn:Hs.
  - destruct (find_node_by_name_total s (rfcomm_dev_name dev_id)
                (bound_nodes s) (wf_bound_named s Hwf))
      as [[Hno _]|(l1 & p & l2 & Hl & Hno & Hd & _)].
    + exists (- ENOENT), s.
      split; [by apply (port_unregister_absent s path dev_id)|done].
    + assert (first_with_device s (bound_nodes s) (rfcomm_dev_name dev_id) p)
        as Hf by by exists l1, l2.
      destruct (wf_bound_node s p Hwf (first_with_device_elem _ _ _ _ Hf))
        as (n & _ & c & Hn & _ & Hc & _).
      exists 0, (unpublished c path s).
      split; [by apply (port_unregister_found s path dev_id p n c)|].
      by apply wf_unpublished.
  - exists (- ENOENT), s. split; [by apply port_unregister_unparsed|done].
Qed.

Lemma wf_empty : wf init.
Proof. apply (bool_decide_unpack _). vm_compute. exact I. Qed.

(** Every call is defined on a well-formed state and leaves a well-formed
    state: the hypothesis [wf] of the theorems above holds in every state
    the registry reaches. *)
Lemma step_wf s s' :
  wf s →
  step SERIAL_MANAGER_PATH SERIAL_MANAGER_INTERFACE MAX_PATH_LENGTH s s' →
  wf s'.
Proof.
  intros Hwf Hstep. destruct Hstep as
    [ok c dev_id dst_addr fd dev own r s s' Hrun
    |own dev r s s' Hrun
    |create_ok register_ok c dev_id src_addr dst_addr dev want svc r s s' Hrun
    |path r s s' Hrun
    |i s s' Hrun
    |e s s' Hrun
    |s s' Hrun].
  - destruct (wf_port_add_listener ok s c dev_id dst_addr fd dev own Hwf)
      as (r0 & s0 & Hrun0 & Hwf0). congruence.
  - destruct (wf_port_remove_listener s own dev Hwf)
      as (r0 & s0 & Hrun0 & Hwf0). congruence.
  - destruct (wf_port_register create_ok register_ok s c dev_id src_addr
                dst_addr dev want svc Hwf) as (r0 & s0 & Hrun0 & Hwf0).
    congruence.
  - destruct (wf_port_unregister s path Hwf) as (r0 & s0 & Hrun0 & Hwf0).
    congruence.
  - destruct (wf_fire_io_watch s i Hwf) as (s0 & Hrun0 & Hwf0). congruence.
  - destruct (wf_fire_name_listener s e Hwf) as (s0 & Hrun0 & Hwf0).
    congruence.
  - by apply port_release_all_inv in Hrun as [_ ->].
Qed.

Lemma reachable_wf s :
  reachable SERIAL_MANAGER_PATH SERIAL_MANAGER_INTERFACE MAX_PATH_LENGTH s →
  wf s.
Proof.
  induction 1 as [|s s' _ IH Hstep]; [apply wf_empty|].
  by apply (step_wf s s').
Qed.

End Properties.
(** * Examples *)

(** The example states are what the functions of the file make, starting
    from the empty registry. *)
Lemma ex_scenario_reached :
  (_ ← port_register manager_path max_path_length true true 1%nat 0 11 22
                     "/dev/rfcomm0" true (Some "OBEX");
   port_add_listener true 1%nat 0 22 9 "/dev/rfcomm0" "org.client.Z") init
  = Some (0, ex_scenario).
Proof. vm_compute. reflexivity. Qed.

Lemma ex_twins_reached :
  (_ ← port_add_listener true 1%nat 0 22 9 "/dev/rfcomm0" "org.client.Z";
   port_add_listener true 1%nat 1 33 10 "/dev/rfcomm0" "org.client.Y") init
  = Some (0, ex_twins).
Proof. vm_compute. reflexivity. Qed.

Lemma ex_mismatch_reached :
  (_ ← port_register manager_path max_path_length true true 1%nat 3 11 22
                     "/dev/port3" true None;
   port_register manager_path max_path_length true true 1%nat 5 11 33
                 "/dev/rfcomm3" true (Some "OBEX")) init
  = Some ((0, Some "/org/bluez/serial/rfcomm5"), ex_mismatch).
Proof. vm_compute. reflexivity. Qed.

Lemma ex_duplicates_reached :
  (_ ← port_register manager_path max_path_length true true 1%nat 5 11 22
                     "/dev/rfcomm3" true None;
   _ ← port_register manager_path max_path_length true true 1%nat 3 11 33
                     "/dev/rfcomm3" true (Some "OBEX");
   _ ← port_add_listener true 1%nat 0 22 9 "/dev/rfcomm0" "org.client.Z";
   port_add_listener true 1%nat 1 33 10 "/dev/rfcomm0" "org.client.Y") init
  = Some (0, ex_duplicates).
Proof. vm_compute. reflexivity. Qed.

Ltac calc := vm_compute; reflexivity.

(** They are states the registry reaches, hence well formed. *)
Lemma ex_scenario_reachable :
  reachable manager_path manager_interface max_path_length ex_scenario.
Proof.
  eapply reachable_step; [eapply reachable_step; [apply reachable_init|]|].
  - eapply (step_port_register _ _ _ true true 1%nat 0 11 22 "/dev/rfcomm0"
              true (Some "OBEX")). calc.
  - eapply (step_port_add_listener _ _ _ true 1%nat 0 22 9 "/dev/rfcomm0"
              "org.client.Z" 0). calc.
Qed.

Lemma ex_twins_reachable :
  reachable manager_path manager_interface max_path_length ex_twins.
Proof.
  eapply reachable_step; [eapply reachable_step; [apply reachable_init|]|].
  - eapply (step_port_add_listener _ _ _ true 1%nat 0 22 9 "/dev/rfcomm0"
              "org.client.Z"). calc.
  - eapply (step_port_add_listener _ _ _ true 1%nat 1 33 10 "/dev/rfcomm0"
              "org.client.Y" 0). calc.
Qed.

Lemma ex_mismatch_reachable :
  reachable manager_path manager_interface max_path_length ex_mismatch.
Proof.
  eapply reachable_step; [eapply reachable_step; [apply reachable_init|]|].
  - eapply (step_port_register _ _ _ true true 1%nat 3 11 22 "/dev/port3"
              true None). calc.
  - eapply (step_port_register _ _ _ true true 1%nat 5 11 33 "/dev/rfcomm3"
              true (Some "OBEX") (0, Some "/org/bluez/serial/rfcomm5")). calc.
Qed.

Lemma ex_duplicates_reachable :
  reachable manager_path manager_interface max_path_length ex_duplicates.
Proof.
  eapply reachable_step;
    [eapply reachable_step;
       [eapply reachable_step;
          [eapply reachable_step; [apply reachable_init|]|]|]|].
  - eapply (step_port_register _ _ _ true true 1%nat 5 11 22 "/dev/rfcomm3"
              true None). calc.
  - eapply (step_port_register _ _ _ true true 1%nat 3 11 33 "/dev/rfcomm3"
              true (Some "OBEX")). calc.
  - eapply (step_port_add_listener _ _ _ true 1%nat 0 22 9 "/dev/rfcomm0"
              "org.client.Z"). calc.
  - eapply (step_port_add_listener _ _ _ true 1%nat 1 33 10 "/dev/rfcomm0"
              "org.client.Y" 0). calc.
Qed.

Lemma wf_ex_duplicates : wf ex_duplicates.
Proof. exact (reachable_wf _ _ _ _ ex_duplicates_reachable). Qed.

(** ** The directives on strings *)

Example port_path_of_0 :
  port_path manager_path max_path_length 0 = "/org/bluez/serial/rfcomm0".
Proof. reflexivity. Qed.

Example sscanf_rfcomm_reads_id :
  sscanf_rfcomm manager_path "/org/bluez/serial/rfcomm3" = Some 3.
Proof. reflexivity. Qed.

(** What follows the digits is not read. *)
Example sscanf_rfcomm_ignores_rest :
  sscanf_rfcomm manager_path "/org/bluez/serial/rfcomm12/extra" = Some 12.
Proof. reflexivity. Qed.

Example sscanf_rfcomm_no_digit :
  sscanf_rfcomm manager_path "/org/bluez/serial/rfcomm" = None ∧
  sscanf_rfcomm manager_path "/org/bluez/serial/port3" = None.
Proof. split; reflexivity. Qed.

(** The 16 bytes of [dev] hold 15 characters: an id of five characters is
    cut. *)
Example rfcomm_dev_name_cut :
  rfcomm_dev_name 7 = "/dev/rfcomm7" ∧
  rfcomm_dev_name 12345 = "/dev/rfcomm1234" ∧
  rfcomm_dev_name (-1000) = "/dev/rfcomm-100".
Proof. repeat split; reflexivity. Qed.

Ltac decide_wf := apply (bool_decide_unpack _); vm_compute; exact I.

(** ** C1 *)

(** The owner disconnects the client of the scenario: the call succeeds
    and empties [connected_nodes], and no signal is among the events of
    the call, where the claim has exactly one. *)
Lemma port_remove_listener_emits_no_signal :
  port_remove_listener "org.client.Z" "/dev/rfcomm0" ex_scenario
    = Some (0, ex_scenario_disconnected) ∧
  connected_nodes ex_scenario_disconnected = [] ∧
  signals_of (log ex_scenario_disconnected) = [].
Proof. split; [calc|]. split; reflexivity. Qed.

Lemma port_remove_listener_owner_witness :
  ∃ s' evs,
    port_remove_listener "org.client.Z" "/dev/rfcomm0" ex_scenario
      = Some (0, s') ∧
    log s' = log ex_scenario ++ evs ∧ signals_of evs = [] ∧
    released_of evs = [0] ∧ (1%nat ∉ connected_nodes s') ∧
    evs = [EvConnUnref 1%nat; EvIoClose 9; EvIoUnref 9; EvRelease 0].
Proof.
  destruct (port_remove_listener_owner ex_scenario "org.client.Z"
              "/dev/rfcomm0" 1%nat ex_connected_record)
    as (s' & evs & H1 & H2 & H3 & H4 & _ & H6 & _ & _ & _ & _
           & c & ch & Hc & Hch & Hevs).
  - decide_wf.
  - exists [], []. split; [reflexivity|]. split; [constructor|calc].
  - calc.
  - reflexivity.
  - injection Hc as <-. injection Hch as <-.
    exists s', evs. repeat split; assumption.
Defined.

(** ** C2 *)

(** One client is connected in the scenario: the first pass of the loop
    frees its record and releases the device id 0, and the call is
    undefined. *)
Lemma port_release_all_reads_freed_cell_witness :
  (_ ← modify (set_connected_nodes (λ c, g_slist_remove c 1%nat));
   rfcomm_node_free 1%nat) ex_scenario
    = Some (tt, freed 1%nat ex_connected_record
                      (set_connected_nodes (λ _, []) ex_scenario)) ∧
  port_release_all ex_scenario = None.
Proof.
  destruct (port_release_all_reads_freed_cell ex_scenario 1%nat [])
    as (n & Hn & Hbody & Hall).
  - decide_wf.
  - reflexivity.
  - assert (Some n = Some ex_connected_record) as [= ->]
      by (rewrite <- Hn; calc).
    split; assumption.
Defined.

(** ** C3 *)

(** A connect on the empty registry for which the name listener cannot be
    installed: the call fails, and the node is in [connected_nodes], its
    record is live with its channel open and its transport watch is
    registered, where the claim has them torn down. *)
Lemma port_add_listener_failure_keeps_node :
  port_add_listener false 1%nat 0 22 9 "/dev/rfcomm0" "org.client.Z" init
    = Some (-1, ex_half_connected) ∧
  connected_nodes ex_half_connected = [0%nat] ∧
  sources ex_half_connected !! 1%nat = Some 0%nat ∧
  heap ex_half_connected !! 0%nat = Some ex_twin_first ∧
  io ex_twin_first = Some 9 ∧
  log ex_half_connected = [EvConnRef 1%nat].
Proof.
  split; [calc|]. split; [reflexivity|]. split; [calc|]. split; [calc|].
  split; reflexivity.
Qed.

(** ** C4 *)

Lemma port_register_publication_failure_witness :
  ∃ s',
    port_register manager_path max_path_length true false 1%nat 0 11 22
                  "/dev/rfcomm0" true (Some "OBEX") init
      = Some ((-1, None), s') ∧
    connected_nodes s' = [] ∧ bound_nodes s' = [] ∧
    heap s' !! 0%nat = None ∧ objects s' = ∅ ∧
    released_of (log s') = [0].
Proof.
  destruct (port_register_publication_failure manager_path max_path_length
              true false init 1%nat 0 11 22 "/dev/rfcomm0" true (Some "OBEX"))
    as (s' & H1 & H2 & H3 & _ & _ & H5 & H6 & H7).
  - decide_wf.
  - left. reflexivity.
  - exists s'. repeat split; assumption.
Defined.

(** ** C5 *)

Lemma port_remove_listener_result_witness :
  port_remove_listener "org.client.Y" "/dev/rfcomm0" ex_scenario
    = Some (- EPERM, ex_scenario) ∧
  port_remove_listener "org.client.Z" "/dev/rfcomm1" ex_scenario
    = Some (- ENOENT, ex_scenario).
Proof.
  assert (wf ex_scenario) as Hwf by decide_wf.
  split.
  - destruct (port_remove_listener_result ex_scenario "org.client.Y"
                "/dev/rfcomm0" Hwf) as (_ & H & _).
    apply (H 1%nat ex_connected_record).
    + exists [], []. split; [reflexivity|]. split; [constructor|calc].
    + calc.
    + discriminate.
  - destruct (port_remove_listener_result ex_scenario "org.client.Z"
                "/dev/rfcomm1" Hwf) as (H & _).
    apply H. constructor; [|constructor].
    exists "/dev/rfcomm0". split; [calc|discriminate].
Defined.

(** ** C6 *)

(** The cleanup routine called twice on the connected node of the
    scenario: the first call frees the record, the second one reads the
    freed record and is undefined, where the claim has a no-op that does
    not fail. *)
Lemma rfcomm_node_free_twice_undefined :
  rfcomm_node_free 1%nat ex_scenario = Some (tt, ex_scenario_freed) ∧
  rfcomm_node_free 1%nat ex_scenario_freed = None ∧
  (_ ← rfcomm_node_free 1%nat; rfcomm_node_free 1%nat) ex_scenario = None.
Proof. split; [calc|]. split; calc. Qed.

Lemma teardown_not_idempotent_witness :
  ∃ s',
    rfcomm_disconnect_cb manager_path manager_interface 1%nat ex_scenario
      = Some (false, s') ∧
    fire_io_watch manager_path manager_interface 1%nat ex_scenario
      = Some (tt, s') ∧
    fire_name_listener manager_path manager_interface
                       (1%nat, "org.client.Z", 1%nat) ex_scenario
      = Some (tt, s') ∧
    signals_of (drop (length (log ex_scenario)) (log s'))
      = [ServiceDisconnected manager_path manager_interface 1%nat
                             "/dev/rfcomm0"] ∧
    released_of (drop (length (log ex_scenario)) (log s')) = [0] ∧
    wf s' ∧ (∀ e, e ∈ listeners s' → e.2 ≠ 1%nat) ∧
    rfcomm_node_free 1%nat s' = None.
Proof.
  destruct (teardown_not_idempotent manager_path manager_interface ex_scenario
              "org.client.Z" 1%nat ex_connected_record)
    as (s' & c & o & d & Hc & Ho & Hd & H0 & H1 & H2 & H3 & H4 & H5 & H6 & _
           & _ & _ & _ & H7 & _ & H8 & _).
  - decide_wf.
  - apply list_elem_of_here.
  - calc.
  - injection Hc as <-. injection Ho as <-. injection Hd as <-.
    exists s'. split; [exact H0|]. split; [exact H1|].
    split; [apply H2, list_elem_of_here|].
    rewrite H3, drop_app_length.
    split; [exact H4|]. split; [exact H5|]. split; [exact H6|].
    split; [exact H7|exact H8].
Defined.

(** ** C7 *)

Lemma watches_same_teardown_witness :
  ∃ s',
    fire_io_watch manager_path manager_interface 1%nat ex_scenario
      = Some (tt, s') ∧
    fire_name_listener manager_path manager_interface
                       (1%nat, "org.client.Z", 1%nat) ex_scenario
      = Some (tt, s') ∧
    signals_of (drop (length (log ex_scenario)) (log s'))
      = [ServiceDisconnected manager_path manager_interface 1%nat
                             "/dev/rfcomm0"] ∧
    released_of (drop (length (log ex_scenario)) (log s')) = [0] ∧
    connected_nodes s' = [].
Proof.
  destruct (watches_same_teardown manager_path manager_interface ex_scenario
              1%nat ex_connected_record 1%nat "org.client.Z" "/dev/rfcomm0")
    as (s' & evs & H1 & H2 & H3 & H4 & H5 & H6 & _).
  - decide_wf.
  - apply list_elem_of_here.
  - calc.
  - reflexivity.
  - reflexivity.
  - reflexivity.
  - apply list_elem_of_here.
  - exists s'. split; [exact H1|]. split; [exact H2|].
    rewrite H3, drop_app_length. split; [exact H4|]. split; [exact H5|].
    exact H6.
Defined.

(** ** C8 *)

(** Two nodes inserted under one device name: the name of the second
    node leads to the first one; and in the scenario the name of the
    connected node is found in [bound_nodes], the other list, where the
    claim has not-found. *)
Lemma find_node_by_name_returns_other_node :
  connected_nodes ex_twins = [0%nat; 1%nat] ∧
  device_at ex_twins 1%nat = Some "/dev/rfcomm0" ∧
  find_node_by_name (connected_nodes ex_twins) "/dev/rfcomm0" ex_twins
    = Some (Some 0%nat, ex_twins) ∧
  connected_nodes ex_scenario = [1%nat] ∧
  device_at ex_scenario 1%nat = Some "/dev/rfcomm0" ∧
  find_node_by_name (bound_nodes ex_scenario) "/dev/rfcomm0" ex_scenario
    = Some (Some 0%nat, ex_scenario).
Proof.
  split; [reflexivity|]. split; [calc|]. split; [calc|].
  split; [reflexivity|]. split; calc.
Qed.

Lemma find_node_by_name_unique_witness :
  find_node_by_name (g_slist_append [0%nat] 1%nat) "/dev/rfcomm3" ex_mismatch
    = Some (Some 1%nat, ex_mismatch) ∧
  find_node_by_name [] "/dev/rfcomm3" ex_mismatch = Some (None, ex_mismatch) ∧
  find_node_by_name (g_slist_remove ([0%nat] ++ [1%nat]) 1%nat) "/dev/rfcomm3"
                    ex_mismatch = Some (None, ex_mismatch).
Proof.
  destruct (find_node_by_name_unique ex_mismatch "/dev/rfcomm3" 1%nat
              [0%nat] [] []) as (H1 & _ & H3 & H4).
  - calc.
  - constructor; [|constructor].
    exists "/dev/port3". split; [calc|discriminate].
  - constructor.
  - constructor.
  - split; [exact H1|]. split; [exact H3|exact H4].
Defined.

(** ** C9 *)

(** The port bound as /dev/port3 with id 3 is removed by
    [port_unregister]: the path of id 3 makes the lookup find the other
    port, bound as /dev/rfcomm3, and the object destroyed is the one at
    the path.  The claim has not-found for every path and the node never
    removed. *)
Lemma port_unregister_removes_other_device :
  bound_nodes ex_mismatch = [0%nat; 1%nat] ∧
  device_at ex_mismatch 0%nat = Some "/dev/port3" ∧
  port_unregister manager_path "/org/bluez/serial/rfcomm3" ex_mismatch
    = Some (0, ex_mismatch_unregistered) ∧
  bound_nodes ex_mismatch_unregistered = [1%nat] ∧
  heap ex_mismatch_unregistered !! 0%nat = None.
Proof.
  split; [reflexivity|]. split; [calc|]. split; [calc|].
  split; [reflexivity|calc].
Qed.

Lemma port_unregister_result_witness :
  ∃ r s',
    port_unregister manager_path "/org/bluez/serial/rfcomm3" ex_mismatch
      = Some (r, s') ∧
    (r = 0 ∨ r = - ENOENT) ∧
    (r = 0 ↔
       ∃ dev_id p,
         sscanf_rfcomm manager_path "/org/bluez/serial/rfcomm3" = Some dev_id ∧
         p ∈ bound_nodes ex_mismatch ∧
         device_at ex_mismatch p = Some (rfcomm_dev_name dev_id)) ∧
    (r = - ENOENT → s' = ex_mismatch).
Proof.
  destruct (port_unregister_result manager_path ex_mismatch
              "/org/bluez/serial/rfcomm3")
    as (r & s' & H1 & H2 & H3 & H4 & _).
  - decide_wf.
  - exists r, s'. split; [exact H1|]. split; [exact H2|].
    split; [exact H3|exact H4].
Defined.

(** ** C10 *)

(** Two ports bound as /dev/rfcomm3, the one with id 5 first:
    [port_unregister] on the path of id 3 looks up the first one and
    removes the second one, where the claim has it act on the earliest
    inserted. *)
Lemma port_unregister_removes_later_duplicate :
  bound_nodes ex_duplicates = [0%nat; 1%nat] ∧
  device_at ex_duplicates 0%nat = Some "/dev/rfcomm3" ∧
  device_at ex_duplicates 1%nat = Some "/dev/rfcomm3" ∧
  find_node_by_name (bound_nodes ex_duplicates) "/dev/rfcomm3" ex_duplicates
    = Some (Some 0%nat, ex_duplicates) ∧
  port_unregister manager_path "/org/bluez/serial/rfcomm3" ex_duplicates
    = Some (0, ex_duplicates_unregistered) ∧
  bound_nodes ex_duplicates_unregistered = [0%nat] ∧
  heap ex_duplicates_unregistered !! 1%nat = None.
Proof.
  split; [reflexivity|]. split; [calc|]. split; [calc|]. split; [calc|].
  split; [calc|]. split; [reflexivity|calc].
Qed.

Lemma duplicates_first_inserted_witness :
  find_node_by_name (connected_nodes ex_duplicates) "/dev/rfcomm0"
                    ex_duplicates = Some (Some 2%nat, ex_duplicates) ∧
  port_remove_listener "org.client.Y" "/dev/rfcomm0" ex_duplicates
    = Some (- EPERM, ex_duplicates) ∧
  (∃ s', port_remove_listener "org.client.Z" "/dev/rfcomm0" ex_duplicates
           = Some (0, s') ∧ connected_nodes s' = [3%nat]) ∧
  (∃ s', port_unregister manager_path "/org/bluez/serial/rfcomm3"
                         ex_duplicates = Some (0, s') ∧
         bound_nodes s' = [0%nat]).
Proof.
  destruct (duplicates_first_inserted manager_path max_path_length
              ex_duplicates "/dev/rfcomm0" 2%nat ex_dupZ [] [3%nat])
    as (H1 & H2 & H3 & _ & _ & H6).
  - decide_wf.
  - reflexivity.
  - constructor.
  - calc.
  - calc.
  - split; [exact H1|]. split; [apply H2; discriminate|].
    split.
    + destruct (H3 "org.client.Z" eq_refl) as (s' & Hr & Hc & _).
      exists s'. split; [exact Hr|exact Hc].
    + destruct (H6 "/org/bluez/serial/rfcomm3" 3 [] 0%nat [1%nat] ex_dup5
                   1%nat) as (s' & Hr & Hb).
      * calc.
      * reflexivity.
      * constructor.
      * calc.
      * calc.
      * reflexivity.
      * exists s'. split; [exact Hr|]. rewrite Hb. calc.
Defined.


(** * Further properties *)

(** ** The path written by [port_register] and read by [port_unregister] *)

Lemma is_digit_not_space a : is_digit a = true → isspace a = false.
Proof.
  destruct a as [[] [] [] [] [] [] [] []]; try reflexivity;
    intros H; vm_compute in H; discriminate.
Qed.

Lemma is_digit_not_sign a :
  is_digit a = true → Ascii.eqb a "-" = false ∧ Ascii.eqb a "+" = false.
Proof.
  destruct a as [[] [] [] [] [] [] [] []]; try (split; reflexivity);
    intros H; vm_compute in H; discriminate.
Qed.

Lemma append_empty (t : string) : t +:+ "" = t.
Proof.
  induction t as [|a t IH]; [done|].
  change (String a (t +:+ "") = String a t). by rewrite IH.
Qed.

Lemma append_append (a b c : string) : (a +:+ b) +:+ c = a +:+ b +:+ c.
Proof.
  induction a as [|x a IH]; [done|].
  change (String x ((a +:+ b) +:+ c) = String x (a +:+ b +:+ c)).
  by rewrite IH.
Qed.

Lemma length_append (a b : string) :
  String.length (a +:+ b) = (String.length a + String.length b)%nat.
Proof.
  induction a as [|x a IH]; [done|].
  change (S (String.length (a +:+ b))
          = S (String.length a + String.length b)). by rewrite IH.
Qed.

(** The digits [printf] writes are the ones [scanf] reads. *)
Lemma digit_val_digit_char d : 0 ≤ d ≤ 9 → digit_val (digit_char d) = Some d.
Proof.
  intros Hd.
  assert (d = 0 ∨ d = 1 ∨ d = 2 ∨ d = 3 ∨ d = 4 ∨ d = 5 ∨ d = 6 ∨ d = 7
          ∨ d = 8 ∨ d = 9) as H by lia.
  repeat destruct H as [->|H]; try subst d; reflexivity.
Qed.

Lemma is_digit_digit_char n : is_digit (digit_char (n mod 10)) = true.
Proof.
  unfold is_digit. rewrite digit_val_digit_char; [done|].
  pose proof (Z.mod_pos_bound n 10). lia.
Qed.

Lemma decimal_more f n acc :
  n / 10 ≠ 0 →
  decimal (S f) n acc = decimal f (n / 10) (String (digit_char (n mod 10)) acc).
Proof.
  intros H.
  change (decimal (S f) n acc)
    with (if n / 10 =? 0 then String (digit_char (n mod 10)) acc
          else decimal f (n / 10) (String (digit_char (n mod 10)) acc)).
  by apply Z.eqb_neq in H as ->.
Qed.

Lemma decimal_stop f n acc :
  n / 10 = 0 → decimal (S f) n acc = String (digit_char (n mod 10)) acc.
Proof.
  intros H.
  change (decimal (S f) n acc)
    with (if n / 10 =? 0 then String (digit_char (n mod 10)) acc
          else decimal f (n / 10) (String (digit_char (n mod 10)) acc)).
  by apply Z.eqb_eq in H as ->.
Qed.

Lemma decimal_one n acc :
  decimal 1 n acc = String (digit_char (n mod 10)) acc.
Proof.
  destruct (decide (n / 10 = 0)) as [H|H].
  - by apply decimal_stop.
  - by rewrite decimal_more.
Qed.

Lemma decimal_app f n acc : decimal f n acc = decimal f n "" +:+ acc.
Proof.
  revert n acc. induction f as [|f IH]; intros n acc; [done|].
  destruct (decide (n / 10 = 0)) as [H|H].
  - by rewrite !decimal_stop.
  - rewrite !decimal_more by done.
    rewrite IH, (IH _ (String _ "")), append_append. done.
Qed.

Lemma all_digits_app a b :
  all_digits (a +:+ b) = all_digits a && all_digits b.
Proof.
  induction a as [|x a IH]; [done|].
  change (is_digit x && all_digits (a +:+ b)
          = is_digit x && all_digits a && all_digits b).
  rewrite IH. by destruct (is_digit x).
Qed.

Lemma all_digits_digit_char n :
  all_digits (String (digit_char (n mod 10)) "") = true.
Proof.
  change (is_digit (digit_char (n mod 10)) && true = true).
  by rewrite is_digit_digit_char.
Qed.

Lemma decimal_all_digits f n : all_digits (decimal f n "") = true.
Proof.
  revert n. induction f as [|f IH]; intros n; [done|].
  destruct (decide (n / 10 = 0)) as [H|H].
  - rewrite decimal_stop by done. apply all_digits_digit_char.
  - rewrite decimal_more, decimal_app, all_digits_app, IH by done.
    apply all_digits_digit_char.
Qed.

Lemma decimal_leading_digit f n acc :
  leading_digit (decimal (S f) n acc) = true.
Proof.
  revert n acc. induction f as [|f IH]; intros n acc.
  - rewrite decimal_one. apply is_digit_digit_char.
  - destruct (decide (n / 10 = 0)) as [H|H].
    + rewrite decimal_stop by done. apply is_digit_digit_char.
    + rewrite decimal_more by done. apply IH.
Qed.

Lemma decimal_length f n : (String.length (decimal f n "") ≤ f)%nat.
Proof.
  revert n. induction f as [|f IH]; intros n; [done|].
  destruct (decide (n / 10 = 0)) as [H|H].
  - rewrite decimal_stop by done.
    change (S 0 ≤ S f)%nat. lia.
  - rewrite decimal_more, decimal_app, length_append by done.
    specialize (IH (n / 10)).
    change (String.length (String (digit_char (n mod 10)) "")) with 1%nat.
    lia.
Qed.

Lemma scan_digits_digit_char a n rest :
  scan_digits a (String (digit_char (n mod 10)) rest)
  = scan_digits (10 * a + n mod 10) rest.
Proof.
  pose proof (Z.mod_pos_bound n 10 ltac:(lia)) as Hm.
  change (match digit_val (digit_char (n mod 10)) with
          | Some d => scan_digits (10 * a + d) rest
          | None => a
          end = scan_digits (10 * a + n mod 10) rest).
  by rewrite digit_val_digit_char by lia.
Qed.

(** Reading the digits of [n] after the digits of [a] gives the number
    with the digits of both. *)
Lemma decimal_scan f n :
  0 ≤ n < 10 ^ Z.of_nat f →
  ∃ k, 0 ≤ k ∧ ∀ a rest,
    scan_digits a (decimal f n "" +:+ rest) = scan_digits (a * 10 ^ k + n) rest.
Proof.
  revert n. induction f as [|f IH]; intros n Hn.
  { exists 0. split; [done|]. intros a rest.
    change (scan_digits a rest = scan_digits (a * 1 + n) rest).
    change (10 ^ Z.of_nat 0) with 1 in Hn. f_equal. lia. }
  rewrite Nat2Z.inj_succ, Z.pow_succ_r in Hn by lia.
  pose proof (Z.mod_pos_bound n 10 ltac:(lia)) as Hm.
  pose proof (Z.div_mod n 10 ltac:(lia)) as Hdm.
  destruct (decide (n / 10 = 0)) as [Hq|Hq].
  - exists 1. split; [done|]. intros a rest. rewrite decimal_stop by done.
    change (String (digit_char (n mod 10)) "" +:+ rest)
      with (String (digit_char (n mod 10)) rest).
    rewrite scan_digits_digit_char. f_equal. rewrite Z.pow_1_r. lia.
  - destruct (IH (n / 10)) as (k & Hk0 & Hk).
    { split; [apply Z.div_pos; lia|].
      apply Z.div_lt_upper_bound; lia. }
    exists (Z.succ k). split; [lia|]. intros a rest.
    rewrite decimal_more, decimal_app, append_append by done.
    change (String (digit_char (n mod 10)) "" +:+ rest)
      with (String (digit_char (n mod 10)) rest).
    rewrite Hk, scan_digits_digit_char. f_equal.
    rewrite Z.pow_succ_r by done. lia.
Qed.

Lemma scan_digits_decimal f n :
  0 ≤ n < 10 ^ Z.of_nat f → scan_digits 0 (decimal f n "") = n.
Proof.
  intros Hn. destruct (decimal_scan f n Hn) as (k & _ & Hk).
  rewrite <- (append_empty (decimal f n "")), Hk. done.
Qed.

Lemma scan_hd_number t :
  leading_digit t = true →
  scan_hd t = Some (int16 (clamp_long (scan_digits 0 t))).
Proof.
  destruct t as [|a r]; [done|].
  destruct a as [[] [] [] [] [] [] [] []]; intros H;
    try (vm_compute in H; discriminate); reflexivity.
Qed.

Lemma scan_hd_negative t :
  leading_digit t = true →
  scan_hd (String "-" t) = Some (int16 (clamp_long (- scan_digits 0 t))).
Proof.
  destruct t as [|a r]; [done|].
  destruct a as [[] [] [] [] [] [] [] []]; intros H;
    try (vm_compute in H; discriminate); reflexivity.
Qed.

Lemma int16_small z : -32768 ≤ z < 32768 → int16 z = z.
Proof. intros Hz. unfold int16. rewrite Z.mod_small; lia. Qed.

Lemma clamp_long_small z : -32768 ≤ z ≤ 32768 → clamp_long z = z.
Proof.
  intros Hz. unfold clamp_long.
  change (2 ^ 63) with 9223372036854775808. lia.
Qed.

Lemma decimal_text_decimal f n : decimal_text (decimal (S f) n "") = true.
Proof.
  pose proof (decimal_leading_digit f n "") as Hl.
  pose proof (decimal_all_digits (S f) n) as Ha.
  destruct (decimal (S f) n "") as [|a r]; [done|].
  change (is_digit a = true) in Hl.
  destruct (is_digit_not_sign a Hl) as [Hs _].
  unfold decimal_text. by rewrite Hs.
Qed.

Lemma decimal_text_negative f n :
  decimal_text (String "-" (decimal (S f) n "")) = true.
Proof.
  pose proof (decimal_leading_digit f n "") as Hl.
  pose proof (decimal_all_digits (S f) n) as Ha.
  destruct (decimal (S f) n "") as [|a r]; [done|]. done.
Qed.

(** What [printf] writes for a [short] is a decimal number of at most six
    characters, and [scanf] reads the [short] back from it. *)
Lemma fmt_hd_shape z :
  -32768 ≤ z < 32768 →
  decimal_text (fmt_hd z) = true ∧ scan_hd (fmt_hd z) = Some z
  ∧ (String.length (fmt_hd z) ≤ 6)%nat.
Proof.
  intros Hz. unfold fmt_hd. rewrite int16_small by done.
  assert (10 ^ Z.of_nat 5 = 100000) as Hp by reflexivity.
  destruct (z <? 0) eqn:Hneg.
  - apply Z.ltb_lt in Hneg. split_and!.
    + apply decimal_text_negative.
    + rewrite scan_hd_negative by apply decimal_leading_digit.
      rewrite scan_digits_decimal by lia.
      rewrite clamp_long_small, int16_small by lia. f_equal. lia.
    + pose proof (decimal_length 5 (- z)).
      change (S (String.length (decimal 5 (- z) "")) ≤ 6)%nat. lia.
  - apply Z.ltb_ge in Hneg. split_and!.
    + apply decimal_text_decimal.
    + rewrite scan_hd_number by apply decimal_leading_digit.
      rewrite scan_digits_decimal by lia.
      by rewrite clamp_long_small, int16_small by lia.
    + pose proof (decimal_length 5 z). lia.
Qed.

(** For an id of five digits the 16 bytes of [dev] lose the last digit:
    the name is the one of the id without it. *)
Lemma rfcomm_dev_name_five_digits z :
  10000 ≤ z < 32768 →
  rfcomm_dev_name z = "/dev/rfcomm" +:+ fmt_hd (z / 10)
  ∧ rfcomm_dev_name z ≠ "/dev/rfcomm" +:+ fmt_hd z.
Proof.
  intros Hz.
  assert (fmt_hd z = decimal 5 z "") as Hfull.
  { unfold fmt_hd. rewrite int16_small by lia.
    by destruct (Z.ltb_spec z 0); [lia|]. }
  assert (fmt_hd (z / 10) = decimal 5 (z / 10) "") as Hcut.
  { unfold fmt_hd. rewrite int16_small by (Z.div_mod_to_equations; lia).
    destruct (Z.ltb_spec (z / 10) 0); [|done].
    Z.div_mod_to_equations; lia. }
  unfold rfcomm_dev_name. rewrite Hfull, Hcut.
  rewrite 4!decimal_more, decimal_one by (Z.div_mod_to_equations; lia).
  rewrite 3!decimal_more, decimal_stop by (Z.div_mod_to_equations; lia).
  split; [reflexivity|].
  intros H. apply (f_equal String.length) in H. discriminate H.
Qed.

Lemma scan_digits_app acc t rest :
  all_digits t = true → leading_digit rest = false →
  scan_digits acc (t +:+ rest) = scan_digits acc t.
Proof.
  revert acc. induction t as [|a t IH]; intros acc Ht Hrest.
  - simpl. destruct rest as [|b rest]; [done|]. simpl in *.
    unfold is_digit in Hrest. by destruct (digit_val b).
  - simpl in *. apply andb_true_iff in Ht as [Ha Ht].
    unfold is_digit in Ha. destruct (digit_val a); [|done]. by apply IH.
Qed.

Lemma scan_hd_app t rest :
  decimal_text t = true → leading_digit rest = false →
  scan_hd (t +:+ rest) = scan_hd t.
Proof.
  intros Ht Hrest. destruct t as [|a t]; [done|].
  unfold decimal_text in Ht. destruct (Ascii.eqb a "-") eqn:Ha.
  - apply Ascii.eqb_eq in Ha as ->.
    destruct t as [|b t]; [done|]. apply andb_true_iff in Ht as [Hb Ht].
    unfold scan_hd. simpl. unfold is_digit in Hb.
    destruct (digit_val b); [|done]. by rewrite scan_digits_app.
  - apply andb_true_iff in Ht as [Hd Ht]. clear Ha.
    destruct a as [[] [] [] [] [] [] [] []];
      try (vm_compute in Hd; discriminate);
      unfold scan_hd; simpl; by rewrite scan_digits_app.
Qed.

Lemma scan_literal_app a b c :
  scan_literal (a +:+ b) (a +:+ c) = scan_literal b c.
Proof.
  induction a as [|x a IH]; [done|]. simpl. by rewrite Ascii.eqb_refl.
Qed.

Lemma take_string_all n t :
  (String.length t ≤ n)%nat → take_string n t = t.
Proof.
  revert n. induction t as [|a t IH]; intros n Hn; [by destruct n|].
  destruct n as [|n]; simpl in *; [lia|]. rewrite IH; [done|lia].
Qed.

Lemma scan_hd_fmt_hd z rest :
  -32768 ≤ z < 32768 → leading_digit rest = false →
  scan_hd (fmt_hd z +:+ rest) = Some z.
Proof.
  intros Hz Hrest. destruct (fmt_hd_shape z Hz) as (Hdec & Hscan & _).
  by rewrite scan_hd_app.
Qed.

Section PathProperties.

Variable SERIAL_MANAGER_PATH : string.
Variable MAX_PATH_LENGTH : nat.

Lemma sscanf_rfcomm_printed z rest :
  -32768 ≤ z < 32768 → leading_digit rest = false →
  sscanf_rfcomm SERIAL_MANAGER_PATH
    (SERIAL_MANAGER_PATH +:+ "/rfcomm" +:+ fmt_hd z +:+ rest) = Some z.
Proof.
  intros Hz Hrest. unfold sscanf_rfcomm.
  rewrite scan_literal_app. simpl. by apply scan_hd_fmt_hd.
Qed.

Lemma port_path_whole z :
  -32768 ≤ z < 32768 →
  (String.length SERIAL_MANAGER_PATH + 13 < MAX_PATH_LENGTH)%nat →
  port_path SERIAL_MANAGER_PATH MAX_PATH_LENGTH z
  = SERIAL_MANAGER_PATH +:+ "/rfcomm" +:+ fmt_hd z.
Proof.
  intros Hz Hlen. unfold port_path, snprintf. apply take_string_all.
  destruct (fmt_hd_shape z Hz) as (_ & _ & Hl).
  rewrite !length_append. simpl. lia.
Qed.

Lemma sscanf_rfcomm_port_path z :
  -32768 ≤ z < 32768 →
  (String.length SERIAL_MANAGER_PATH + 13 < MAX_PATH_LENGTH)%nat →
  sscanf_rfcomm SERIAL_MANAGER_PATH
    (port_path SERIAL_MANAGER_PATH MAX_PATH_LENGTH z) = Some z.
Proof.
  intros Hz Hlen. rewrite port_path_whole by done.
  rewrite <- (append_empty (fmt_hd z)). by apply sscanf_rfcomm_printed.
Qed.

(** X6: the id [port_unregister] reads from a path is the id
    [port_register] wrote into it, for every [int16_t] id, when the path
    fits its buffer; and whatever follows the digits in the path is not
    looked at, as long as it does not start with a digit. *)
Theorem port_path_read_back z rest :
  -32768 ≤ z < 32768 →
  (String.length SERIAL_MANAGER_PATH + 13 < MAX_PATH_LENGTH)%nat →
  leading_digit rest = false →
  sscanf_rfcomm SERIAL_MANAGER_PATH
    (port_path SERIAL_MANAGER_PATH MAX_PATH_LENGTH z) = Some z ∧
  sscanf_rfcomm SERIAL_MANAGER_PATH
    (port_path SERIAL_MANAGER_PATH MAX_PATH_LENGTH z +:+ rest) = Some z.
Proof.
  intros Hz Hlen Hrest. split; [by apply sscanf_rfcomm_port_path|].
  rewrite port_path_whole by done.
  rewrite !append_append. by apply sscanf_rfcomm_printed.
Qed.

End PathProperties.

(** ** Lookup, and what the two lists give back *)

(** X1: whenever [find_node_by_name] returns, it has changed nothing;
    the node it returns is in the list, carries the name asked for, and
    no node before it in the list does; and it returns NULL only when no
    node of the list carries the name. *)
Theorem find_node_by_name_sound s d l r s' :
  find_node_by_name l d s = Some (r, s') →
  s' = s ∧
  match r with
  | Some p =>
      p ∈ l ∧ device_at s p = Some d ∧
      ∃ l1 l2, l = l1 ++ p :: l2 ∧ no_device s d l1
  | None => ∀ q, q ∈ l → ∃ d', device_at s q = Some d' ∧ d' ≠ d
  end.
Proof.
  intros Hf. apply find_node_by_name_inv in Hf as [-> Hr]. split; [done|].
  destruct r as [p|].
  - destruct Hr as (l1 & l2 & -> & Hno & Hp).
    split; [apply elem_of_app; right; left|]. split; [done|].
    by exists l1, l2.
  - intros q Hq. by apply (proj1 (Forall_forall _ _) Hr).
Qed.

Lemma remove_listener_last (l : list listener) e :
  e ∉ l → remove_listener e (l ++ [e]) = l.
Proof.
  induction l as [|x l IH]; intros He; simpl.
  - by destruct (decide (e = e)).
  - apply not_elem_of_cons in He as [Hne He].
    destruct (decide (x = e)); [congruence|]. by rewrite IH.
Qed.

Lemma no_device_insert_fresh s s' d (l : list ptr) :
  (∀ q, q ∈ l → heap s' !! q = heap s !! q) →
  no_device s d l → no_device s' d l.
Proof.
  intros Hsame Hno. apply Forall_forall. intros q Hq.
  destruct (proj1 (Forall_forall _ _) Hno q Hq) as (d' & Hd' & Hne).
  exists d'. split; [|done]. unfold device_at in *. by rewrite Hsame.
Qed.

Section RoundTrips.

Variable SERIAL_MANAGER_PATH : string.
Variable SERIAL_MANAGER_INTERFACE : string.
Variable MAX_PATH_LENGTH : nat.

(** X4: a connect followed by the disconnect of its owner, for a device
    name no connected node has, succeeds and gives the registry back as
    it was: both lists, the records, the name listeners, the sources and
    the published objects are those from before the connect; the log has
    gained the reference taken and dropped, the channel closed and the
    device id released once. *)
Theorem connect_disconnect_round_trip s c dev_id dst_addr fd dev own :
  wf s → no_device s dev (connected_nodes s) →
  (_ ← port_add_listener true c dev_id dst_addr fd dev own;
   port_remove_listener own dev) s
  = Some (0, State (heap s) (S (next_node s)) (connected_nodes s)
                   (bound_nodes s) (listeners s) (sources s)
                   (S (next_source s)) (objects s)
                   (log s ++ [EvConnRef c; EvConnUnref c; EvIoClose fd;
                              EvIoUnref fd; EvRelease dev_id])).
Proof.
  intros Hwf Hno.
  pose proof Hwf as (Hndc & Hndb & Hco & Hbo & Hndl & Hlo & Hso & Hsi & Hob
                       & Hinj & Hh).
  pose proof (wf_fresh_node s Hwf) as Hfresh.
  assert (∀ q, q ∈ connected_nodes s → q ≠ next_node s) as Hcne.
  { intros q Hq ->.
    destruct (wf_connected_node s _ Hwf Hq) as (n & _ & _ & _ & _ & Hn & _).
    congruence. }
  unfold mbind at 1, M_bind at 1. rewrite port_add_listener_run.
  set (n := Node dev_id 0 dst_addr None (Some dev) (Some c) (Some own)
                 (Some fd) (next_source s)).
  erewrite (port_remove_listener_run _ own dev (next_node s) n c).
  - simpl. f_equal. f_equal.
    rewrite delete_insert_id by done.
    rewrite g_slist_remove_middle, app_nil_r
      by (intros Hin; by apply (Hcne _ Hin)).
    rewrite remove_listener_last.
    2:{ intros Hin. apply (proj1 (Forall_forall _ _) Hlo) in Hin as [Hin _].
        by apply (Hcne _ Hin). }
    rewrite delete_insert_id.
    2:{ destruct (sources s !! next_source s) eqn:E; [|done].
        apply (map_Forall_lookup_1 _ _ _ _ Hsi) in E. lia. }
    by rewrite <- app_assoc.
  - exists (connected_nodes s), []. simpl. split; [done|]. split.
    + eapply no_device_insert_fresh; [|exact Hno]. intros q Hq. simpl.
      apply lookup_insert_ne. symmetry. by apply Hcne.
    + unfold device_at. simpl. by rewrite lookup_insert_eq.
  - simpl. apply lookup_insert_eq.
  - done.
  - done.
Qed.

(** X5: a port registered under the name [port_unregister] rebuilds from
    its id, and then unregistered by the path [port_register] gave it, is
    gone again: the call succeeds and both lists, the records and the
    published objects are those from before the registration; the device
    id has been released once. *)
Theorem register_unregister_round_trip s c dev_id src_addr dst_addr want svc :
  wf s → -32768 ≤ dev_id < 32768 →
  (String.length SERIAL_MANAGER_PATH + 13 < MAX_PATH_LENGTH)%nat →
  no_device s (rfcomm_dev_name dev_id) (bound_nodes s) →
  objects s !! (c, port_path SERIAL_MANAGER_PATH MAX_PATH_LENGTH dev_id)
    = None →
  (_ ← port_register SERIAL_MANAGER_PATH MAX_PATH_LENGTH true true c dev_id
                     src_addr dst_addr (rfcomm_dev_name dev_id) want svc;
   port_unregister SERIAL_MANAGER_PATH
                   (port_path SERIAL_MANAGER_PATH MAX_PATH_LENGTH dev_id)) s
  = Some (0, State (heap s) (S (next_node s)) (connected_nodes s)
                   (bound_nodes s) (listeners s) (sources s) (next_source s)
                   (objects s)
                   (log s ++ [EvConnRef c; EvConnUnref c;
                              EvRelease dev_id])).
Proof.
  intros Hwf Hid Hlen Hno Hfree.
  pose proof (wf_fresh_node s Hwf) as Hfresh.
  assert (∀ q, q ∈ bound_nodes s → q ≠ next_node s) as Hbne.
  { intros q Hq ->.
    destruct (wf_bound_node s _ Hwf Hq) as (n & _ & _ & Hn & _).
    congruence. }
  destruct (wf_port_register SERIAL_MANAGER_PATH MAX_PATH_LENGTH true true s c
              dev_id src_addr dst_addr (rfcomm_dev_name dev_id) want svc Hwf)
    as (r1 & s1 & Hrun1 & Hwf1).
  unfold mbind at 1, M_bind at 1. rewrite Hrun1.
  rewrite port_register_success_run in Hrun1 by done.
  injection Hrun1 as <- <-.
  set (bn := bound_node c dev_id src_addr dst_addr (rfcomm_dev_name dev_id)
                        svc) in *.
  erewrite (port_unregister_found SERIAL_MANAGER_PATH _ _ dev_id
              (next_node s) bn c Hwf1).
  - unfold unpublished. simpl. rewrite !lookup_insert_eq.
    unfold freed. simpl. f_equal. f_equal.
    rewrite !delete_insert_id by done.
    rewrite g_slist_remove_middle, app_nil_r
      by (intros Hin; by apply (Hbne _ Hin)).
    by rewrite <- app_assoc.
  - by apply sscanf_rfcomm_port_path.
  - exists (bound_nodes s), []. simpl. split; [done|]. split.
    + eapply no_device_insert_fresh; [|exact Hno]. intros q Hq. simpl.
      apply lookup_insert_ne. symmetry. by apply Hbne.
    + unfold device_at. simpl. by rewrite lookup_insert_eq.
  - simpl. apply lookup_insert_eq.
  - done.
Qed.

(** X7: for an id of five digits [port_unregister] looks for the name of
    the id without its last digit, because the 16 bytes of [dev] hold 15
    characters: the call succeeds exactly when a bound node carries that
    shorter name, and a port bound under the full name of the id is not
    what it looks for. *)
Theorem port_unregister_five_digits s path z :
  wf s → 10000 ≤ z < 32768 →
  sscanf_rfcomm SERIAL_MANAGER_PATH path = Some z →
  rfcomm_dev_name z = "/dev/rfcomm" +:+ fmt_hd (z / 10) ∧
  rfcomm_dev_name z ≠ "/dev/rfcomm" +:+ fmt_hd z ∧
  ∃ r s',
    port_unregister SERIAL_MANAGER_PATH path s = Some (r, s') ∧
    (r = 0 ↔ ∃ p, p ∈ bound_nodes s ∧
                  device_at s p = Some ("/dev/rfcomm" +:+ fmt_hd (z / 10))) ∧
    (r ≠ 0 → r = - ENOENT ∧ s' = s).
Proof.
  intros Hwf Hz Hs.
  destruct (rfcomm_dev_name_five_digits z Hz) as [Hc1 Hc2].
  split; [done|]. split; [done|]. rewrite <- Hc1.
  destruct (find_node_by_name_total s (rfcomm_dev_name z) (bound_nodes s)
              (wf_bound_named s Hwf))
    as [[Hno _]|(l1 & p & l2 & Hl & Hno & Hd & _)].
  - exists (- ENOENT), s.
    split; [by apply (port_unregister_absent _ s path z)|]. split; [|done].
    split; [discriminate|]. intros (p & Hp & Hd).
    by destruct (no_device_notin s _ _ p Hno Hd).
  - assert (first_with_device s (bound_nodes s) (rfcomm_dev_name z) p)
      as Hf by by exists l1, l2.
    destruct (wf_bound_node s p Hwf (first_with_device_elem _ _ _ _ Hf))
      as (n & _ & c & Hn & _ & Hc & _).
    exists 0, (unpublished c path s).
    split; [by apply (port_unregister_found _ s path z p n c)|].
    split; [|done]. split; [|done]. intros _. exists p.
    split; [by eapply first_with_device_elem|done].
Qed.

End RoundTrips.

(** ** What the calls of the manager never do *)

Lemma rfcomm_node_free_inv p s u s' :
  rfcomm_node_free p s = Some (u, s') →
  ∃ n, heap s !! p = Some n ∧ s' = freed p n s.
Proof.
  intros Hrun. destruct (heap s !! p) as [n|] eqn:Hp.
  - rewrite (rfcomm_node_free_run s p n Hp) in Hrun. injection Hrun as _ <-.
    by exists n.
  - by rewrite (rfcomm_node_free_dangling s p Hp) in Hrun.
Qed.

Lemma quiet_refl s : quiet s s.
Proof. exists []. by rewrite app_nil_r. Qed.

Lemma quiet_trans s1 s2 s3 : quiet s1 s2 → quiet s2 s3 → quiet s1 s3.
Proof.
  intros (e1 & H1 & Hs1) (e2 & H2 & Hs2). exists (e1 ++ e2).
  split; [by rewrite H2, H1, app_assoc|].
  by rewrite signals_of_app, Hs1, Hs2.
Qed.

Lemma quiet_same_log s s' : log s' = log s → quiet s s'.
Proof. intros H. exists []. by rewrite app_nil_r. Qed.

Lemma quiet_freed p n s : quiet s (freed p n s).
Proof. exists (free_events n). split; [done|apply signals_of_free_events]. Qed.

Lemma rfcomm_node_free_quiet p s u s' :
  rfcomm_node_free p s = Some (u, s') → quiet s s'.
Proof.
  intros (n & _ & ->)%rfcomm_node_free_inv. apply quiet_freed.
Qed.

Lemma port_remove_listener_quiet own dev s r s' :
  port_remove_listener own dev s = Some (r, s') → quiet s s'.
Proof.
  unfold port_remove_listener. run.
  destruct (find_node_by_name (connected_nodes s) dev s) as [[a s1]|] eqn:F;
    [|done].
  apply find_node_by_name_inv in F as [-> _].
  destruct a as [p|]; [|intros [= _ <-]; apply quiet_refl].
  destruct (heap s !! p) as [n|]; [|done].
  destruct (owner n) as [o|]; simpl; [|done].
  destruct (streq o own); simpl; [|intros [= _ <-]; apply quiet_refl].
  destruct (conn n) as [c|]; simpl; [|done].
  match goal with
  | |- match rfcomm_node_free ?p ?s0 with _ => _ end = _ → _ =>
      destruct (rfcomm_node_free p s0) as [[u s2]|] eqn:Hfree; [|done];
      intros [= _ <-]; apply rfcomm_node_free_quiet in Hfree
  end.
  eapply quiet_trans; [|exact Hfree]. by apply quiet_same_log.
Qed.

Lemma port_handler_unregister_quiet c p s u s' :
  port_handler_unregister c p s = Some (u, s') → quiet s s'.
Proof.
  unfold port_handler_unregister. run.
  destruct (heap s !! p) as [n|]; [|done]. simpl.
  intros Hfree. apply rfcomm_node_free_quiet in Hfree.
  eapply quiet_trans; [|exact Hfree]. by apply quiet_same_log.
Qed.

Lemma dbus_connection_destroy_object_path_quiet c path s b s' :
  dbus_connection_destroy_object_path c path s = Some (b, s') → quiet s s'.
Proof.
  unfold dbus_connection_destroy_object_path. run.
  destruct (objects s !! (c, path)) as [q|]; [|intros [= _ <-]; apply quiet_refl].
  match goal with
  | |- match port_handler_unregister ?c ?p ?s0 with _ => _ end = _ → _ =>
      destruct (port_handler_unregister c p s0) as [[u1 s1]|] eqn:Hun; [|done];
      apply port_handler_unregister_quiet in Hun
  end.
  intros [= _ <-]. eapply quiet_trans; [|exact Hun]. by apply quiet_same_log.
Qed.

Section Quiet.

Variable SERIAL_MANAGER_PATH : string.
Variable MAX_PATH_LENGTH : nat.

Lemma port_unregister_quiet path s r s' :
  port_unregister SERIAL_MANAGER_PATH path s = Some (r, s') → quiet s s'.
Proof.
  unfold port_unregister.
  destruct (sscanf_rfcomm SERIAL_MANAGER_PATH path) as [dev_id|];
    [|intros [= _ <-]; apply quiet_refl].
  run.
  destruct (find_node_by_name (bound_nodes s) (rfcomm_dev_name dev_id) s)
    as [[a s1]|] eqn:F; [|done].
  apply find_node_by_name_inv in F as [-> _].
  destruct a as [p|]; [|intros [= _ <-]; apply quiet_refl].
  destruct (heap s !! p) as [n|]; [|done].
  destruct (conn n) as [c|]; simpl; [|done].
  destruct (dbus_connection_destroy_object_path c path s) as [[b s2]|] eqn:Hd;
    [|done].
  intros [= _ <-]. by apply dbus_connection_destroy_object_path_quiet in Hd.
Qed.

Lemma port_register_quiet create_ok register_ok c dev_id src_addr dst_addr dev
    want svc s r s' :
  port_register SERIAL_MANAGER_PATH MAX_PATH_LENGTH create_ok register_ok c
                dev_id src_addr dst_addr dev want svc s = Some (r, s') →
  quiet s s'.
Proof.
  unfold port_register, g_new0, dbus_connection_create_object_path,
    dbus_connection_register_interface.
  run. stores.
  set (path := port_path SERIAL_MANAGER_PATH MAX_PATH_LENGTH dev_id).
  set (s0 := State _ _ _ _ _ _ _ _ (log s ++ [EvConnRef c])).
  assert (quiet s s0) as H0 by (by exists [EvConnRef c]).
  assert (∀ s1, log s1 = log s0 → quiet s s1) as Hsame.
  { intros s1 Hl. eapply quiet_trans; [exact H0|by apply quiet_same_log]. }
  destruct (objects s !! (c, path)) as [q|] eqn:Ho; simpl.
  - destruct (rfcomm_node_free (next_node s) s0) as [[u s1]|] eqn:Hfree;
      [|done].
    intros [= _ <-]. apply rfcomm_node_free_quiet in Hfree.
    by eapply quiet_trans.
  - destruct create_ok; simpl.
    + destruct register_ok; simpl.
      * intros [= _ <-]. by apply Hsame.
      * match goal with
        | |- match dbus_connection_destroy_object_path ?c ?p ?s1 with
             | _ => _ end = _ → _ =>
            destruct (dbus_connection_destroy_object_path c p s1)
              as [[b s2]|] eqn:Hd; [|done];
            apply dbus_connection_destroy_object_path_quiet in Hd
        end.
        intros [= _ <-]. eapply quiet_trans; [|exact Hd]. by apply Hsame.
    + destruct (rfcomm_node_free (next_node s) s0) as [[u s1]|] eqn:Hfree;
        [|done].
      intros [= _ <-]. apply rfcomm_node_free_quiet in Hfree.
      by eapply quiet_trans.
Qed.

(** X8: none of the five functions the manager calls emits a signal:
    whatever state [port_add_listener], [port_remove_listener],
    [port_release_all], [port_register] or [port_unregister] is called
    in, and whatever it returns, the signals in the log after the call
    are those from before it.  ServiceDisconnected is emitted by the two
    watch callbacks only. *)
Theorem calls_emit_no_signal s s' :
  call SERIAL_MANAGER_PATH MAX_PATH_LENGTH s s' →
  signals_of (log s') = signals_of (log s).
Proof.
  intros Hcall.
  assert (quiet s s') as (evs & Hlog & Hsig).
  { destruct Hcall as
      [ok c dev_id dst_addr fd dev own r s s' Hrun
      |own dev r s s' Hrun
      |s s' Hrun
      |create_ok register_ok c dev_id src_addr dst_addr dev want svc r s s' Hrun
      |path r s s' Hrun].
    - rewrite port_add_listener_run in Hrun. injection Hrun as _ <-.
      by exists [EvConnRef c].
    - by apply port_remove_listener_quiet in Hrun.
    - apply port_release_all_inv in Hrun as [_ ->]. apply quiet_refl.
    - by apply port_register_quiet in Hrun.
    - by apply port_unregister_quiet in Hrun. }
  by rewrite Hlog, signals_of_app, Hsig, app_nil_r.
Qed.

End Quiet.

(** ** The records are accounted for *)

Lemma size_delete_live {A} (m : gmap nat A) p x :
  m !! p = Some x → size m = S (size (delete p m)).
Proof.
  intros Hp. rewrite <- (insert_id m p x Hp) at 1.
  rewrite <- insert_delete_eq.
  apply map_size_insert_None, lookup_delete_eq.
Qed.

Lemma accounted_torn_down s p n ls srcs evs :
  wf s → accounted s → p ∈ connected_nodes s → heap s !! p = Some n →
  length (released_of evs) = 1%nat →
  accounted (State (delete p (heap s)) (next_node s)
                   (g_slist_remove (connected_nodes s) p) (bound_nodes s)
                   ls srcs (next_source s) (objects s) (log s ++ evs)).
Proof.
  intros Hwf [Hcount Hlisted] Hin Hp Hevs. split; simpl.
  - rewrite released_of_app, length_app, Hevs.
    rewrite (size_delete_live (heap s) p n Hp) in Hcount. lia.
  - intros q nq Hq. apply lookup_delete_Some in Hq as [Hne Hq]. simpl.
    destruct (Hlisted q nq Hq) as [Hc|Hb]; [left|by right].
    by apply elem_of_g_slist_remove_ne.
Qed.

Lemma accounted_port_add_listener ok s c dev_id dst_addr fd dev own :
  wf s → accounted s →
  ∃ r s', port_add_listener ok c dev_id dst_addr fd dev own s = Some (r, s') ∧
          accounted s'.
Proof.
  intros Hwf [Hcount Hlisted]. eexists _, _.
  split; [apply port_add_listener_run|]. split; simpl.
  - rewrite released_of_app, length_app. simpl.
    rewrite map_size_insert_None by by apply wf_fresh_node. lia.
  - apply map_Forall_insert_2.
    + left. apply elem_of_app. right. apply list_elem_of_here.
    + intros q nq Hq. destruct (Hlisted q nq Hq) as [Hc|Hb]; [left|by right].
      apply elem_of_app. by left.
Qed.

Section Accounting.

Variable SERIAL_MANAGER_PATH : string.
Variable SERIAL_MANAGER_INTERFACE : string.
Variable MAX_PATH_LENGTH : nat.

Lemma accounted_port_register create_ok register_ok s c dev_id src_addr
    dst_addr dev want svc :
  wf s → accounted s →
  ∃ r s',
    port_register SERIAL_MANAGER_PATH MAX_PATH_LENGTH create_ok register_ok c
                  dev_id src_addr dst_addr dev want svc s = Some (r, s') ∧
    accounted s'.
Proof.
  intros Hwf [Hcount Hlisted].
  destruct (decide (create_ok && register_ok = true ∧
                    objects s !! (c, port_path SERIAL_MANAGER_PATH
                                               MAX_PATH_LENGTH dev_id) = None))
    as [[Hok Hfree]|Hfail].
  - apply andb_true_iff in Hok as [-> ->]. eexists _, _.
    split; [by apply port_register_success_run|]. split; simpl.
    + rewrite released_of_app, length_app. simpl.
      rewrite map_size_insert_None by by apply wf_fresh_node. lia.
    + apply map_Forall_insert_2.
      * right. apply elem_of_app. right. apply list_elem_of_here.
      * intros q nq Hq. destruct (Hlisted q nq Hq) as [Hc|Hb]; [by left|right].
        apply elem_of_app. by left.
  - eexists _, _. split.
    { apply port_register_failure_run; [done|].
      destruct (objects s !! _) eqn:Hobj; [right; by eexists|left].
      destruct (create_ok && register_ok) eqn:E; [|done].
      by destruct Hfail. }
    split; simpl; [|done]. rewrite released_of_app, length_app. simpl. lia.
Qed.

Lemma accounted_port_remove_listener s own dev :
  wf s → accounted s →
  ∃ r s', port_remove_listener own dev s = Some (r, s') ∧ accounted s'.
Proof.
  intros Hwf Hacc.
  destruct (find_node_by_name_total s dev (connected_nodes s)
              (wf_connected_named s Hwf))
    as [[Hno _]|(l1 & p & l2 & Hl & Hno & Hd & _)].
  - exists (- ENOENT), s. split; [by apply port_remove_listener_absent|done].
  - assert (first_with_device s (connected_nodes s) dev p) as Hf
      by by exists l1, l2.
    pose proof (first_with_device_elem _ _ _ _ Hf) as Hin.
    destruct (wf_connected_node s p Hwf Hin)
      as (n & _ & c & o & ch & Hn & _ & Hc & Ho & Hio & _).
    destruct (decide (o = own)) as [->|Hne].
    + eexists _, _.
      split; [by apply (port_remove_listener_run s own dev p n c)|].
      apply (accounted_torn_down s p n); try done.
      by rewrite released_of_free_events.
    + exists (- EPERM), s.
      split; [by apply (port_remove_listener_forbidden s own dev p n o)|done].
Qed.

Lemma accounted_fire_io_watch s i :
  wf s → accounted s →
  ∃ s', fire_io_watch SERIAL_MANAGER_PATH SERIAL_MANAGER_INTERFACE i s
        = Some (tt, s') ∧ accounted s'.
Proof.
  intros Hwf Hacc. destruct (sources s !! i) as [p|] eqn:Hi.
  - pose proof Hwf as (_ & _ & _ & _ & _ & _ & Hso & _).
    pose proof (Hso i p Hi) as [Hin _]. simpl in Hin.
    destruct (wf_connected_node s p Hwf Hin)
      as (n & d & c & o & ch & Hn & Hd & Hc & Ho & Hio & Hsrc).
    assert (i = io_id n) as -> by by apply (wf_sources_of s p n i).
    eexists.
    split; [by apply (fire_io_watch_run _ _ s p n c o d ch)|].
    apply (accounted_torn_down s p n); try done.
    simpl. by rewrite released_of_free_events.
  - exists s. split; [|done]. unfold fire_io_watch. run. by rewrite Hi.
Qed.

Lemma accounted_fire_name_listener s e :
  wf s → accounted s →
  ∃ s', fire_name_listener SERIAL_MANAGER_PATH SERIAL_MANAGER_INTERFACE e s
        = Some (tt, s') ∧ accounted s'.
Proof.
  intros Hwf Hacc. destruct (decide (e ∈ listeners s)) as [He|He].
  - pose proof Hwf as (_ & _ & _ & _ & _ & Hlo & _).
    pose proof (proj1 (Forall_forall _ _) Hlo e He) as [Hin Hn].
    destruct e as [[c o] p]. simpl in *.
    destruct (wf_connected_node s p Hwf Hin)
      as (n & d & c' & o' & ch & Hp & Hd & Hc & Ho & Hio & _).
    rewrite Hp in Hn. destruct Hn as [Hc' Ho'].
    eexists.
    split; [by apply (fire_name_listener_run _ _ s p n c o d)|].
    apply (accounted_torn_down s p n); try done.
    simpl. by rewrite released_of_free_events.
  - exists s. split; [|done]. unfold fire_name_listener, mbind, M_bind, get.
    by case_decide.
Qed.

Lemma accounted_unpublished s c path :
  wf s → accounted s → accounted (unpublished c path s).
Proof.
  intros Hwf [Hcount Hlisted]. unfold unpublished.
  destruct (objects s !! (c, path)) as [q|] eqn:Hk; [|done].
  destruct (heap s !! q) as [nq|] eqn:Hq; [|done].
  assert (q ∉ connected_nodes s) as Hqc.
  { intros Hin. apply (wf_connected_not_bound s q Hwf Hin).
    destruct Hwf as (_ & _ & _ & _ & _ & _ & _ & _ & Hob & _).
    apply (Hob _ _ Hk). }
  split; simpl.
  - rewrite released_of_app, length_app, released_of_free_events. simpl.
    rewrite (size_delete_live (heap s) q nq Hq) in Hcount. lia.
  - intros x nx Hx. apply lookup_delete_Some in Hx as [Hne Hx]. simpl.
    destruct (Hlisted x nx Hx) as [Hc|Hb]; [by left|right].
    by apply elem_of_g_slist_remove_ne.
Qed.

Lemma accounted_port_unregister s path :
  wf s → accounted s →
  ∃ r s', port_unregister SERIAL_MANAGER_PATH path s = Some (r, s') ∧
          accounted s'.
Proof.
  intros Hwf Hacc.
  destruct (sscanf_rfcomm SERIAL_MANAGER_PATH path) as [dev_id|] eqn:Hs.
  - destruct (find_node_by_name_total s (rfcomm_dev_name dev_id)
                (bound_nodes s) (wf_bound_named s Hwf))
      as [[Hno _]|(l1 & p & l2 & Hl & Hno & Hd & _)].
    + exists (- ENOENT), s.
      split; [by apply (port_unregister_absent _ s path dev_id)|done].
    + assert (first_with_device s (bound_nodes s) (rfcomm_dev_name dev_id) p)
        as Hf by by exists l1, l2.
      destruct (wf_bound_node s p Hwf (first_with_device_elem _ _ _ _ Hf))
        as (n & _ & c & Hn & _ & Hc & _).
      exists 0, (unpublished c path s).
      split; [by apply (port_unregister_found _ s path dev_id p n c)|].
      by apply accounted_unpublished.
  - exists (- ENOENT), s. split; [by apply port_unregister_unparsed|done].
Qed.

Lemma step_accounted s s' :
  wf s → accounted s →
  step SERIAL_MANAGER_PATH SERIAL_MANAGER_INTERFACE MAX_PATH_LENGTH s s' →
  accounted s'.
Proof.
  intros Hwf Hacc Hstep. destruct Hstep as
    [ok c dev_id dst_addr fd dev own r s s' Hrun
    |own dev r s s' Hrun
    |create_ok register_ok c dev_id src_addr dst_addr dev want svc r s s' Hrun
    |path r s s' Hrun
    |i s s' Hrun
    |e s s' Hrun
    |s s' Hrun].
  - destruct (accounted_port_add_listener ok s c dev_id dst_addr fd dev own
                Hwf Hacc) as (r0 & s0 & Hrun0 & H0). congruence.
  - destruct (accounted_port_remove_listener s own dev Hwf Hacc)
      as (r0 & s0 & Hrun0 & H0). congruence.
  - destruct (accounted_port_register create_ok register_ok s c dev_id
                src_addr dst_addr dev want svc Hwf Hacc)
      as (r0 & s0 & Hrun0 & H0). congruence.
  - destruct (accounted_port_unregister s path Hwf Hacc)
      as (r0 & s0 & Hrun0 & H0). congruence.
  - destruct (accounted_fire_io_watch s i Hwf Hacc) as (s0 & Hrun0 & H0).
    congruence.
  - destruct (accounted_fire_name_listener s e Hwf Hacc)
      as (s0 & Hrun0 & H0). congruence.
  - by apply port_release_all_inv in Hrun as [_ ->].
Qed.

(** X2: every state the registry reaches from the empty one, by the
    calls of the manager and the watches firing, is well formed, and in
    such a state every call but [port_release_all] is defined: none of
    these functions reads a freed record or a NULL pointer, or frees a
    record twice.  [port_release_all] is defined in such a state exactly
    when no session is connected. *)
Theorem reachable_calls_defined s :
  reachable SERIAL_MANAGER_PATH SERIAL_MANAGER_INTERFACE MAX_PATH_LENGTH s →
  wf s ∧
  (∀ ok c dev_id dst_addr fd dev own,
     is_Some (port_add_listener ok c dev_id dst_addr fd dev own s)) ∧
  (∀ own dev, is_Some (port_remove_listener own dev s)) ∧
  (∀ create_ok register_ok c dev_id src_addr dst_addr dev want svc,
     is_Some (port_register SERIAL_MANAGER_PATH MAX_PATH_LENGTH create_ok
                            register_ok c dev_id src_addr dst_addr dev want
                            svc s)) ∧
  (∀ path, is_Some (port_unregister SERIAL_MANAGER_PATH path s)) ∧
  (is_Some (port_release_all s) ↔ connected_nodes s = []) ∧
  (∀ i, is_Some (fire_io_watch SERIAL_MANAGER_PATH SERIAL_MANAGER_INTERFACE
                               i s)) ∧
  (∀ e, is_Some (fire_name_listener SERIAL_MANAGER_PATH
                                    SERIAL_MANAGER_INTERFACE e s)).
Proof.
  intros Hreach.
  pose proof (reachable_wf SERIAL_MANAGER_PATH SERIAL_MANAGER_INTERFACE
                MAX_PATH_LENGTH s Hreach) as Hwf.
  split; [done|]. split.
  { intros ok c dev_id dst_addr fd dev own.
    destruct (wf_port_add_listener ok s c dev_id dst_addr fd dev own Hwf)
      as (r & s' & Hrun & _). by rewrite Hrun. }
  split.
  { intros own dev.
    destruct (wf_port_remove_listener s own dev Hwf) as (r & s' & Hrun & _).
    by rewrite Hrun. }
  split.
  { intros create_ok register_ok c dev_id src_addr dst_addr dev want svc.
    destruct (wf_port_register SERIAL_MANAGER_PATH MAX_PATH_LENGTH create_ok
                register_ok s c dev_id src_addr dst_addr dev want svc Hwf)
      as (r & s' & Hrun & _). by rewrite Hrun. }
  split.
  { intros path.
    destruct (wf_port_unregister SERIAL_MANAGER_PATH s path Hwf)
      as (r & s' & Hrun & _). by rewrite Hrun. }
  split.
  { split.
    - intros [[u s'] Hrun]. by apply port_release_all_inv in Hrun as [? _].
    - intros Hnil. unfold port_release_all, mbind, M_bind, get.
      by rewrite Hnil. }
  split.
  { intros i.
    destruct (wf_fire_io_watch SERIAL_MANAGER_PATH SERIAL_MANAGER_INTERFACE
                s i Hwf) as (s' & Hrun & _). by rewrite Hrun. }
  intros e.
  destruct (wf_fire_name_listener SERIAL_MANAGER_PATH SERIAL_MANAGER_INTERFACE
              s e Hwf) as (s' & Hrun & _). by rewrite Hrun.
Qed.

(** X3: in every state the registry reaches from the empty one, by the
    calls of the manager and the watches firing, the records are
    accounted for: every live record is in one of the two lists, never
    in both, and the number of releases of a device so far is the number
    of records allocated so far less the live ones. *)
Theorem reachable_accounted s :
  reachable SERIAL_MANAGER_PATH SERIAL_MANAGER_INTERFACE MAX_PATH_LENGTH s →
  (length (released_of (log s)) + size (heap s))%nat = next_node s ∧
  ∀ p, is_Some (heap s !! p) →
       (p ∈ connected_nodes s ∨ p ∈ bound_nodes s) ∧
       ¬ (p ∈ connected_nodes s ∧ p ∈ bound_nodes s).
Proof.
  intros Hreach.
  assert (wf s ∧ accounted s) as [Hwf [Hcount Hlisted]].
  { induction Hreach as [|s s' _ [IHwf IHacc] Hstep].
    - split; [apply wf_empty|]. split; [done|]. apply map_Forall_empty.
    - split; [|by apply (step_accounted s s')].
      by apply (step_wf SERIAL_MANAGER_PATH SERIAL_MANAGER_INTERFACE
                        MAX_PATH_LENGTH s s'). }
  split; [done|]. intros p [n Hp]. split; [by apply (Hlisted p n)|].
  intros [Hc Hb]. by apply (wf_connected_not_bound s p).
Qed.

End Accounting.

Section Endings.

Variable SERIAL_MANAGER_PATH : string.
Variable SERIAL_MANAGER_INTERFACE : string.

(** X13: a connect whose node is then torn down by one of its watches,
    the transport watch on a hang-up or the name listener on the exit of
    the owner, gives the registry back as it was before the connect,
    whatever other nodes carry the same device name; the log has gained
    one ServiceDisconnected signal with the device name and one release
    of the device id. *)
Theorem connect_watch_round_trip s c dev_id dst_addr fd dev own :
  wf s →
  let after :=
    State (heap s) (S (next_node s)) (connected_nodes s) (bound_nodes s)
          (listeners s) (sources s) (S (next_source s)) (objects s)
          (log s ++ [EvConnRef c;
                     ServiceDisconnected SERIAL_MANAGER_PATH
                                         SERIAL_MANAGER_INTERFACE c dev;
                     EvConnUnref c; EvIoClose fd; EvIoUnref fd;
                     EvRelease dev_id]) in
  (_ ← port_add_listener true c dev_id dst_addr fd dev own;
   fire_io_watch SERIAL_MANAGER_PATH SERIAL_MANAGER_INTERFACE
                 (next_source s)) s = Some (tt, after) ∧
  (_ ← port_add_listener true c dev_id dst_addr fd dev own;
   fire_name_listener SERIAL_MANAGER_PATH SERIAL_MANAGER_INTERFACE
                      (c, own, next_node s)) s = Some (tt, after).
Proof.
  intros Hwf after.
  pose proof Hwf as (Hndc & Hndb & Hco & Hbo & Hndl & Hlo & Hso & Hsi & Hob
                       & Hinj & Hh).
  pose proof (wf_fresh_node s Hwf) as Hfresh.
  assert (∀ q, q ∈ connected_nodes s → q ≠ next_node s) as Hcne.
  { intros q Hq ->.
    destruct (wf_connected_node s _ Hwf Hq) as (n & _ & _ & _ & _ & Hn & _).
    congruence. }
  assert ((c, own, next_node s) ∉ listeners s) as Hnl.
  { intros Hin. apply (proj1 (Forall_forall _ _) Hlo) in Hin as [Hin _].
    by apply (Hcne _ Hin). }
  assert (sources s !! next_source s = None) as Hns.
  { destruct (sources s !! next_source s) eqn:E; [|done].
    apply (map_Forall_lookup_1 _ _ _ _ Hsi) in E. lia. }
  set (n := Node dev_id 0 dst_addr None (Some dev) (Some c) (Some own)
                 (Some fd) (next_source s)).
  assert (g_slist_remove (connected_nodes s ++ [next_node s]) (next_node s)
          = connected_nodes s) as Hrem.
  { rewrite g_slist_remove_middle, app_nil_r; [done|].
    intros Hin. by apply (Hcne _ Hin). }
  split; unfold mbind at 1, M_bind at 1; rewrite port_add_listener_run.
  - match goal with
    | |- fire_io_watch _ _ _ ?s1 = _ =>
        pose proof (fire_io_watch_run SERIAL_MANAGER_PATH
                      SERIAL_MANAGER_INTERFACE s1 (next_node s) n c own dev fd
                      (lookup_insert_eq _ _ _) eq_refl eq_refl eq_refl eq_refl
                      (lookup_insert_eq _ _ _)) as Hfire
    end.
    change (io_id n) with (next_source s) in Hfire at 1.
    rewrite Hfire. simpl. f_equal. f_equal. unfold after.
    rewrite !delete_insert_id, Hrem, remove_listener_last by done.
    by rewrite <- app_assoc.
  - erewrite (fire_name_listener_run _ _ _ (next_node s) n c own dev);
      [|simpl; apply lookup_insert_eq|done|done
       |simpl; apply elem_of_app; right; apply list_elem_of_here].
    simpl. f_equal. f_equal. unfold after.
    rewrite !delete_insert_id, Hrem, remove_listener_last by done.
    by rewrite <- app_assoc.
Qed.

End Endings.

Lemma elem_of_remove_listener_ne (l : list listener) e x :
  x ≠ e → x ∈ l → x ∈ remove_listener e l.
Proof.
  intros Hne. induction l as [|y l IH]; simpl; [done|].
  intros [Hx|Hx]%elem_of_cons.
  - subst y. destruct (decide (x = e)); [done|left].
  - destruct (decide (y = e)); [done|right; by apply IH].
Qed.

(** X12: the disconnect of one connected node leaves every other node as
    it was: its record, its place in its list, its transport watch and
    its name listener; [bound_nodes] and the published objects are not
    touched. *)
Theorem port_remove_listener_others s own dev p n q :
  wf s → first_with_device s (connected_nodes s) dev p →
  heap s !! p = Some n → owner n = Some own → q ≠ p →
  ∃ s',
    port_remove_listener own dev s = Some (0, s') ∧
    heap s' !! q = heap s !! q ∧
    (q ∈ connected_nodes s' ↔ q ∈ connected_nodes s) ∧
    bound_nodes s' = bound_nodes s ∧ objects s' = objects s ∧
    (∀ i, sources s !! i = Some q → sources s' !! i = Some q) ∧
    (∀ e, e ∈ listeners s → e.2 = q → e ∈ listeners s').
Proof.
  intros Hwf Hf Hp Hown Hne.
  destruct (wf_connected_node s p Hwf (first_with_device_elem _ _ _ _ Hf))
    as (n' & d & c & o & ch & Hn & _ & Hc & Ho & Hio & Hsrc).
  assert (n' = n) as -> by congruence.
  eexists. split; [by apply (port_remove_listener_run s own dev p n c)|].
  simpl. split; [by apply lookup_delete_ne|]. split.
  { split; [apply elem_of_g_slist_remove|by apply elem_of_g_slist_remove_ne]. }
  split; [done|]. split; [done|]. split.
  - intros i Hi. rewrite Hio. rewrite lookup_delete_ne; [done|].
    intros <-. congruence.
  - intros e He Heq. apply elem_of_remove_listener_ne; [|done].
    intros ->. by apply Hne.
Qed.

(** ** The methods of a published port *)

Section MethodProperties.

Variable SERIAL_MANAGER_PATH : string.
Variable MAX_PATH_LENGTH : nat.
Variable ba2str : bdaddr_t → string.
Variable read_device_name : bdaddr_t → bdaddr_t → option string.

(** X10: the six methods of [port_methods] only read.  Called on a live
    node, each of them returns NEED_MEMORY and sends nothing when the
    reply cannot be allocated; and whenever one of them answers, the
    state is as before, the call is reported as handled, and exactly one
    reply is sent, on the connection of the call, with the signature the
    table declares for the method.  No method takes an argument. *)
Theorem port_methods_reply name h insig outsig c p s n :
  (name, h, insig, outsig) ∈ port_methods ba2str read_device_name →
  heap s !! p = Some n →
  insig = "" ∧
  h false c p s = Some ((DBUS_HANDLER_RESULT_NEED_MEMORY, None), s) ∧
  ∀ r s', h true c p s = Some (r, s') →
          s' = s ∧ r.1 = DBUS_HANDLER_RESULT_HANDLED ∧
          ∃ args, r.2 = Some (c, args) ∧ signature_of args = outsig.
Proof.
  intros Hin Hp. unfold port_methods in Hin.
  repeat (apply elem_of_cons in Hin as [Hin|Hin];
          [injection Hin as -> -> -> ->|]);
    [..|by apply elem_of_nil in Hin];
    (split; [done|]);
    (split; [unfold port_get_address, port_get_device, port_get_adapter,
               port_get_name, port_get_service_name, port_get_info;
             run; by rewrite ?Hp|]);
    intros r s';
    unfold port_get_address, port_get_device, port_get_adapter,
      port_get_name, port_get_service_name, port_get_info,
      send_message_and_unref; run; rewrite Hp; simpl.
  - intros [= <- <-]. split; [done|]. split; [done|]. by eexists.
  - destruct (device n); simpl; [|done].
    intros [= <- <-]. split; [done|]. split; [done|]. by eexists.
  - intros [= <- <-]. split; [done|]. split; [done|]. by eexists.
  - intros [= <- <-]. split; [done|]. split; [done|]. by eexists.
  - destruct (svcname n); simpl; [|done].
    intros [= <- <-]. split; [done|]. split; [done|]. by eexists.
  - destruct (device n); simpl; [|done].
    intros [= <- <-]. split; [done|]. split; [done|]. by eexists.
Qed.

(** X11: what was registered is what the methods answer.  After a
    successful [port_register] the node published at the path returned
    answers GetDevice with the device name given, GetServiceName with the
    service name given or "Bluetooth RFCOMM port" when none was given,
    GetAddress with the destination address, GetAdapter with the source
    address, GetName with the stored name of the remote device or the
    empty string, and GetInfo with the device name and the destination
    address. *)
Theorem port_register_then_methods s c dev_id src_addr dst_addr dev svc c' :
  objects s !! (c, port_path SERIAL_MANAGER_PATH MAX_PATH_LENGTH dev_id)
    = None →
  ∃ s' p,
    port_register SERIAL_MANAGER_PATH MAX_PATH_LENGTH true true c dev_id
                  src_addr dst_addr dev true svc s
    = Some ((0, Some (port_path SERIAL_MANAGER_PATH MAX_PATH_LENGTH dev_id)),
            s') ∧
    objects s' !! (c, port_path SERIAL_MANAGER_PATH MAX_PATH_LENGTH dev_id)
      = Some p ∧
    port_get_device true c' p s'
      = Some ((DBUS_HANDLER_RESULT_HANDLED, Some (c', [DBusString dev])), s') ∧
    port_get_service_name true c' p s'
      = Some ((DBUS_HANDLER_RESULT_HANDLED,
               Some (c', [DBusString (default "Bluetooth RFCOMM port" svc)])),
              s') ∧
    port_get_address ba2str true c' p s'
      = Some ((DBUS_HANDLER_RESULT_HANDLED,
               Some (c', [DBusString (ba2str dst_addr)])), s') ∧
    port_get_adapter ba2str true c' p s'
      = Some ((DBUS_HANDLER_RESULT_HANDLED,
               Some (c', [DBusString (ba2str src_addr)])), s') ∧
    port_get_name read_device_name true c' p s'
      = Some ((DBUS_HANDLER_RESULT_HANDLED,
               Some (c', [DBusString
                            (default "" (read_device_name src_addr
                                                          dst_addr))])),
              s') ∧
    port_get_info ba2str true c' p s'
      = Some ((DBUS_HANDLER_RESULT_HANDLED,
               Some (c', [DBusDict [("device", dev);
                                    ("address", ba2str dst_addr)]])), s').
Proof.
  intros Hfree. eexists _, (next_node s).
  split; [by apply port_register_success_run|].
  split; [simpl; apply lookup_insert_eq|].
  unfold port_get_address, port_get_device, port_get_adapter, port_get_name,
    port_get_service_name, port_get_info, send_message_and_unref.
  run. rewrite !lookup_insert_eq. simpl. repeat split; reflexivity.
Qed.

End MethodProperties.


(** ** The further properties on the examples *)

Lemma find_node_by_name_sound_witness :
  0%nat ∈ connected_nodes ex_twins ∧
  device_at ex_twins 0%nat = Some "/dev/rfcomm0".
Proof.
  destruct (find_node_by_name_sound ex_twins "/dev/rfcomm0"
              (connected_nodes ex_twins) (Some 0%nat) ex_twins)
    as (_ & H1 & H2 & _).
  - calc.
  - split; [exact H1|exact H2].
Defined.

Lemma reachable_calls_defined_witness :
  wf ex_twins ∧
  is_Some (port_remove_listener "org.client.Y" "/dev/rfcomm0" ex_twins) ∧
  ¬ is_Some (port_release_all ex_twins).
Proof.
  destruct (reachable_calls_defined manager_path manager_interface
              max_path_length ex_twins) as (H1 & _ & H3 & _ & _ & H6 & _).
  - eapply reachable_step; [eapply reachable_step; [apply reachable_init|]|].
    + eapply (step_port_add_listener _ _ _ true 1%nat 0 22 9 "/dev/rfcomm0"
                "org.client.Z"). calc.
    + eapply (step_port_add_listener _ _ _ true 1%nat 1 33 10 "/dev/rfcomm0"
                "org.client.Y" 0). calc.
  - split; [exact H1|]. split; [apply H3|].
    intros H. by apply H6 in H.
Defined.

Lemma reachable_accounted_witness :
  (length (released_of (log ex_mismatch_unregistered))
   + size (heap ex_mismatch_unregistered))%nat = 2%nat.
Proof.
  apply (reachable_accounted manager_path manager_interface max_path_length
           ex_mismatch_unregistered).
  eapply reachable_step;
    [eapply reachable_step; [eapply reachable_step;
                               [apply reachable_init|]|]|].
  - eapply (step_port_register _ _ _ true true 1%nat 3 11 22 "/dev/port3"
              true None). calc.
  - eapply (step_port_register _ _ _ true true 1%nat 5 11 33 "/dev/rfcomm3"
              true (Some "OBEX")). calc.
  - eapply (step_port_unregister _ _ _ "/org/bluez/serial/rfcomm3" 0). calc.
Defined.

Lemma connect_disconnect_round_trip_witness :
  (_ ← port_add_listener true 1%nat 1 33 10 "/dev/rfcomm1" "org.client.Y";
   port_remove_listener "org.client.Y" "/dev/rfcomm1") ex_scenario
  = Some (0, State (heap ex_scenario) 3%nat [1%nat] [0%nat]
                   (listeners ex_scenario) (sources ex_scenario) 3%nat
                   (objects ex_scenario)
                   (log ex_scenario ++
                    [EvConnRef 1%nat; EvConnUnref 1%nat; EvIoClose 10;
                     EvIoUnref 10; EvRelease 1])).
Proof.
  apply (connect_disconnect_round_trip ex_scenario 1%nat 1 33 10
           "/dev/rfcomm1" "org.client.Y").
  - decide_wf.
  - constructor; [|constructor].
    exists "/dev/rfcomm0". split; [calc|discriminate].
Defined.

Lemma register_unregister_round_trip_witness :
  (_ ← port_register manager_path max_path_length true true 1%nat 7 11 22
                     (rfcomm_dev_name 7) true None;
   port_unregister manager_path
                   (port_path manager_path max_path_length 7)) init
  = Some (0, State ∅ 1%nat [] [] [] ∅ 1%nat ∅
                   [EvConnRef 1%nat; EvConnUnref 1%nat; EvRelease 7]).
Proof.
  apply (register_unregister_round_trip manager_path max_path_length init
           1%nat 7 11 22 true None).
  - decide_wf.
  - lia.
  - vm_compute. lia.
  - constructor.
  - calc.
Defined.

Lemma port_path_read_back_witness :
  sscanf_rfcomm manager_path (port_path manager_path max_path_length (-3))
    = Some (-3) ∧
  sscanf_rfcomm manager_path
    (port_path manager_path max_path_length (-3) +:+ "/extra") = Some (-3).
Proof.
  apply (port_path_read_back manager_path max_path_length (-3) "/extra").
  - lia.
  - vm_compute. lia.
  - reflexivity.
Defined.

Lemma port_unregister_five_digits_witness :
  rfcomm_dev_name 12345 = "/dev/rfcomm1234" ∧
  ∃ s', port_unregister manager_path "/org/bluez/serial/rfcomm12345"
                        ex_four_digits = Some (0, s').
Proof.
  destruct (port_unregister_five_digits manager_path ex_four_digits
              "/org/bluez/serial/rfcomm12345" 12345)
    as (H1 & _ & r & s' & Hrun & Hr & _).
  - decide_wf.
  - lia.
  - calc.
  - split; [exact H1|]. exists s'.
    assert (r = 0) as <-; [|exact Hrun].
    apply Hr. exists 0%nat. split; [apply list_elem_of_here|calc].
Defined.

Lemma calls_emit_no_signal_witness :
  signals_of (log ex_scenario_disconnected) = signals_of (log ex_scenario).
Proof.
  apply (calls_emit_no_signal manager_path max_path_length).
  apply (call_port_remove_listener _ _ "org.client.Z" "/dev/rfcomm0" 0). calc.
Defined.

Lemma port_remove_listener_others_witness :
  ∃ s', port_remove_listener "org.client.Z" "/dev/rfcomm0" ex_twins
          = Some (0, s') ∧
        heap s' !! 1%nat = Some ex_twin_second ∧
        1%nat ∈ connected_nodes s'.
Proof.
  destruct (port_remove_listener_others ex_twins "org.client.Z"
              "/dev/rfcomm0" 0%nat ex_twin_first 1%nat)
    as (s' & H1 & H2 & H3 & _).
  - decide_wf.
  - exists [], [1%nat]. split; [reflexivity|]. split; [constructor|calc].
  - calc.
  - reflexivity.
  - discriminate.
  - exists s'. split; [exact H1|]. split.
    + rewrite H2. calc.
    + apply H3. right. apply list_elem_of_here.
Defined.

Lemma port_methods_reply_witness :
  port_get_info ex_ba2str false 1%nat 0%nat ex_scenario
    = Some ((DBUS_HANDLER_RESULT_NEED_MEMORY, None), ex_scenario).
Proof.
  apply (port_methods_reply ex_ba2str ex_read_device_name "GetInfo"
           (port_get_info ex_ba2str) "" "a{sv}" 1%nat 0%nat ex_scenario
           ex_bound_record).
  - unfold port_methods. do 5 right. left.
  - calc.
Defined.

Lemma port_register_then_methods_witness :
  ∃ s' p,
    port_register manager_path max_path_length true true 1%nat 0 11 22
                  "/dev/rfcomm0" true None init
    = Some ((0, Some "/org/bluez/serial/rfcomm0"), s') ∧
    port_get_service_name true 1%nat p s'
    = Some ((DBUS_HANDLER_RESULT_HANDLED,
             Some (1%nat, [DBusString "Bluetooth RFCOMM port"])), s') ∧
    port_get_address ex_ba2str true 1%nat p s'
    = Some ((DBUS_HANDLER_RESULT_HANDLED,
             Some (1%nat, [DBusString "00:00:00:00:00:16"])), s') ∧
    port_get_name ex_read_device_name true 1%nat p s'
    = Some ((DBUS_HANDLER_RESULT_HANDLED,
             Some (1%nat, [DBusString "Headset"])), s').
Proof.
  destruct (port_register_then_methods manager_path max_path_length ex_ba2str
              ex_read_device_name init 1%nat 0 11 22 "/dev/rfcomm0" None
              1%nat) as (s' & p & H1 & _ & _ & H4 & H5 & _ & H7 & _).
  - calc.
  - exists s', p. split; [exact H1|]. split; [exact H4|].
    split; [exact H5|exact H7].
Defined.

Lemma connect_watch_round_trip_witness :
  (_ ← port_add_listener true 1%nat 1 33 10 "/dev/rfcomm0" "org.client.Y";
   fire_io_watch manager_path manager_interface (next_source ex_scenario))
    ex_scenario
  = Some (tt, State (heap ex_scenario) (S (next_node ex_scenario))
                    (connected_nodes ex_scenario) (bound_nodes ex_scenario)
                    (listeners ex_scenario) (sources ex_scenario)
                    (S (next_source ex_scenario)) (objects ex_scenario)
                    (log ex_scenario ++
                     [EvConnRef 1%nat;
                      ServiceDisconnected manager_path manager_interface
                                          1%nat "/dev/rfcomm0";
                      EvConnUnref 1%nat; EvIoClose 10; EvIoUnref 10;
                      EvRelease 1])).
Proof.
  refine (proj1 (connect_watch_round_trip manager_path manager_interface
                   ex_scenario 1%nat 1 33 10 "/dev/rfcomm0" "org.client.Y"
                   _)).
  decide_wf.
Defined.

